(** * Motion-Tracker: the motion analyzer of src/services/motionAnalyzer.ts

    A shallow embedding of the smoothing window ([VelocityBuffer]), the
    per-hand hysteresis state machine ([MotionAnalyzer.analyzeHand]) and the
    session coordinator ([MotionAnalyzer.processFrame]), followed by the
    properties of the event log they produce.

    Numbers.  A TypeScript [number] that holds a measurement (coordinates,
    speeds, timestamps, the threshold) is a rational [Q] with exact
    arithmetic; NaN, the infinities and rounding are outside the model.  A
    [number] that counts (frame counters, the two session counters, the two
    frame counts of the configuration) is an unbounded [Z].  [Math.sqrt] is a
    builtin of the host and is taken as a parameter [Math_sqrt]. *)

From Stdlib Require Import ZArith QArith Bool List String Lia Lqa.
From Stdlib Require Import DecimalString DecimalPos DecimalZ FinFun.
Import ListNotations.

Local Open Scope Z_scope.
Local Open Scope Q_scope.

(** ** Numbers *)

(** [a < b] on numbers, as a test. *)
Definition Qltb (a b : Q) : bool := negb (Qle_bool b a).

(** A rational stand-in for [Math.sqrt], used only to run the analyzer on
    concrete frames: it is exact on the squares of rationals (whatever the
    representation of the fraction) and rounds down elsewhere. *)
Definition Qsqrt (q : Q) : Q :=
  Z.sqrt (Qnum q * Zpos (Qden q)) # Qden q.

(** The decimal rendering of a counter inside a template string. *)
Definition decimal (n : Z) : string := NilZero.string_of_int (Z.to_int n).

(** ** src/types.ts *)

Module Point.
Record t : Type := mk { x : Q; y : Q; z : Q }.
End Point.

Inductive Handedness : Type := Left | Right.

Definition Handedness_eqb (a b : Handedness) : bool :=
  match a, b with
  | Left, Left | Right, Right => true
  | _, _ => false
  end.

Module HandData.
Record t : Type := mk {
  handedness : Handedness;
  landmarks : list Point.t;
  velocity : Q;
  isMoving : bool;
  score : Q
}.
End HandData.

Inductive EventType : Type := START | STOP.

Module MotionEvent.
Record t : Type := mk {
  id : string;
  hand : Handedness;
  type : EventType;
  timestamp : Q;
  duration : option Q;
  distance : option Q;
  orderIndex : option Z
}.
End MotionEvent.

Record TrackerConfig : Type := {
  threshold : Q;
  smoothingFrames : Z;
  minDurationFrames : Z
}.

(** ** Completions: a call returns or throws *)

Inductive JsError : Type := TypeError.

Inductive Completion (A : Type) : Type :=
| Normal (a : A)
| Throw (e : JsError).
Arguments Normal {A} a.
Arguments Throw {A} e.

(** ** class VelocityBuffer *)

Module VelocityBuffer.
Record t : Type := mk { buffer : list Q; size : Z }.

Definition constructor (size : Z) : t := mk [] size.

(** [push], then one [shift] when the length exceeds [size]. *)
Definition add (val : Q) (this : t) : t :=
  let pushed := buffer this ++ [val] in
  if (size this <? Z.of_nat (List.length pushed))%Z
  then mk (tl pushed) (size this)
  else mk pushed (size this).

Definition average (this : t) : Q :=
  if Nat.eqb (List.length (buffer this)) 0 then 0
  else
    let sum := fold_left Qplus (buffer this) 0 in
    sum / inject_Z (Z.of_nat (List.length (buffer this))).

Definition reset (this : t) : t := mk [] (size this).
End VelocityBuffer.

(** ** interface HandState *)

Record HandState : Type := {
  isMoving : bool;
  motionStartTime : option Q;
  lastPosition : option Point.t;
  totalDistance : Q;
  velocityBuffer : VelocityBuffer.t;
  framesBelowThreshold : Z;
  framesAboveThreshold : Z
}.

(** Field assignments [state.f = v]. *)
Definition set_isMoving (v : bool) (s : HandState) : HandState :=
  {| isMoving := v; motionStartTime := motionStartTime s;
     lastPosition := lastPosition s; totalDistance := totalDistance s;
     velocityBuffer := velocityBuffer s;
     framesBelowThreshold := framesBelowThreshold s;
     framesAboveThreshold := framesAboveThreshold s |}.

Definition set_motionStartTime (v : option Q) (s : HandState) : HandState :=
  {| isMoving := isMoving s; motionStartTime := v;
     lastPosition := lastPosition s; totalDistance := totalDistance s;
     velocityBuffer := velocityBuffer s;
     framesBelowThreshold := framesBelowThreshold s;
     framesAboveThreshold := framesAboveThreshold s |}.

Definition set_lastPosition (v : option Point.t) (s : HandState) : HandState :=
  {| isMoving := isMoving s; motionStartTime := motionStartTime s;
     lastPosition := v; totalDistance := totalDistance s;
     velocityBuffer := velocityBuffer s;
     framesBelowThreshold := framesBelowThreshold s;
     framesAboveThreshold := framesAboveThreshold s |}.

Definition set_totalDistance (v : Q) (s : HandState) : HandState :=
  {| isMoving := isMoving s; motionStartTime := motionStartTime s;
     lastPosition := lastPosition s; totalDistance := v;
     velocityBuffer := velocityBuffer s;
     framesBelowThreshold := framesBelowThreshold s;
     framesAboveThreshold := framesAboveThreshold s |}.

Definition set_velocityBuffer (v : VelocityBuffer.t) (s : HandState) : HandState :=
  {| isMoving := isMoving s; motionStartTime := motionStartTime s;
     lastPosition := lastPosition s; totalDistance := totalDistance s;
     velocityBuffer := v;
     framesBelowThreshold := framesBelowThreshold s;
     framesAboveThreshold := framesAboveThreshold s |}.

Definition set_framesBelowThreshold (v : Z) (s : HandState) : HandState :=
  {| isMoving := isMoving s; motionStartTime := motionStartTime s;
     lastPosition := lastPosition s; totalDistance := totalDistance s;
     velocityBuffer := velocityBuffer s;
     framesBelowThreshold := v;
     framesAboveThreshold := framesAboveThreshold s |}.

Definition set_framesAboveThreshold (v : Z) (s : HandState) : HandState :=
  {| isMoving := isMoving s; motionStartTime := motionStartTime s;
     lastPosition := lastPosition s; totalDistance := totalDistance s;
     velocityBuffer := velocityBuffer s;
     framesBelowThreshold := framesBelowThreshold s;
     framesAboveThreshold := v |}.

(** ** class MotionAnalyzer *)

(** Which of the analyzer's two hand states a [state] argument aliases. *)
Inductive HandRef : Type := ThisLeftHand | ThisRightHand.

Module MotionAnalyzer.
Record t : Type := mk {
  config : TrackerConfig;
  leftHand : HandState;
  rightHand : HandState;
  sessionStartTime : Q;
  eventCounter : Z;
  moveOrderCounter : Z
}.

(** Reading and writing through a [HandRef]. *)
Definition deref (r : HandRef) (this : t) : HandState :=
  match r with
  | ThisLeftHand => leftHand this
  | ThisRightHand => rightHand this
  end.

Definition assign (r : HandRef) (s : HandState) (this : t) : t :=
  match r with
  | ThisLeftHand =>
      mk (config this) s (rightHand this) (sessionStartTime this)
         (eventCounter this) (moveOrderCounter this)
  | ThisRightHand =>
      mk (config this) (leftHand this) s (sessionStartTime this)
         (eventCounter this) (moveOrderCounter this)
  end.

Definition set_eventCounter (v : Z) (this : t) : t :=
  mk (config this) (leftHand this) (rightHand this) (sessionStartTime this)
     v (moveOrderCounter this).

Definition set_moveOrderCounter (v : Z) (this : t) : t :=
  mk (config this) (leftHand this) (rightHand this) (sessionStartTime this)
     (eventCounter this) v.

Definition createHandState (config : TrackerConfig) : HandState :=
  {| isMoving := false;
     motionStartTime := None;
     lastPosition := None;
     totalDistance := 0;
     velocityBuffer := VelocityBuffer.constructor (smoothingFrames config);
     framesBelowThreshold := 0;
     framesAboveThreshold := 0 |}.

(** The object [new MotionAnalyzer(config)] builds: the field initialisers,
    then the constructor body.  Nothing in it inspects [config]. *)
Definition new (config : TrackerConfig) : t :=
  mk config (createHandState config) (createHandState config) 0 0%Z 0%Z.

(** The constructor call as a completion, so that "the constructor
    rejects a configuration" has a meaning: it would be a [Throw]. *)
Definition constructor (config : TrackerConfig) : Completion t :=
  Normal (new config).

(** [now] is the value of [performance.now()] at the call. *)
Definition resetSession (now : Q) (this : t) : t :=
  mk (config this) (createHandState (config this))
     (createHandState (config this)) now 0%Z 0%Z.

(** [!landmarks || landmarks.length === 0] *)
Definition lost (landmarks : option (list Point.t)) : bool :=
  match landmarks with
  | None => true
  | Some [] => true
  | Some (_ :: _) => false
  end.

Record FrameResult : Type := mkResult {
  events : list MotionEvent.t;
  leftMetrics : option HandData.t;
  rightMetrics : option HandData.t
}.

Section WithSqrt.
Variable Math_sqrt : Q -> Q.

(** Lines 109-121: the speed of the representative point since the last
    visible frame, zero on the first one. *)
Definition instantaneousVelocity (state : HandState) (currentPos : Point.t) : Q :=
  match lastPosition state with
  | Some last =>
      let dx := Point.x currentPos - Point.x last in
      let dy := Point.y currentPos - Point.y last in
      let dist := Math_sqrt (dx * dx + dy * dy) in
      dist * 100
  | None => 0
  end.

(** [analyzeHand]: [state] aliases one of the two hand states of [this];
    [events] is the array of the enclosing [processFrame] call.  The call
    returns the readout, or throws when [landmarks[9]] is [undefined]
    (reading [p2.x]), which happens before anything is written. *)
Definition analyzeHand (timestamp : Q) (handedness : Handedness)
    (landmarks : option (list Point.t)) (state : HandRef)
    (events : list MotionEvent.t) (this : t)
  : Completion (option HandData.t) * list MotionEvent.t * t :=
  let st := deref state this in
  if lost landmarks then
    let st := set_velocityBuffer (VelocityBuffer.add 0 (velocityBuffer st)) st in
    (Normal None, events, assign state st this)
  else
    let lms := match landmarks with Some l => l | None => [] end in
    match nth_error lms 0, nth_error lms 9 with
    | Some p1, Some p2 =>
        let currentPos :=
          Point.mk ((Point.x p1 + Point.x p2) / 2)
                   ((Point.y p1 + Point.y p2) / 2)
                   ((Point.z p1 + Point.z p2) / 2) in
        let instantaneousVelocity := instantaneousVelocity st currentPos in
        let st := set_lastPosition (Some currentPos) st in
        let st := set_velocityBuffer
                    (VelocityBuffer.add instantaneousVelocity (velocityBuffer st)) st in
        let smoothedVelocity := VelocityBuffer.average (velocityBuffer st) in
        let '(st, events, this) :=
          if negb (isMoving st) then
            if Qltb (threshold (config this)) smoothedVelocity then
              let st := set_framesAboveThreshold (framesAboveThreshold st + 1)%Z st in
              if (minDurationFrames (config this) <=? framesAboveThreshold st)%Z then
                let st := set_isMoving true st in
                let st := set_motionStartTime (Some timestamp) st in
                let st := set_totalDistance 0 st in
                let this := set_moveOrderCounter (moveOrderCounter this + 1)%Z this in
                let evt :=
                  MotionEvent.mk
                    (String.append "evt_" (decimal (eventCounter this)))
                    handedness START
                    (timestamp - sessionStartTime this)
                    None None
                    (Some (moveOrderCounter this)) in
                let this := set_eventCounter (eventCounter this + 1)%Z this in
                (st, events ++ [evt], this)
              else (st, events, this)
            else
              (set_framesAboveThreshold 0%Z st, events, this)
          else
            let st := set_totalDistance (totalDistance st + instantaneousVelocity) st in
            if Qltb smoothedVelocity (threshold (config this) * 0.5) then
              let st := set_framesBelowThreshold (framesBelowThreshold st + 1)%Z st in
              if (minDurationFrames (config this) <=? framesBelowThreshold st)%Z then
                let st := set_isMoving false st in
                let started :=
                  match motionStartTime st with
                  | Some m => if Qeq_bool m 0 then timestamp else m
                  | None => timestamp
                  end in
                let duration := timestamp - started in
                let evt :=
                  MotionEvent.mk
                    (String.append "evt_" (decimal (eventCounter this)))
                    handedness STOP
                    (timestamp - sessionStartTime this)
                    (Some duration)
                    (Some (totalDistance st))
                    None in
                let this := set_eventCounter (eventCounter this + 1)%Z this in
                let st := set_motionStartTime None st in
                (st, events ++ [evt], this)
              else (st, events, this)
            else
              (set_framesBelowThreshold 0%Z st, events, this) in
        (Normal (Some (HandData.mk handedness lms smoothedVelocity (isMoving st) 1)),
         events, assign state st this)
    | _, _ => (Throw TypeError, events, this)
    end.

(** [processFrame]: the left hand, then the right hand, on one fresh
    [events] array.  A throw of the second call leaves what the first
    call wrote. *)
Definition processFrame (timestamp : Q)
    (leftLandmarks rightLandmarks : option (list Point.t)) (this : t)
  : Completion FrameResult * t :=
  let events := [] in
  let '(c, events, this) :=
    analyzeHand timestamp Left leftLandmarks ThisLeftHand events this in
  match c with
  | Throw e => (Throw e, this)
  | Normal leftMetrics =>
      let '(c, events, this) :=
        analyzeHand timestamp Right rightLandmarks ThisRightHand events this in
      match c with
      | Throw e => (Throw e, this)
      | Normal rightMetrics =>
          (Normal (mkResult events leftMetrics rightMetrics), this)
      end
  end.
End WithSqrt.
End MotionAnalyzer.

(** ** The frame loop (src/App.tsx, [handleFrame] under the animation loop of
    src/components/CameraView.tsx)

    Each tick calls [processFrame] once and appends the returned events to the
    log ([setEvents(prev => [...prev, ...analysis.events])]).  A throw inside
    the tick leaves [loop] before it re-arms [requestAnimationFrame], so the
    first throw ends the run. *)

Record Frame : Type := {
  time : Q;
  leftLM : option (list Point.t);
  rightLM : option (list Point.t)
}.

Record Run : Type := {
  results : list MotionAnalyzer.FrameResult;
  final : MotionAnalyzer.t;
  crash : option JsError
}.

Fixpoint handleFrames (Math_sqrt : Q -> Q) (frames : list Frame)
    (this : MotionAnalyzer.t) : Run :=
  match frames with
  | [] => {| results := []; final := this; crash := None |}
  | f :: rest =>
      match MotionAnalyzer.processFrame Math_sqrt (time f) (leftLM f) (rightLM f) this with
      | (Normal r, this) =>
          let run := handleFrames Math_sqrt rest this in
          {| results := r :: results run; final := final run; crash := crash run |}
      | (Throw e, this) =>
          {| results := []; final := this; crash := Some e |}
      end
  end.

(** The session log: the events of every tick, in order. *)
Definition eventLog (run : Run) : list MotionEvent.t :=
  flat_map MotionAnalyzer.events (results run).

(** A session begins at construction or at a reset. *)
Inductive SessionOrigin : Type :=
| Constructed (config : TrackerConfig)
| Restarted (now : Q) (previous : MotionAnalyzer.t).

Definition sessionStart (origin : SessionOrigin) : MotionAnalyzer.t :=
  match origin with
  | Constructed config => MotionAnalyzer.new config
  | Restarted now previous => MotionAnalyzer.resetSession now previous
  end.

(** ** The per-hand machine, read off [analyzeHand]

    [handStep] is what one [analyzeHand] call does to the hand state it is
    given, with the event it pushes summarised as a [Transition]; [emit] is
    what the call does to the session counters and the [events] array.
    [analyzeHand_handStep] below proves that the method is their composition,
    so facts about one hand are proved on [handStep] and carried to
    [processFrame]. *)

Inductive Transition : Type :=
| Quiet
| Started
| Stopped (duration distance : Q).

(** The midpoint of landmarks 0 and 9, when both exist. *)
Definition representative (lms : list Point.t) : option Point.t :=
  match nth_error lms 0, nth_error lms 9 with
  | Some p1, Some p2 =>
      Some (Point.mk ((Point.x p1 + Point.x p2) / 2)
                     ((Point.y p1 + Point.y p2) / 2)
                     ((Point.z p1 + Point.z p2) / 2))
  | _, _ => None
  end.

(** [state.motionStartTime || timestamp] *)
Definition startedAt (st : HandState) (timestamp : Q) : Q :=
  match motionStartTime st with
  | Some m => if Qeq_bool m 0 then timestamp else m
  | None => timestamp
  end.

Record HandStep : Type := {
  after : HandState;
  transition : Transition;
  raw : option Q;        (* instantaneous speed; [None] when the hand is lost *)
  smoothed : option Q    (* the window average read back; [None] when lost *)
}.

Section Machine.
Variable Math_sqrt : Q -> Q.
Variable cfg : TrackerConfig.

Definition handStep (timestamp : Q) (landmarks : option (list Point.t))
    (st : HandState) : Completion HandStep :=
  if MotionAnalyzer.lost landmarks then
    Normal {| after := set_velocityBuffer (VelocityBuffer.add 0 (velocityBuffer st)) st;
              transition := Quiet; raw := None; smoothed := None |}
  else
    match representative (match landmarks with Some l => l | None => [] end) with
    | None => Throw TypeError
    | Some pos =>
        let v := MotionAnalyzer.instantaneousVelocity Math_sqrt st pos in
        let window := VelocityBuffer.add v (velocityBuffer st) in
        let s := VelocityBuffer.average window in
        let seen := set_velocityBuffer window (set_lastPosition (Some pos) st) in
        if isMoving st then
          let seen := set_totalDistance (totalDistance st + v) seen in
          if Qltb s (threshold cfg * 0.5) then
            let below := (framesBelowThreshold st + 1)%Z in
            if (minDurationFrames cfg <=? below)%Z then
              Normal {| after := set_motionStartTime None
                                   (set_isMoving false
                                      (set_framesBelowThreshold below seen));
                        transition := Stopped (timestamp - startedAt st timestamp)
                                              (totalDistance st + v);
                        raw := Some v; smoothed := Some s |}
            else
              Normal {| after := set_framesBelowThreshold below seen;
                        transition := Quiet; raw := Some v; smoothed := Some s |}
          else
            Normal {| after := set_framesBelowThreshold 0%Z seen;
                      transition := Quiet; raw := Some v; smoothed := Some s |}
        else
          if Qltb (threshold cfg) s then
            let above := (framesAboveThreshold st + 1)%Z in
            if (minDurationFrames cfg <=? above)%Z then
              Normal {| after := set_totalDistance 0
                                   (set_motionStartTime (Some timestamp)
                                      (set_isMoving true
                                         (set_framesAboveThreshold above seen)));
                        transition := Started;
                        raw := Some v; smoothed := Some s |}
            else
              Normal {| after := set_framesAboveThreshold above seen;
                        transition := Quiet; raw := Some v; smoothed := Some s |}
          else
            Normal {| after := set_framesAboveThreshold 0%Z seen;
                      transition := Quiet; raw := Some v; smoothed := Some s |}
    end.
End Machine.

(** The event a transition pushes and the counters it moves. *)
Definition emit (tr : Transition) (handedness : Handedness) (timestamp : Q)
    (this : MotionAnalyzer.t) : list MotionEvent.t * MotionAnalyzer.t :=
  match tr with
  | Quiet => ([], this)
  | Started =>
      ([MotionEvent.mk
          (String.append "evt_" (decimal (MotionAnalyzer.eventCounter this)))
          handedness START
          (timestamp - MotionAnalyzer.sessionStartTime this)
          None None
          (Some (MotionAnalyzer.moveOrderCounter this + 1)%Z)],
       MotionAnalyzer.set_eventCounter (MotionAnalyzer.eventCounter this + 1)%Z
         (MotionAnalyzer.set_moveOrderCounter
            (MotionAnalyzer.moveOrderCounter this + 1)%Z this))
  | Stopped duration distance =>
      ([MotionEvent.mk
          (String.append "evt_" (decimal (MotionAnalyzer.eventCounter this)))
          handedness STOP
          (timestamp - MotionAnalyzer.sessionStartTime this)
          (Some duration) (Some distance) None],
       MotionAnalyzer.set_eventCounter (MotionAnalyzer.eventCounter this + 1)%Z this)
  end.

(** The readout [analyzeHand] returns. *)
Definition readout (handedness : Handedness) (landmarks : option (list Point.t))
    (step : HandStep) : option HandData.t :=
  match smoothed step with
  | None => None
  | Some s =>
      Some (HandData.mk handedness
              (match landmarks with Some l => l | None => [] end)
              s (isMoving (after step)) 1)
  end.

(** The analyzer between the two [analyzeHand] calls of a frame. *)
Definition afterLeft (timestamp : Q) (step : HandStep) (this : MotionAnalyzer.t)
  : MotionAnalyzer.t :=
  MotionAnalyzer.assign ThisLeftHand (after step)
    (snd (emit (transition step) Left timestamp this)).

(** ** Reading a run *)

Definition refOf (h : Handedness) : HandRef :=
  match h with Left => ThisLeftHand | Right => ThisRightHand end.

Definition handOf (h : Handedness) (this : MotionAnalyzer.t) : HandState :=
  MotionAnalyzer.deref (refOf h) this.

Definition landmarksOf (h : Handedness) (f : Frame) : option (list Point.t) :=
  match h with Left => leftLM f | Right => rightLM f end.

Definition eventsOf (h : Handedness) (log : list MotionEvent.t) : list MotionEvent.t :=
  filter (fun e => Handedness_eqb (MotionEvent.hand e) h) log.

Definition isStart (e : MotionEvent.t) : bool :=
  match MotionEvent.type e with START => true | STOP => false end.

Definition isStop (e : MotionEvent.t) : bool :=
  match MotionEvent.type e with START => false | STOP => true end.

Definition kinds (log : list MotionEvent.t) : list EventType :=
  map MotionEvent.type log.

Definition metricsOf (h : Handedness) (r : MotionAnalyzer.FrameResult) : option HandData.t :=
  match h with
  | Left => MotionAnalyzer.leftMetrics r
  | Right => MotionAnalyzer.rightMetrics r
  end.

(** What a frame without the hand leaves alone: everything but the window. *)
Definition heldState (st st' : HandState) : Prop :=
  isMoving st' = isMoving st /\
  motionStartTime st' = motionStartTime st /\
  lastPosition st' = lastPosition st /\
  totalDistance st' = totalDistance st /\
  framesBelowThreshold st' = framesBelowThreshold st /\
  framesAboveThreshold st' = framesAboveThreshold st.

(** The kinds of one hand's events alternate: a [START] first, and no two
    neighbours of the same kind (so the list may end on a [START]). *)
Definition alternating (l : list EventType) : Prop :=
  (forall k, hd_error l = Some k -> k = START) /\
  (forall i a b, nth_error l i = Some a -> nth_error l (S i) = Some b -> a <> b).

(** The same, as a test, for a hand that is [moving] before the first event. *)
Fixpoint alternatesFrom (moving : bool) (l : list EventType) : bool :=
  match l with
  | [] => true
  | START :: l => negb moving && alternatesFrom true l
  | STOP :: l => moving && alternatesFrom false l
  end.

(** The ordinals carried by the [START] events of a log, in log order. *)
Definition startOrdinals (log : list MotionEvent.t) : list (option Z) :=
  map MotionEvent.orderIndex (filter isStart log).

(** Every entry is present and larger than every earlier entry. *)
Definition strictlyIncreasing (l : list (option Z)) : Prop :=
  forall i j a b, (i < j)%nat -> nth_error l i = Some a -> nth_error l j = Some b ->
    exists m n, a = Some m /\ b = Some n /\ (m < n)%Z.

(** [c+1; c+2; ...; c+n] *)
Fixpoint countFrom (c : Z) (n : nat) : list Z :=
  match n with
  | O => []
  | S n => (c + 1)%Z :: countFrom (c + 1)%Z n
  end.

(** A landmark list on which [landmarks[9]] is [undefined]: not empty, and
    shorter than ten points. *)
Definition malformed (landmarks : option (list Point.t)) : bool :=
  match landmarks with
  | Some l => negb (Nat.eqb (List.length l) 0) && Nat.ltb (List.length l) 10
  | None => false
  end.

Definition throws {A : Type} (c : Completion A) : bool :=
  match c with Normal _ => false | Throw _ => true end.

(** The index of the first frame whose left-hand readout shows a smoothed
    velocity above [level]. *)
Fixpoint firstAbove (level : Q) (rs : list MotionAnalyzer.FrameResult) : option nat :=
  match rs with
  | [] => None
  | r :: rs =>
      match MotionAnalyzer.leftMetrics r with
      | Some m =>
          if Qltb level (HandData.velocity m) then Some O
          else option_map S (firstAbove level rs)
      | None => option_map S (firstAbove level rs)
      end
  end.

(** The indices of the frames that returned an event of kind [k], one entry
    per event. *)
Fixpoint framesWith (k : EventType) (i : nat) (rs : list MotionAnalyzer.FrameResult)
  : list nat :=
  match rs with
  | [] => []
  | r :: rs =>
      map (fun _ => i)
          (filter (fun e => match MotionEvent.type e, k with
                            | START, START | STOP, STOP => true
                            | _, _ => false
                            end)
                  (MotionAnalyzer.events r))
      ++ framesWith k (S i) rs
  end.

(** The instantaneous speeds [analyzeHand] computes for hand [h] on the
    frames of a run where the hand is visible, in order. *)
Fixpoint rawSpeeds (Math_sqrt : Q -> Q) (h : Handedness) (frames : list Frame)
    (this : MotionAnalyzer.t) : list Q :=
  match frames with
  | [] => []
  | f :: rest =>
      match MotionAnalyzer.processFrame Math_sqrt (time f) (leftLM f) (rightLM f) this with
      | (Normal _, this') =>
          match handStep Math_sqrt (MotionAnalyzer.config this) (time f)
                  (landmarksOf h f) (handOf h this) with
          | Normal step =>
              match raw step with Some v => [v] | None => [] end
          | Throw _ => []
          end ++ rawSpeeds Math_sqrt h rest this'
      | (Throw _, _) => []
      end
  end.

(** ** The window of a hand at rest *)

Definition isZero (q : Q) : Prop := q == 0.

(** The window ends with at least [k] zero samples, or holds zeros only. *)
Definition zeroRun (k : nat) (buf : list Q) : Prop :=
  exists pre zs,
    buf = pre ++ zs /\ Forall isZero zs /\ (pre = [] \/ (k <= List.length zs)%nat).

(** What every hand state of a session satisfies: the window was built for
    the configured capacity and holds no more samples than that, and the
    stop counter is not negative. *)
Definition soundHand (cfg : TrackerConfig) (st : HandState) : Prop :=
  VelocityBuffer.size (velocityBuffer st) = smoothingFrames cfg /\
  (Z.of_nat (List.length (VelocityBuffer.buffer (velocityBuffer st)))
     <= smoothingFrames cfg)%Z /\
  (0 <= framesBelowThreshold st)%Z.

(** A moving hand last seen at [pos], whose window ends with [k] zeros. *)
Definition resting (cfg : TrackerConfig) (pos : Point.t) (k : nat) (st : HandState) : Prop :=
  soundHand cfg st /\
  isMoving st = true /\
  lastPosition st = Some pos /\
  zeroRun k (VelocityBuffer.buffer (velocityBuffer st)).

(** ** Scenarios *)

(** The configuration of src/App.tsx. *)
Definition TRACKER_CONFIG : TrackerConfig :=
  {| threshold := 0.8; smoothingFrames := 5%Z; minDurationFrames := 5%Z |}.

(** A configuration with a one-sample window and no debounce delay. *)
Definition quickConfig : TrackerConfig :=
  {| threshold := 0.8; smoothingFrames := 1%Z; minDurationFrames := 1%Z |}.

(** A configuration that debounces over two frames. *)
Definition twoFrameConfig : TrackerConfig :=
  {| threshold := 0.8; smoothingFrames := 1%Z; minDurationFrames := 2%Z |}.

(** The 21 landmarks of a hand, all at [(px, 0.5, 0)]. *)
Definition handAt (px : Q) : list Point.t := repeat (Point.mk px 0.5 0) 21.

(** A frame at time [t] showing the left hand at [px], the right hand lost. *)
Definition leftAt (t : Z) (px : Q) : Frame :=
  {| time := inject_Z t; leftLM := Some (handAt px); rightLM := None |}.

(** A frame at time [t] with both hands lost. *)
Definition nobody (t : Z) : Frame :=
  {| time := inject_Z t; leftLM := None; rightLM := None |}.

(** Ten frames, times 0..9, the left hand advancing by 0.02 per frame: the
    instantaneous speed is 0 on the first (no previous position) and 2 on
    the nine others. *)
Definition sweep : list Frame :=
  map (fun i => leftAt (Z.of_nat i) (0.1 + 0.02 * inject_Z (Z.of_nat i))) (seq 0 10).

(** [n] frames, times [t], [t+1], ..., with both hands lost. *)
Definition blackout (t : Z) (n : nat) : list Frame :=
  map (fun i => nobody (t + Z.of_nat i)) (seq 0 n).

(** [n] frames, times [t], [t+1], ..., the left hand resting at [px]. *)
Definition rest (t : Z) (px : Q) (n : nat) : list Frame :=
  map (fun i => leftAt (t + Z.of_nat i) px) (seq 0 n).

(** The analyzer of the application after the sweep: the left hand moves. *)
Definition afterSweep : MotionAnalyzer.t :=
  final (handleFrames Qsqrt sweep (MotionAnalyzer.new TRACKER_CONFIG)).

(** The sweep, five frames without hands, then the left hand back at rest
    where it was last seen. *)
Definition eclipse : list Frame := sweep ++ blackout 10 5 ++ rest 15 0.28 7.

(** Two sightings at time 0, the second one displaced, then rest. *)
Definition zeroStart : list Frame := [leftAt 0 0.1; leftAt 0 0.12; leftAt 1 0.12].

(** A first motion (frames 1-2) that stops after two frames of rest (frames
    3-4), a second motion (frame 5), then three frames of rest. *)
Definition secondMotion : list Frame :=
  [leftAt 0 0.1; leftAt 1 0.12; leftAt 2 0.14; leftAt 3 0.14; leftAt 4 0.14;
   leftAt 5 0.16].

(** The eclipse around its one motion: the frames before the START (0-4),
    the frame of the START (5), the frames between (6-18) and the frame of
    the STOP (19). *)
Definition eclipseBefore : list Frame := firstn 5 eclipse.
Definition eclipseStartFrame : Frame := nth 5 eclipse (nobody 0).
Definition eclipseBetween : list Frame := firstn 13 (skipn 6 eclipse).
Definition eclipseStopFrame : Frame := nth 19 eclipse (nobody 0).

(** One frame of a run, as [handleFrames] calls it. *)
Definition frameOutcome (Math_sqrt : Q -> Q) (f : Frame) (this : MotionAnalyzer.t)
  : Completion MotionAnalyzer.FrameResult * MotionAnalyzer.t :=
  MotionAnalyzer.processFrame Math_sqrt (time f) (leftLM f) (rightLM f) this.

(** The result of a call that returned (an empty one stands for a throw). *)
Definition returned (out : Completion MotionAnalyzer.FrameResult * MotionAnalyzer.t)
  : MotionAnalyzer.FrameResult :=
  match fst out with
  | Normal r => r
  | Throw _ => MotionAnalyzer.mkResult [] None None
  end.

(** ** The motion behind a STOP

    Frame [j] of [frames], run from [this], is [fe] and returned [re]; the
    frame [fs] before it returned the START [e0] of hand [h] and left the
    analyzer [started]; the frames [mid] between the two all returned, with
    no event for [h]. *)
Definition motionBehind (Math_sqrt : Q -> Q) (h : Handedness) (this : MotionAnalyzer.t)
    (frames : list Frame) (j : nat) (re : MotionAnalyzer.FrameResult)
    (e0 : MotionEvent.t) (fs : Frame) (started : MotionAnalyzer.t)
    (mid : list Frame) (fe : Frame) : Prop :=
  exists pre post rs,
    frames = pre ++ fs :: mid ++ fe :: post /\
    j = List.length (pre ++ fs :: mid) /\
    crash (handleFrames Math_sqrt pre this) = None /\
    frameOutcome Math_sqrt fs (final (handleFrames Math_sqrt pre this)) = (Normal rs, started) /\
    In e0 (eventsOf h (MotionAnalyzer.events rs)) /\
    MotionEvent.type e0 = START /\
    crash (handleFrames Math_sqrt mid started) = None /\
    eventsOf h (eventLog (handleFrames Math_sqrt mid started)) = [] /\
    fst (frameOutcome Math_sqrt fe (final (handleFrames Math_sqrt mid started))) = Normal re.

(** The same for a motion that was already under way in [this]: the frames
    [mid] before frame [j] all returned, with no event for [h]. *)
Definition motionUnderWay (Math_sqrt : Q -> Q) (h : Handedness) (this : MotionAnalyzer.t)
    (frames : list Frame) (j : nat) (re : MotionAnalyzer.FrameResult) : Prop :=
  isMoving (handOf h this) = true /\
  exists mid fe post,
    frames = mid ++ fe :: post /\
    j = List.length mid /\
    crash (handleFrames Math_sqrt mid this) = None /\
    eventsOf h (eventLog (handleFrames Math_sqrt mid this)) = [] /\
    fst (frameOutcome Math_sqrt fe (final (handleFrames Math_sqrt mid this))) = Normal re.

(** The analyzer that enters the frame of the START, what that frame
    returns, its START event, and what the frame of the STOP returns. *)
Definition eclipseStarting : MotionAnalyzer.t :=
  final (handleFrames Qsqrt eclipseBefore (MotionAnalyzer.new TRACKER_CONFIG)).

Definition eclipseStarted : MotionAnalyzer.FrameResult :=
  returned (frameOutcome Qsqrt eclipseStartFrame eclipseStarting).

Definition eclipseStartEvent : MotionEvent.t :=
  hd (MotionEvent.mk "" Left START 0 None None None) (MotionAnalyzer.events eclipseStarted).

Definition eclipseStopped : MotionAnalyzer.FrameResult :=
  returned (frameOutcome Qsqrt eclipseStopFrame
              (final (handleFrames Qsqrt eclipseBetween
                        (snd (frameOutcome Qsqrt eclipseStartFrame eclipseStarting))))).

Definition eclipseStopEvent : MotionEvent.t :=
  hd eclipseStartEvent (MotionAnalyzer.events eclipseStopped).

(** ** Reading a window *)

(** [Array.prototype.slice(-n)]: the last [n] elements, all of them when
    there are fewer. *)
Definition sliceLast {A : Type} (n : nat) (l : list A) : list A :=
  skipn (List.length l - n) l.

(** The window after [add] was called on each of [samples], in order. *)
Definition addAll (samples : list Q) (w : VelocityBuffer.t) : VelocityBuffer.t :=
  fold_left (fun w v => VelocityBuffer.add v w) samples w.

(** The id the [k]-th event of a session gets. *)
Definition eventId (k : Z) : string := String.append "evt_" (decimal k).

(** The instant a session's timestamps are measured from: the initial 0 of
    [sessionStartTime] after construction, [performance.now()] of the call
    after a reset. *)
Definition originTime (origin : SessionOrigin) : Q :=
  match origin with
  | Constructed _ => 0
  | Restarted now _ => now
  end.

(** The frames of a run come with times that never go back. *)
Definition timesNonDecreasing (frames : list Frame) : Prop :=
  forall i j fi fj, (i <= j)%nat ->
    nth_error frames i = Some fi -> nth_error frames j = Some fj ->
    time fi <= time fj.

(** Hand [h] is nowhere but at [pos]: whenever a frame has a
    representative point for it, that point is [pos]. *)
Definition onlyAt (h : Handedness) (pos : Point.t) (f : Frame) : Prop :=
  forall lms p, landmarksOf h f = Some lms -> representative lms = Some p -> p = pos.

(** ** src/App.tsx and src/components/Timeline.tsx *)

(** The two fields of the detector's result that [handleFrame] reads:
    [handedness], one list of categories per detected hand, each category
    given by its [categoryName], and [landmarks], one list of points per
    detected hand.  The detector is not part of the repository. *)
Module HandLandmarkerResult.
Record t : Type := mk {
  landmarks : list (list Point.t);
  handedness : list (list string)
}.
End HandLandmarkerResult.

Module Timeline.
(** One entry of the velocity chart's data. *)
Record Sample : Type := mkSample { time : Q; leftV : Q; rightV : Q }.

(** [const displayData = data.slice(-200)] *)
Definition displayData (data : list Sample) : list Sample := sliceLast 200 data.
End Timeline.

Module App.
(** The state [handleFrame] and the two buttons work on: the analyzer behind
    [analyzerRef], and the React state of the component. *)
Record t : Type := mk {
  analyzer : MotionAnalyzer.t;
  isTracking : bool;
  leftHand : option HandData.t;
  rightHand : option HandData.t;
  events : list MotionEvent.t;
  timelineData : list Timeline.Sample
}.

(** The body of [result.handedness.forEach((h, index) => ...)], from hand
    [index] on.  [h[0]] of an empty category list is [undefined], and reading
    its [categoryName] throws; [result.landmarks[index]] past the end is
    [undefined], which [analyzeHand] takes for a lost hand like [null]. *)
Fixpoint labelEach (handedness : list (list string)) (index : nat)
    (landmarks : list (list Point.t)) (leftLM rightLM : option (list Point.t))
  : Completion (option (list Point.t) * option (list Point.t)) :=
  match handedness with
  | [] => Normal (leftLM, rightLM)
  | h :: rest =>
      match h with
      | [] => Throw TypeError
      | label :: _ =>
          let lms := nth_error landmarks index in
          let leftLM := if String.eqb label "Left" then lms else leftLM in
          let rightLM := if String.eqb label "Right" then lms else rightLM in
          labelEach rest (S index) landmarks leftLM rightLM
      end
  end.

(** Step 2 of [handleFrame]: the detector's hands, by label. *)
Definition labelHands (result : option HandLandmarkerResult.t)
  : Completion (option (list Point.t) * option (list Point.t)) :=
  match result with
  | None => Normal (None, None)
  | Some res =>
      if Nat.ltb 0 (List.length (HandLandmarkerResult.handedness res))
      then labelEach (HandLandmarkerResult.handedness res) 0
             (HandLandmarkerResult.landmarks res) None None
      else Normal (None, None)
  end.

(** [metrics?.velocity || 0] *)
Definition velocityOrZero (metrics : option HandData.t) : Q :=
  match metrics with
  | Some m => if Qeq_bool (HandData.velocity m) 0 then 0 else HandData.velocity m
  | None => 0
  end.

(** The updater given to [setTimelineData]. *)
Definition pushSample (sample : Timeline.Sample) (prev : list Timeline.Sample)
  : list Timeline.Sample :=
  sliceLast 300 (prev ++ [sample]).

(** [handleFrame], given what the detector returned and the two readings of
    [performance.now()].  A throw leaves the React state as it was; the
    analyzer keeps what [processFrame] wrote before throwing. *)
Definition handleFrame (Math_sqrt : Q -> Q) (result : option HandLandmarkerResult.t)
    (now later : Q) (app : t) : option JsError * t :=
  match labelHands result with
  | Throw e => (Some e, app)
  | Normal (leftLM, rightLM) =>
      match MotionAnalyzer.processFrame Math_sqrt now leftLM rightLM (analyzer app) with
      | (Throw e, this) =>
          (Some e, mk this (isTracking app) (leftHand app) (rightHand app)
                      (events app) (timelineData app))
      | (Normal analysis, this) =>
          (None,
           mk this (isTracking app)
              (MotionAnalyzer.leftMetrics analysis)
              (MotionAnalyzer.rightMetrics analysis)
              (if Nat.ltb 0 (List.length (MotionAnalyzer.events analysis))
               then events app ++ MotionAnalyzer.events analysis
               else events app)
              (pushSample
                 (Timeline.mkSample later
                    (velocityOrZero (MotionAnalyzer.leftMetrics analysis))
                    (velocityOrZero (MotionAnalyzer.rightMetrics analysis)))
                 (timelineData app)))
      end
  end.

(** [toggleTracking]; [now] is [performance.now()] inside [resetSession]. *)
Definition toggleTracking (now : Q) (app : t) : t :=
  if negb (isTracking app)
  then mk (MotionAnalyzer.resetSession now (analyzer app)) (negb (isTracking app))
          (leftHand app) (rightHand app) [] []
  else mk (analyzer app) (negb (isTracking app))
          (leftHand app) (rightHand app) (events app) (timelineData app).

(** [handleReset] *)
Definition handleReset (now : Q) (app : t) : t :=
  mk (MotionAnalyzer.resetSession now (analyzer app)) false None None [] [].
End App.

(** One tick of the animation loop: what the detector returned and the two
    clock readings of [handleFrame]. *)
Record Tick : Type := {
  detected : option HandLandmarkerResult.t;
  clock : Q;
  clockAfter : Q
}.

(** The animation loop of src/components/CameraView.tsx over a list of
    ticks: [onFrame] once per tick, and no further tick after a throw. *)
Fixpoint runTicks (Math_sqrt : Q -> Q) (ticks : list Tick) (app : App.t) : App.t :=
  match ticks with
  | [] => app
  | tick :: rest =>
      match App.handleFrame Math_sqrt (detected tick) (clock tick) (clockAfter tick) app with
      | (None, app) => runTicks Math_sqrt rest app
      | (Some _, app) => app
      end
  end.

(** The frames the analyzer is given over a list of ticks, up to the first
    tick whose labelling throws. *)
Fixpoint framesOf (ticks : list Tick) : list Frame :=
  match ticks with
  | [] => []
  | tick :: rest =>
      match App.labelHands (detected tick) with
      | Normal (leftLM, rightLM) =>
          {| time := clock tick; leftLM := leftLM; rightLM := rightLM |} :: framesOf rest
      | Throw _ => []
      end
  end.

(** Hand [i] of a result carries [label] as its first category. *)
Definition labelled (label : string) (res : HandLandmarkerResult.t) (i : nat) : Prop :=
  exists more, nth_error (HandLandmarkerResult.handedness res) i = Some (label :: more).

(** What a detector returns that gives every hand a category and either no
    landmarks or at least ten. *)
Definition wellFormed (res : HandLandmarkerResult.t) : Prop :=
  Forall (fun h => h <> []) (HandLandmarkerResult.handedness res) /\
  Forall (fun lms => lms = [] \/ (10 <= List.length lms)%nat)
         (HandLandmarkerResult.landmarks res).

(** A test for [timesNonDecreasing]: each frame is no earlier than the
    one before it. *)
Fixpoint timesSorted (frames : list Frame) : bool :=
  match frames with
  | f :: (g :: _) as rest => Qle_bool (time f) (time g) && timesSorted rest
  | _ => true
  end.

(** ** More scenarios *)

(** The readout of a frame result, for a hand that has one. *)
Definition theReadout (m : option HandData.t) : HandData.t :=
  match m with
  | Some m => m
  | None => HandData.mk Left [] 0 false 0
  end.

Definition eclipseReadout : HandData.t := theReadout (metricsOf Left eclipseStopped).

(** The sweep again, with the right hand in view and motionless. *)
Definition sweepWatched : list Frame :=
  map (fun f => {| time := time f; leftLM := leftLM f; rightLM := Some (handAt 0.7) |})
      sweep.

(** A detector result with two hands, both labelled Left. *)
Definition twoLefts : HandLandmarkerResult.t :=
  HandLandmarkerResult.mk [handAt 0.2; handAt 0.6] [["Left"%string]; ["Left"%string]].

(** The application as it is mounted. *)
Definition mounted : App.t :=
  App.mk (MotionAnalyzer.new TRACKER_CONFIG) false None None [] [].

(** Two frames are the same for hand [h]: same time, same landmarks. *)
Definition sameFor (h : Handedness) (f g : Frame) : Prop :=
  time f = time g /\ landmarksOf h f = landmarksOf h g.

(** What an event says of its hand's motion: everything but the id and the
    ordinal, which come from the counters the two hands share. *)
Definition payload (e : MotionEvent.t)
  : Handedness * EventType * Q * option Q * option Q :=
  (MotionEvent.hand e, MotionEvent.type e, MotionEvent.timestamp e,
   MotionEvent.duration e, MotionEvent.distance e).

(** The number of results whose readout for hand [h] shows a smoothed
    velocity above [level]. *)
Definition aboveCount (h : Handedness) (level : Q)
    (rs : list MotionAnalyzer.FrameResult) : nat :=
  List.length
    (filter (fun r => match metricsOf h r with
                      | Some m => Qltb level (HandData.velocity m)
                      | None => false
                      end) rs).

(** Idle, a window of zeros, and last seen at [pos] if ever. *)
Definition motionless (pos : Point.t) (st : HandState) : Prop :=
  isMoving st = false /\
  Forall isZero (VelocityBuffer.buffer (velocityBuffer st)) /\
  (lastPosition st = None \/ lastPosition st = Some pos).

(** ** Calls after a throw

    [processFrame] is a public method of an exported class: whoever holds
    an analyzer may catch what a call throws and call again.  [callEach]
    makes every call of a list, a throwing one included, each on the
    analyzer that the call before it left behind. *)

Fixpoint callEach (Math_sqrt : Q -> Q) (frames : list Frame) (this : MotionAnalyzer.t)
  : list (Completion MotionAnalyzer.FrameResult) * MotionAnalyzer.t :=
  match frames with
  | [] => ([], this)
  | f :: rest =>
      let (outcome, this) :=
        MotionAnalyzer.processFrame Math_sqrt (time f) (leftLM f) (rightLM f) this in
      let (outcomes, this) := callEach Math_sqrt rest this in
      (outcome :: outcomes, this)
  end.

(** The events the caller has received: those of the calls that returned,
    in order.  A call that threw has returned nothing. *)
Definition returnedEvents (outcomes : list (Completion MotionAnalyzer.FrameResult))
  : list MotionEvent.t :=
  flat_map (fun outcome =>
              match outcome with
              | Normal r => MotionAnalyzer.events r
              | Throw _ => []
              end) outcomes.

Definition returns {A : Type} (c : Completion A) : bool := negb (throws c).

(** A frame at time [t] showing the left hand at [px] and, for the right
    hand, a list of one point. *)
Definition leftAtWithStub (t : Z) (px : Q) : Frame :=
  {| time := inject_Z t; leftLM := Some (handAt px);
     rightLM := Some [Point.mk 0.7 0.5 0] |}.

(** Four calls, the left hand seen at 0.10, 0.12, 0.12 and 0.14; the call
    on which the left hand starts (the second) has a one-point list for the
    right hand. *)
Definition swallowedStart : list Frame :=
  [leftAt 0 0.1; leftAtWithStub 1 0.12; leftAt 2 0.12; leftAt 3 0.14].

(** The same four sightings; the call on which the left hand stops (the
    third) has a one-point list for the right hand. *)
Definition swallowedStop : list Frame :=
  [leftAt 0 0.1; leftAt 1 0.12; leftAtWithStub 2 0.12; leftAt 3 0.14].

(** Every entry is present, larger than [c] and larger than the entry
    before it. *)
Fixpoint increasingFrom (c : Z) (l : list (option Z)) : Prop :=
  match l with
  | [] => True
  | Some n :: l => (c < n)%Z /\ increasingFrom n l
  | None :: _ => False
  end.

(** ** Readings on return

    The result [r] has a readout for hand [h] whose smoothed velocity is
    below [level]; and the same as a test. *)
Definition readsBelow (h : Handedness) (level : Q) (r : MotionAnalyzer.FrameResult) : Prop :=
  exists m, metricsOf h r = Some m /\ HandData.velocity m < level.

Definition readsBelowb (h : Handedness) (level : Q) (r : MotionAnalyzer.FrameResult) : bool :=
  match metricsOf h r with
  | Some m => Qltb (HandData.velocity m) level
  | None => false
  end.

(** * Properties *)

(** Split a conjunction into its parts, and nothing else. *)
Ltac conjuncts := repeat match goal with |- _ /\ _ => split end.

(** Close a closed goal by evaluation. *)
Ltac evaluate := vm_compute; first [reflexivity | solve [repeat constructor]].

(** ** [analyzeHand] and [processFrame] through the per-hand machine *)

Section Refinement.
Variable Math_sqrt : Q -> Q.

Lemma analyzeHand_handStep timestamp handedness landmarks state events this :
  MotionAnalyzer.analyzeHand Math_sqrt timestamp handedness landmarks state events this =
  match handStep Math_sqrt (MotionAnalyzer.config this) timestamp landmarks
          (MotionAnalyzer.deref state this) with
  | Throw e => (Throw e, events, this)
  | Normal step =>
      (Normal (readout handedness landmarks step),
       events ++ fst (emit (transition step) handedness timestamp this),
       MotionAnalyzer.assign state (after step)
         (snd (emit (transition step) handedness timestamp this)))
  end.
Proof.
  unfold MotionAnalyzer.analyzeHand, handStep, representative.
  destruct (MotionAnalyzer.lost landmarks) eqn:Hlost.
  - cbn. now rewrite app_nil_r.
  - destruct landmarks as [[|p lms]|]; try discriminate.
    change (nth_error (p :: lms) 0) with (Some p).
    destruct (nth_error (p :: lms) 9) as [p2|]; [|reflexivity].
    destruct state, this as [c l r s0 ec mc]; cbn;
      match goal with
      | |- context [isMoving ?h] => destruct (isMoving h) eqn:Hmov
      end; cbn;
      repeat match goal with
      | |- context [if ?b then _ else _] => destruct b eqn:?; cbn
      end; rewrite ?app_nil_r; reflexivity.
Qed.

(** [emit] moves the two counters only. *)
Lemma emit_config tr h timestamp this :
  MotionAnalyzer.config (snd (emit tr h timestamp this)) = MotionAnalyzer.config this.
Proof. destruct tr; reflexivity. Qed.

Lemma emit_sessionStartTime tr h timestamp this :
  MotionAnalyzer.sessionStartTime (snd (emit tr h timestamp this)) =
  MotionAnalyzer.sessionStartTime this.
Proof. destruct tr; reflexivity. Qed.

Lemma emit_deref tr h timestamp this r :
  MotionAnalyzer.deref r (snd (emit tr h timestamp this)) = MotionAnalyzer.deref r this.
Proof. destruct tr, r; reflexivity. Qed.

Lemma emit_hand tr h timestamp this e :
  In e (fst (emit tr h timestamp this)) -> MotionEvent.hand e = h.
Proof. destruct tr; cbn; intros H; [contradiction| |]; destruct H as [<-|[]]; reflexivity. Qed.

Lemma assign_config r st this :
  MotionAnalyzer.config (MotionAnalyzer.assign r st this) = MotionAnalyzer.config this.
Proof. destruct r; reflexivity. Qed.

Lemma assign_sessionStartTime r st this :
  MotionAnalyzer.sessionStartTime (MotionAnalyzer.assign r st this) =
  MotionAnalyzer.sessionStartTime this.
Proof. destruct r; reflexivity. Qed.

Lemma assign_moveOrderCounter r st this :
  MotionAnalyzer.moveOrderCounter (MotionAnalyzer.assign r st this) =
  MotionAnalyzer.moveOrderCounter this.
Proof. destruct r; reflexivity. Qed.

Lemma deref_assign_same r st this :
  MotionAnalyzer.deref r (MotionAnalyzer.assign r st this) = st.
Proof. destruct r; reflexivity. Qed.

Lemma deref_assign_other r r' st this :
  r <> r' ->
  MotionAnalyzer.deref r (MotionAnalyzer.assign r' st this) = MotionAnalyzer.deref r this.
Proof. destruct r, r'; intros H; try reflexivity; now elim H. Qed.

Lemma processFrame_handStep timestamp leftLandmarks rightLandmarks this :
  MotionAnalyzer.processFrame Math_sqrt timestamp leftLandmarks rightLandmarks this =
  match handStep Math_sqrt (MotionAnalyzer.config this) timestamp leftLandmarks
          (MotionAnalyzer.leftHand this) with
  | Throw e => (Throw e, this)
  | Normal sl =>
      let mid := afterLeft timestamp sl this in
      match handStep Math_sqrt (MotionAnalyzer.config this) timestamp rightLandmarks
              (MotionAnalyzer.rightHand this) with
      | Throw e => (Throw e, mid)
      | Normal sr =>
          (Normal (MotionAnalyzer.mkResult
                     (fst (emit (transition sl) Left timestamp this) ++
                      fst (emit (transition sr) Right timestamp mid))
                     (readout Left leftLandmarks sl)
                     (readout Right rightLandmarks sr)),
           MotionAnalyzer.assign ThisRightHand (after sr)
             (snd (emit (transition sr) Right timestamp mid)))
      end
  end.
Proof.
  unfold MotionAnalyzer.processFrame.
  rewrite analyzeHand_handStep. cbn [MotionAnalyzer.deref].
  destruct (handStep _ _ _ leftLandmarks _) as [sl|e]; [|reflexivity].
  rewrite analyzeHand_handStep. fold (afterLeft timestamp sl this).
  replace (MotionAnalyzer.config (afterLeft timestamp sl this))
    with (MotionAnalyzer.config this)
    by (unfold afterLeft; now rewrite assign_config, emit_config).
  replace (MotionAnalyzer.deref ThisRightHand (afterLeft timestamp sl this))
    with (MotionAnalyzer.rightHand this)
    by (unfold afterLeft; rewrite deref_assign_other, emit_deref;
        [reflexivity | discriminate]).
  destruct (handStep _ _ _ rightLandmarks _) as [sr|e]; reflexivity.
Qed.

Lemma Handedness_eqb_refl h : Handedness_eqb h h = true.
Proof. now destruct h. Qed.

Lemma eventsOf_own tr h timestamp this :
  eventsOf h (fst (emit tr h timestamp this)) = fst (emit tr h timestamp this).
Proof. destruct tr; cbn; rewrite ?Handedness_eqb_refl; reflexivity. Qed.

Lemma eventsOf_other tr h h' timestamp this :
  h <> h' -> eventsOf h (fst (emit tr h' timestamp this)) = [].
Proof.
  intros Hne. destruct tr; cbn; try reflexivity;
    destruct h, h'; try reflexivity; now elim Hne.
Qed.

Lemma eventsOf_app h l1 l2 : eventsOf h (l1 ++ l2) = eventsOf h l1 ++ eventsOf h l2.
Proof. apply filter_app. Qed.

(** What a returning frame is for one hand: one step of the machine on
    that hand's landmarks, whose event (if any) is the frame's only event
    for the hand. *)
Lemma processFrame_hand f this r this' h :
  MotionAnalyzer.processFrame Math_sqrt (time f) (leftLM f) (rightLM f) this
    = (Normal r, this') ->
  exists step mid,
    handStep Math_sqrt (MotionAnalyzer.config this) (time f) (landmarksOf h f)
      (handOf h this) = Normal step /\
    handOf h this' = after step /\
    eventsOf h (MotionAnalyzer.events r) = fst (emit (transition step) h (time f) mid) /\
    MotionAnalyzer.sessionStartTime mid = MotionAnalyzer.sessionStartTime this.
Proof.
  rewrite processFrame_handStep.
  destruct (handStep _ _ _ (leftLM f) _) as [sl|] eqn:Hl; [|discriminate].
  destruct (handStep _ _ _ (rightLM f) _) as [sr|] eqn:Hr; [|discriminate].
  cbn zeta. intros H. injection H as <- <-. cbn [MotionAnalyzer.events].
  rewrite eventsOf_app.
  destruct h; unfold handOf; cbn [landmarksOf refOf].
  - exists sl, this. split; [exact Hl|].
    rewrite eventsOf_own, eventsOf_other, app_nil_r by discriminate.
    split; [|split; reflexivity].
    cbn [MotionAnalyzer.deref MotionAnalyzer.leftHand].
    change (MotionAnalyzer.leftHand ?a) with (MotionAnalyzer.deref ThisLeftHand a).
    rewrite emit_deref. unfold afterLeft. now rewrite deref_assign_same.
  - exists sr, (afterLeft (time f) sl this). split; [exact Hr|].
    rewrite eventsOf_own, eventsOf_other by discriminate.
    split; [reflexivity|split; [reflexivity|]].
    unfold afterLeft. now rewrite assign_sessionStartTime, emit_sessionStartTime.
Qed.

Lemma processFrame_config timestamp l r this :
  MotionAnalyzer.config (snd (MotionAnalyzer.processFrame Math_sqrt timestamp l r this))
  = MotionAnalyzer.config this.
Proof.
  rewrite processFrame_handStep.
  destruct (handStep _ _ _ l _) as [sl|]; [|reflexivity].
  destruct (handStep _ _ _ r _) as [sr|]; cbn [snd]; unfold afterLeft;
    repeat (rewrite assign_config || rewrite emit_config); reflexivity.
Qed.

Lemma processFrame_sessionStartTime timestamp l r this :
  MotionAnalyzer.sessionStartTime
    (snd (MotionAnalyzer.processFrame Math_sqrt timestamp l r this))
  = MotionAnalyzer.sessionStartTime this.
Proof.
  rewrite processFrame_handStep.
  destruct (handStep _ _ _ l _) as [sl|]; [|reflexivity].
  destruct (handStep _ _ _ r _) as [sr|]; cbn [snd]; unfold afterLeft;
    repeat (rewrite assign_sessionStartTime || rewrite emit_sessionStartTime);
    reflexivity.
Qed.
End Refinement.

(** ** Runs *)

Section Runs.
Variable Math_sqrt : Q -> Q.

Lemma eventLog_cons f rest this :
  eventLog (handleFrames Math_sqrt (f :: rest) this) =
  match MotionAnalyzer.processFrame Math_sqrt (time f) (leftLM f) (rightLM f) this with
  | (Normal r, this') =>
      MotionAnalyzer.events r ++ eventLog (handleFrames Math_sqrt rest this')
  | (Throw _, _) => []
  end.
Proof.
  cbn [handleFrames].
  destruct (MotionAnalyzer.processFrame _ _ _ _ _) as [[r|e] this']; reflexivity.
Qed.

(** One step of the machine, by cases on the transition it reports. *)
Lemma handStep_transition cfg timestamp landmarks st step :
  handStep Math_sqrt cfg timestamp landmarks st = Normal step ->
  match transition step with
  | Quiet => isMoving (after step) = isMoving st
  | Started =>
      isMoving st = false /\ isMoving (after step) = true /\
      totalDistance (after step) = 0 /\
      motionStartTime (after step) = Some timestamp
  | Stopped duration distance =>
      isMoving st = true /\ isMoving (after step) = false /\
      duration = timestamp - startedAt st timestamp /\
      (exists v, raw step = Some v /\ distance = totalDistance st + v)
  end.
Proof.
  unfold handStep.
  destruct (MotionAnalyzer.lost landmarks); [intros [= <-]; reflexivity|].
  destruct (representative _) as [pos|]; [|discriminate].
  destruct (isMoving st) eqn:Hm;
    repeat match goal with
    | |- context [if ?b then _ else _] => destruct b
    end; intros [= <-]; cbn; eauto 6.
Qed.

(** *** Alternation *)

Lemma alternatesFrom_spec m l :
  alternatesFrom m l = true ->
  (forall k, hd_error l = Some k -> k = if m then STOP else START) /\
  (forall i a b, nth_error l i = Some a -> nth_error l (S i) = Some b -> a <> b).
Proof.
  revert m. induction l as [|k l IH]; intros m H.
  - split; [discriminate|]. intros [|i] a b; discriminate.
  - assert (Hk : k = if m then STOP else START)
      by (destruct k, m; try discriminate; reflexivity).
    assert (Hl : alternatesFrom (negb m) l = true)
      by (destruct k, m; try discriminate; exact H).
    destruct (IH _ Hl) as [Hhd Hadj].
    split; [now intros ? [= <-]|].
    intros [|i] a b Ha Hb.
    + cbn in Ha, Hb. injection Ha as <-.
      destruct l as [|k' l]; [discriminate|]. injection Hb as <-.
      rewrite Hk, (Hhd k' eq_refl). destruct m; discriminate.
    + exact (Hadj i a b Ha Hb).
Qed.

Lemma step_alternates cfg timestamp landmarks st step h mid rest :
  handStep Math_sqrt cfg timestamp landmarks st = Normal step ->
  alternatesFrom (isMoving (after step)) rest = true ->
  alternatesFrom (isMoving st)
    (kinds (fst (emit (transition step) h timestamp mid)) ++ rest) = true.
Proof.
  intros Hstep Hrest. apply handStep_transition in Hstep.
  destruct (transition step); cbn.
  - now rewrite <- Hstep.
  - destruct Hstep as (-> & Ha & _). now rewrite Ha in Hrest.
  - destruct Hstep as (-> & Ha & _). now rewrite Ha in Hrest.
Qed.

Lemma run_alternates frames : forall this h,
  alternatesFrom (isMoving (handOf h this))
    (kinds (eventsOf h (eventLog (handleFrames Math_sqrt frames this)))) = true.
Proof.
  induction frames as [|f rest IH]; intros this h; [reflexivity|].
  rewrite eventLog_cons.
  destruct (MotionAnalyzer.processFrame _ _ _ _ _) as [[r|e] this'] eqn:Hf;
    [|reflexivity].
  destruct (processFrame_hand _ _ _ _ _ h Hf) as (step & mid & Hstep & Hafter & Hev & _).
  rewrite eventsOf_app. unfold kinds. rewrite map_app. fold (kinds (eventsOf h (MotionAnalyzer.events r))).
  rewrite Hev. eapply step_alternates; [exact Hstep|].
  rewrite <- Hafter. apply IH.
Qed.

Lemma sessionStart_idle origin h : isMoving (handOf h (sessionStart origin)) = false.
Proof. destruct origin, h; reflexivity. Qed.

(** Up to the first call that throws, the events logged for one hand in a
    session (begun by the constructor or by a reset) alternate: the first is
    a START, and neighbours are never two STARTs nor two STOPs; the list may
    end on a START that no STOP follows. *)
Lemma hand_events_alternate origin frames h :
  alternating
    (kinds (eventsOf h (eventLog (handleFrames Math_sqrt frames (sessionStart origin))))).
Proof.
  pose proof (run_alternates frames (sessionStart origin) h) as H.
  rewrite sessionStart_idle in H.
  exact (alternatesFrom_spec false _ H).
Qed.

(** *** The motion ordinal *)

Lemma countFrom_app c n1 n2 :
  countFrom c (n1 + n2) = countFrom c n1 ++ countFrom (c + Z.of_nat n1)%Z n2.
Proof.
  revert c. induction n1 as [|n1 IH]; intros c.
  - cbn. now rewrite Z.add_0_r.
  - cbn [Nat.add countFrom app]. rewrite IH.
    now replace (c + Z.of_nat (S n1))%Z with (c + 1 + Z.of_nat n1)%Z by lia.
Qed.

Lemma countFrom_nth c n i v :
  nth_error (countFrom c n) i = Some v -> v = (c + 1 + Z.of_nat i)%Z.
Proof.
  revert c i. induction n as [|n IH]; intros c [|i] H; try discriminate.
  - cbn in H. injection H as <-. lia.
  - cbn in H. apply IH in H. lia.
Qed.

Lemma frame_ordinals timestamp l r this res this' :
  MotionAnalyzer.processFrame Math_sqrt timestamp l r this = (Normal res, this') ->
  let n := List.length (filter isStart (MotionAnalyzer.events res)) in
  startOrdinals (MotionAnalyzer.events res) =
    map Some (countFrom (MotionAnalyzer.moveOrderCounter this) n) /\
  MotionAnalyzer.moveOrderCounter this' =
    (MotionAnalyzer.moveOrderCounter this + Z.of_nat n)%Z.
Proof.
  rewrite processFrame_handStep.
  destruct (handStep _ _ _ l _) as [sl|]; [|discriminate].
  destruct (handStep _ _ _ r _) as [sr|]; [|discriminate].
  cbn zeta. intros [= <- <-]. unfold afterLeft, startOrdinals.
  destruct (transition sl), (transition sr); cbn;
    (split; [repeat f_equal|]; lia).
Qed.

Lemma run_ordinals frames : forall this,
  let log := eventLog (handleFrames Math_sqrt frames this) in
  startOrdinals log =
    map Some (countFrom (MotionAnalyzer.moveOrderCounter this)
                (List.length (filter isStart log))).
Proof.
  induction frames as [|f rest IH]; intros this; [reflexivity|].
  cbn zeta. rewrite eventLog_cons.
  destruct (MotionAnalyzer.processFrame _ _ _ _ _) as [[res|e] this'] eqn:Hf;
    [|reflexivity].
  destruct (frame_ordinals _ _ _ _ _ _ Hf) as [Hres Hctr].
  unfold startOrdinals in *.
  rewrite filter_app, map_app, length_app, countFrom_app, map_app.
  rewrite Hres. f_equal. rewrite <- Hctr. apply IH.
Qed.

Lemma sessionStart_moveOrderCounter origin :
  MotionAnalyzer.moveOrderCounter (sessionStart origin) = 0%Z.
Proof. now destruct origin. Qed.

(** Up to the first call that throws, the START events of a session's
    merged log (both hands together) carry ordinals that grow strictly along
    the log, and the first START of the session carries 1. *)
Lemma start_ordinals_increase origin frames :
  let ordinals :=
    startOrdinals (eventLog (handleFrames Math_sqrt frames (sessionStart origin))) in
  strictlyIncreasing ordinals /\
  (forall a, hd_error ordinals = Some a -> a = Some 1%Z).
Proof.
  cbn zeta. rewrite run_ordinals, sessionStart_moveOrderCounter.
  set (n := List.length _). clearbody n. split.
  - intros i j a b Hij Ha Hb.
    rewrite nth_error_map in Ha, Hb.
    destruct (nth_error (countFrom 0 n) i) as [m|] eqn:Hm; [|discriminate].
    destruct (nth_error (countFrom 0 n) j) as [k|] eqn:Hk; [|discriminate].
    injection Ha as <-. injection Hb as <-.
    apply countFrom_nth in Hm, Hk. exists m, k. repeat split. lia.
  - destruct n; cbn; [discriminate|]. now intros a [= <-].
Qed.

(** *** Which calls throw *)

Lemma representative_None lms :
  representative lms = None <-> (lms = [] \/ (List.length lms < 10)%nat).
Proof.
  unfold representative. destruct lms as [|p lms].
  - cbn. split; auto.
  - change (nth_error (p :: lms) 0) with (Some p).
    destruct (nth_error (p :: lms) 9) eqn:H9.
    + split; [discriminate|]. intros [?|Hlen]; [discriminate|].
      assert (Hn : nth_error (p :: lms) 9 <> None) by congruence.
      apply nth_error_Some in Hn. lia.
    + apply nth_error_None in H9. split; intros _; [right; lia | reflexivity].
Qed.

Lemma handStep_throws cfg timestamp landmarks st :
  throws (handStep Math_sqrt cfg timestamp landmarks st) = malformed landmarks.
Proof.
  unfold handStep, malformed.
  destruct landmarks as [[|p lms]|]; try reflexivity.
  cbn [MotionAnalyzer.lost].
  destruct (representative (p :: lms)) as [pos|] eqn:Hrep.
  - assert (Hlen : ~ (List.length (p :: lms) < 10)%nat).
    { intros Hlen.
      assert (representative (p :: lms) = None) by (apply representative_None; now right).
      congruence. }
    apply Nat.ltb_nlt in Hlen. rewrite Hlen, andb_false_r.
    repeat match goal with
    | |- context [if ?b then _ else _] => destruct b
    end; reflexivity.
  - apply representative_None in Hrep. destruct Hrep as [?|Hlen]; [discriminate|].
    apply Nat.ltb_lt in Hlen. now rewrite Hlen.
Qed.

(** [processFrame] throws exactly when one of the two landmark lists has
    between one and nine points; the configuration plays no part. *)
Lemma processFrame_throws timestamp l r this :
  throws (fst (MotionAnalyzer.processFrame Math_sqrt timestamp l r this)) =
  malformed l || malformed r.
Proof.
  rewrite processFrame_handStep.
  rewrite <- (handStep_throws (MotionAnalyzer.config this) timestamp l
                (MotionAnalyzer.leftHand this)).
  rewrite <- (handStep_throws (MotionAnalyzer.config this) timestamp r
                (MotionAnalyzer.rightHand this)).
  destruct (handStep _ _ _ l _); [|reflexivity].
  destruct (handStep _ _ _ r _); reflexivity.
Qed.
End Runs.

(** ** Construction *)

(** C8, as the specification states it, fails: a configuration with a zero
    threshold, one with a zero smoothing capacity and one with a zero
    debounce length are each accepted by the constructor. *)
Lemma constructor_accepts_degenerate_configs :
  throws (MotionAnalyzer.constructor
            {| threshold := 0; smoothingFrames := 5%Z; minDurationFrames := 5%Z |}) = false /\
  throws (MotionAnalyzer.constructor
            {| threshold := 0.8; smoothingFrames := 0%Z; minDurationFrames := 5%Z |}) = false /\
  throws (MotionAnalyzer.constructor
            {| threshold := 0.8; smoothingFrames := 5%Z; minDurationFrames := 0%Z |}) = false.
Proof. repeat split. Qed.

(** C8, amended. The constructor validates nothing: every configuration is
    accepted and stored unchanged, the session starting with both hands idle
    and both counters at zero; and no frame is refused on account of the
    configuration either, since [processFrame] throws exactly on a landmark
    list of one to nine points. *)
Theorem constructor_accepts_every_config (Math_sqrt : Q -> Q) (config : TrackerConfig) :
  exists this,
    MotionAnalyzer.constructor config = Normal this /\
    MotionAnalyzer.config this = config /\
    MotionAnalyzer.leftHand this = MotionAnalyzer.createHandState config /\
    MotionAnalyzer.rightHand this = MotionAnalyzer.createHandState config /\
    MotionAnalyzer.eventCounter this = 0%Z /\
    MotionAnalyzer.moveOrderCounter this = 0%Z /\
    forall timestamp l r,
      throws (fst (MotionAnalyzer.processFrame Math_sqrt timestamp l r this)) =
      malformed l || malformed r.
Proof.
  exists (MotionAnalyzer.new config). repeat split.
  intros. apply processFrame_throws.
Qed.

(** ** Degenerate landmark lists *)

(** C9 fails on the code at a one-point landmark list: [landmarks[9]] is
    [undefined], reading its [x] throws a TypeError, and the frame has no
    result. *)
Theorem short_landmark_list_throws :
  MotionAnalyzer.processFrame Qsqrt 0 (Some [Point.mk 0.5 0.5 0]) None
    (MotionAnalyzer.new TRACKER_CONFIG)
  = (Throw TypeError, MotionAnalyzer.new TRACKER_CONFIG).
Proof. reflexivity. Qed.

(** ** A frame on which a hand is lost *)

Section LostHand.
Variable Math_sqrt : Q -> Q.

Lemma handStep_lost cfg timestamp landmarks st :
  MotionAnalyzer.lost landmarks = true ->
  handStep Math_sqrt cfg timestamp landmarks st =
  Normal {| after := set_velocityBuffer (VelocityBuffer.add 0 (velocityBuffer st)) st;
            transition := Quiet; raw := None; smoothed := None |}.
Proof. unfold handStep. now intros ->. Qed.

(** The effect of one frame on a hand it does not show. *)
Lemma lost_frame_effect f this h :
  MotionAnalyzer.lost (landmarksOf h f) = true ->
  let out := MotionAnalyzer.processFrame Math_sqrt (time f) (leftLM f) (rightLM f) this in
  let st := handOf h this in
  let st' := handOf h (snd out) in
  isMoving st' = isMoving st /\
  motionStartTime st' = motionStartTime st /\
  lastPosition st' = lastPosition st /\
  totalDistance st' = totalDistance st /\
  framesBelowThreshold st' = framesBelowThreshold st /\
  framesAboveThreshold st' = framesAboveThreshold st /\
  forall r, fst out = Normal r ->
    eventsOf h (MotionAnalyzer.events r) = [] /\
    metricsOf h r = None /\
    velocityBuffer st' = VelocityBuffer.add 0 (velocityBuffer st).
Proof.
  intros Hlost. cbn zeta. rewrite processFrame_handStep.
  destruct h; cbn [landmarksOf] in Hlost; unfold handOf; cbn [refOf].
  - rewrite (handStep_lost _ _ _ _ Hlost).
    destruct (handStep _ _ _ (rightLM f) _) as [sr|e]; cbn.
    + destruct (transition sr); cbn; do 6 (split; [reflexivity|]);
        intros r [= <-]; cbn; repeat split.
    + do 6 (split; [reflexivity|]). discriminate.
  - destruct (handStep _ _ _ (leftLM f) _) as [sl|e]; cbn.
    + rewrite (handStep_lost _ _ _ _ Hlost). cbn.
      destruct (transition sl); cbn; do 6 (split; [reflexivity|]);
        intros r [= <-]; cbn; repeat split.
    + do 6 (split; [reflexivity|]). discriminate.
Qed.

(** C10. On a frame where hand [h] has no landmarks ([null] or an empty
    list), the hand's moving flag, motion-start time, last known position,
    accumulated distance and two debounce counters are what they were
    before the call; and when the call returns, it returns no event and no
    readout for [h], and the hand's window is the old one with a 0.0 sample
    added.  So every event of a hand, a STOP after an absence included, is
    returned by a frame on which that hand is visible. *)
Theorem lost_hand_holds_state f this h :
  MotionAnalyzer.lost (landmarksOf h f) = true ->
  let out := MotionAnalyzer.processFrame Math_sqrt (time f) (leftLM f) (rightLM f) this in
  let st := handOf h this in
  let st' := handOf h (snd out) in
  isMoving st' = isMoving st /\
  motionStartTime st' = motionStartTime st /\
  lastPosition st' = lastPosition st /\
  totalDistance st' = totalDistance st /\
  framesBelowThreshold st' = framesBelowThreshold st /\
  framesAboveThreshold st' = framesAboveThreshold st /\
  forall r, fst out = Normal r ->
    eventsOf h (MotionAnalyzer.events r) = [] /\
    metricsOf h r = None /\
    velocityBuffer st' = VelocityBuffer.add 0 (velocityBuffer st).
Proof. exact (lost_frame_effect f this h). Qed.

(** A run of frames on which hand [h] is lost, of any length, returns no
    event for the hand and leaves its state alone: a hand that was moving is
    still moving at the end, with the debounce counters where they were,
    and, when every frame returns, with one 0.0 sample per frame added to
    the window. *)
Lemma lost_frames_keep_state frames : forall this h,
  Forall (fun f => MotionAnalyzer.lost (landmarksOf h f) = true) frames ->
  let run := handleFrames Math_sqrt frames this in
  eventsOf h (eventLog run) = [] /\
  heldState (handOf h this) (handOf h (final run)) /\
  (crash run = None ->
   velocityBuffer (handOf h (final run)) =
     Nat.iter (List.length frames) (VelocityBuffer.add 0)
       (velocityBuffer (handOf h this))).
Proof.
  induction frames as [|f rest IH]; intros this h Hall.
  - cbn. unfold heldState. repeat split.
  - inversion Hall as [|? ? Hf Hrest]; subst.
    pose proof (lost_frame_effect f this h Hf) as Heff. cbn zeta in Heff.
    destruct Heff as (H1 & H2 & H3 & H4 & H5 & H6 & Hret).
    cbn zeta. cbn [handleFrames].
    destruct (MotionAnalyzer.processFrame _ _ _ _ _) as [[r|e] this'] eqn:Hp;
      cbn [fst snd] in *.
    + destruct (Hret r eq_refl) as (Hev & _ & Hbuf).
      destruct (IH this' h Hrest) as (IHev & IHheld & IHbuf).
      cbn zeta in *. unfold eventLog in *. cbn [results final crash flat_map List.length].
      rewrite eventsOf_app, Hev, IHev. split; [reflexivity|]. split.
      * unfold heldState in *. destruct IHheld as (?&?&?&?&?&?).
        repeat split; congruence.
      * intros Hc. rewrite (IHbuf Hc), Hbuf. symmetry. apply Nat.iter_succ_r.
    + cbn. unfold heldState. repeat split; try assumption. discriminate.
Qed.
End LostHand.

(** ** The ten-frame sweep *)

(** C1, as stated, fails on the code: run from a fresh analyzer under the
    configuration 0.8 / 5 / 5, the sweep neither crosses the threshold first
    at frame 4 nor starts at frame 8. *)
Lemma sweep_does_not_start_at_frame_8 :
  firstAbove 0.8 (results (handleFrames Qsqrt sweep (MotionAnalyzer.new TRACKER_CONFIG)))
    <> Some 4%nat /\
  framesWith START 0 (results (handleFrames Qsqrt sweep (MotionAnalyzer.new TRACKER_CONFIG)))
    <> [8%nat].
Proof. vm_compute. split; discriminate. Qed.

(** C1, amended. The window average divides by the number of samples held,
    not by the capacity: after the second frame the window is [0; 2], its
    average 1 is the first above 0.8 (frame index 1), and the fifth
    consecutive frame above the threshold is frame index 5.  The one event
    of the run is the left hand's START returned by that frame, with
    ordinal 1 and session-relative timestamp 5. *)
Theorem sweep_starts_at_frame_5 :
  let run := handleFrames Qsqrt sweep (MotionAnalyzer.new TRACKER_CONFIG) in
  crash run = None /\
  List.length (results run) = 10%nat /\
  Forall2 Qeq
    (VelocityBuffer.buffer
       (velocityBuffer
          (MotionAnalyzer.leftHand
             (final (handleFrames Qsqrt (firstn 2 sweep)
                       (MotionAnalyzer.new TRACKER_CONFIG))))))
    [0; 2] /\
  firstAbove 0.8 (results run) = Some 1%nat /\
  framesWith START 0 (results run) = [5%nat] /\
  framesWith STOP 0 (results run) = [] /\
  map MotionEvent.hand (eventLog run) = [Left] /\
  map MotionEvent.type (eventLog run) = [START] /\
  map MotionEvent.orderIndex (eventLog run) = [Some 1%Z] /\
  Forall2 Qeq (map MotionEvent.timestamp (eventLog run)) [5].
Proof.
  cbv zeta. conjuncts; evaluate.
Qed.

(** ** One motion: from a START to the next STOP of the same hand *)

Section Motion.
Variable Math_sqrt : Q -> Q.

Local Abbreviation run := (handleFrames Math_sqrt).
Local Abbreviation processFrame f this :=
  (MotionAnalyzer.processFrame Math_sqrt (time f) (leftLM f) (rightLM f) this).

Lemma crash_cons f rest this :
  crash (run (f :: rest) this) =
  match processFrame f this with
  | (Normal _, this') => crash (run rest this')
  | (Throw e, _) => Some e
  end.
Proof.
  cbn [handleFrames].
  destruct (MotionAnalyzer.processFrame _ _ _ _ _) as [[r|e] this']; reflexivity.
Qed.

Lemma final_cons f rest this :
  final (run (f :: rest) this) =
  match processFrame f this with
  | (Normal _, this') => final (run rest this')
  | (Throw _, this') => this'
  end.
Proof.
  cbn [handleFrames].
  destruct (MotionAnalyzer.processFrame _ _ _ _ _) as [[r|e] this']; reflexivity.
Qed.

Lemma run_sessionStartTime frames : forall this,
  MotionAnalyzer.sessionStartTime (final (run frames this)) =
  MotionAnalyzer.sessionStartTime this.
Proof.
  induction frames as [|f rest IH]; intros this; [reflexivity|].
  rewrite final_cons.
  pose proof (processFrame_sessionStartTime Math_sqrt (time f) (leftLM f) (rightLM f) this) as H.
  destruct (MotionAnalyzer.processFrame _ _ _ _ _) as [[r|e] this']; cbn [snd] in H.
  - now rewrite IH.
  - exact H.
Qed.

Lemma run_config frames : forall this,
  MotionAnalyzer.config (final (run frames this)) = MotionAnalyzer.config this.
Proof.
  induction frames as [|f rest IH]; intros this; [reflexivity|].
  rewrite final_cons.
  pose proof (processFrame_config Math_sqrt (time f) (leftLM f) (rightLM f) this) as H.
  destruct (MotionAnalyzer.processFrame _ _ _ _ _) as [[r|e] this']; cbn [snd] in H.
  - now rewrite IH.
  - exact H.
Qed.

(** An event returned for a hand tells the transition of its step. *)
Lemma emit_nil tr h timestamp mid :
  fst (emit tr h timestamp mid) = [] -> tr = Quiet.
Proof. destruct tr; [reflexivity| |]; discriminate. Qed.

Lemma emit_start tr h timestamp mid e :
  In e (fst (emit tr h timestamp mid)) -> MotionEvent.type e = START ->
  tr = Started /\
  MotionEvent.timestamp e = timestamp - MotionAnalyzer.sessionStartTime mid.
Proof.
  destruct tr; cbn; intros H; [contradiction| |]; destruct H as [<-|[]];
    cbn; intros; [split; reflexivity | discriminate].
Qed.

Lemma emit_stop tr h timestamp mid e :
  In e (fst (emit tr h timestamp mid)) -> MotionEvent.type e = STOP ->
  exists duration distance,
    tr = Stopped duration distance /\
    MotionEvent.duration e = Some duration /\
    MotionEvent.distance e = Some distance /\
    MotionEvent.timestamp e = timestamp - MotionAnalyzer.sessionStartTime mid.
Proof.
  destruct tr; cbn; intros H; [contradiction| |]; destruct H as [<-|[]];
    cbn; intros; [discriminate | eauto 6].
Qed.

(** A step that reports nothing while the hand moves: the motion goes on,
    and the distance grows by the raw speed of the frame, if it has one. *)
Lemma handStep_quiet_moving cfg timestamp landmarks st step :
  handStep Math_sqrt cfg timestamp landmarks st = Normal step ->
  isMoving st = true -> transition step = Quiet ->
  isMoving (after step) = true /\
  motionStartTime (after step) = motionStartTime st /\
  totalDistance (after step) =
    fold_left Qplus (match raw step with Some v => [v] | None => [] end)
      (totalDistance st).
Proof.
  unfold handStep. intros H Hm.
  destruct (MotionAnalyzer.lost landmarks);
    [injection H as <-; cbn; auto|].
  destruct (representative _) as [pos|]; [|discriminate].
  rewrite Hm in H.
  repeat match type of H with
  | context [if ?b then _ else _] => destruct b
  end; injection H as <-; cbn; intros; try discriminate; auto.
Qed.

Lemma rawSpeeds_cons h f rest this r this' step :
  processFrame f this = (Normal r, this') ->
  handStep Math_sqrt (MotionAnalyzer.config this) (time f) (landmarksOf h f)
    (handOf h this) = Normal step ->
  rawSpeeds Math_sqrt h (f :: rest) this =
  match raw step with Some v => [v] | None => [] end ++ rawSpeeds Math_sqrt h rest this'.
Proof. intros Hf Hs. cbn [rawSpeeds]. now rewrite Hf, Hs. Qed.

(** A stretch of frames that all return, with no event for a moving hand:
    the hand is still moving at the end, its motion-start time is kept,
    and its distance has grown by the raw speeds of the stretch. *)
Lemma quiet_stretch h frames : forall this,
  isMoving (handOf h this) = true ->
  crash (run frames this) = None ->
  eventsOf h (eventLog (run frames this)) = [] ->
  isMoving (handOf h (final (run frames this))) = true /\
  motionStartTime (handOf h (final (run frames this))) = motionStartTime (handOf h this) /\
  totalDistance (handOf h (final (run frames this))) =
    fold_left Qplus (rawSpeeds Math_sqrt h frames this) (totalDistance (handOf h this)).
Proof.
  induction frames as [|f rest IH]; intros this Hm Hc Hq; [cbn; auto|].
  rewrite crash_cons in Hc. rewrite eventLog_cons in Hq. rewrite final_cons.
  destruct (MotionAnalyzer.processFrame _ _ _ _ _) as [[r|e] this'] eqn:Hf;
    [|discriminate].
  rewrite eventsOf_app in Hq. apply app_eq_nil in Hq. destruct Hq as [Hq1 Hq2].
  destruct (processFrame_hand _ _ _ _ _ h Hf) as (step & mid & Hstep & Hafter & Hev & _).
  rewrite Hev in Hq1. apply emit_nil in Hq1.
  destruct (handStep_quiet_moving _ _ _ _ _ Hstep Hm Hq1) as (Hm' & Hs' & Hd').
  rewrite <- Hafter in Hm', Hs', Hd'.
  destruct (IH this' Hm' Hc Hq2) as (IH1 & IH2 & IH3).
  rewrite (rawSpeeds_cons _ _ _ _ _ _ _ Hf Hstep), fold_left_app.
  rewrite IH2, IH3, Hs', Hd'. auto.
Qed.

Lemma rawSpeeds_app h frames more : forall this,
  crash (run frames this) = None ->
  rawSpeeds Math_sqrt h (frames ++ more) this =
  rawSpeeds Math_sqrt h frames this ++ rawSpeeds Math_sqrt h more (final (run frames this)).
Proof.
  induction frames as [|f rest IH]; intros this Hc; [reflexivity|].
  rewrite crash_cons in Hc. rewrite final_cons.
  cbn [app rawSpeeds].
  destruct (MotionAnalyzer.processFrame _ _ _ _ _) as [[r|e] this'] eqn:Hf;
    [|discriminate].
  now rewrite (IH _ Hc), app_assoc.
Qed.

(** The STOP that ends a motion: [fs] is the frame that returned the START
    of hand [h], [mid] the frames after it, none with an event for [h],
    and [fe] the frame that returned the STOP. *)
Lemma motion_summary h this fs mid fe rs this1 re this3 e0 e :
  processFrame fs this = (Normal rs, this1) ->
  In e0 (eventsOf h (MotionAnalyzer.events rs)) -> MotionEvent.type e0 = START ->
  crash (run mid this1) = None ->
  eventsOf h (eventLog (run mid this1)) = [] ->
  processFrame fe (final (run mid this1)) = (Normal re, this3) ->
  In e (eventsOf h (MotionAnalyzer.events re)) -> MotionEvent.type e = STOP ->
  MotionEvent.distance e =
    Some (fold_left Qplus (rawSpeeds Math_sqrt h (mid ++ [fe]) this1) 0) /\
  MotionEvent.duration e =
    Some (time fe - (if Qeq_bool (time fs) 0 then time fe else time fs)) /\
  MotionEvent.timestamp e0 = time fs - MotionAnalyzer.sessionStartTime this /\
  MotionEvent.timestamp e = time fe - MotionAnalyzer.sessionStartTime this.
Proof.
  intros Hfs He0 Hk0 Hc Hq Hfe He Hk.
  destruct (processFrame_hand _ _ _ _ _ h Hfs) as (s0 & m0 & Hs0 & Ha0 & Hev0 & Hsst0).
  rewrite Hev0 in He0. destruct (emit_start _ _ _ _ _ He0 Hk0) as [Htr0 Hts0].
  pose proof (handStep_transition _ _ _ _ _ _ Hs0) as Hcase0. rewrite Htr0 in Hcase0.
  destruct Hcase0 as (_ & Hm1 & Hd1 & Hst1). rewrite <- Ha0 in Hm1, Hd1, Hst1.
  destruct (quiet_stretch h mid this1 Hm1 Hc Hq) as (Hm2 & Hst2 & Hd2).
  destruct (processFrame_hand _ _ _ _ _ h Hfe) as (s1 & m1 & Hs1 & Ha1 & Hev1 & Hsst1).
  rewrite Hev1 in He. destruct (emit_stop _ _ _ _ _ He Hk) as (d & dist & Htr1 & Hdur & Hdist & Hts1).
  pose proof (handStep_transition _ _ _ _ _ _ Hs1) as Hcase1. rewrite Htr1 in Hcase1.
  destruct Hcase1 as (_ & _ & Hd & v & Hraw & Hv).
  assert (Hsst : MotionAnalyzer.sessionStartTime (final (run mid this1)) =
                 MotionAnalyzer.sessionStartTime this).
  { rewrite run_sessionStartTime.
    pose proof (processFrame_sessionStartTime Math_sqrt (time fs) (leftLM fs) (rightLM fs) this) as H.
    now rewrite Hfs in H. }
  repeat split.
  - rewrite Hdist, Hv, (rawSpeeds_app _ _ _ _ Hc), fold_left_app.
    rewrite (rawSpeeds_cons _ _ [] _ _ _ _ Hfe Hs1), Hraw. cbn.
    now rewrite Hd2, Hd1.
  - rewrite Hdur, Hd. unfold startedAt. now rewrite Hst2, Hst1.
  - now rewrite Hts0, Hsst0.
  - now rewrite Hts1, Hsst1, Hsst.
Qed.

Lemma results_cons f rest this :
  results (run (f :: rest) this) =
  match processFrame f this with
  | (Normal r, this') => r :: results (run rest this')
  | (Throw _, _) => []
  end.
Proof.
  cbn [handleFrames].
  destruct (MotionAnalyzer.processFrame _ _ _ _ _) as [[r|e] this']; reflexivity.
Qed.

Lemma started_event h timestamp mid :
  exists e0, In e0 (fst (emit Started h timestamp mid)) /\ MotionEvent.type e0 = START.
Proof. eexists. split; [now left | reflexivity]. Qed.

(** Every STOP a run returns ends a motion: one that was under way when
    the run began, or one whose START the run returned. *)
Lemma motion_of_stop h frames : forall this j re e,
  nth_error (results (run frames this)) j = Some re ->
  In e (eventsOf h (MotionAnalyzer.events re)) -> MotionEvent.type e = STOP ->
  motionUnderWay Math_sqrt h this frames j re \/
  exists e0 fs started mid fe, motionBehind Math_sqrt h this frames j re e0 fs started mid fe.
Proof.
  induction frames as [|f rest IH]; intros this j re e Hj He Hk;
    [destruct j; discriminate|].
  rewrite results_cons in Hj.
  destruct (MotionAnalyzer.processFrame _ _ _ _ _) as [[r|x] this'] eqn:Hf;
    [|destruct j; discriminate].
  destruct (processFrame_hand _ _ _ _ _ h Hf) as (step & m & Hstep & Hafter & Hev & _).
  pose proof (handStep_transition _ _ _ _ _ _ Hstep) as Hcase.
  destruct j as [|j].
  - injection Hj as ->. left.
    rewrite Hev in He. destruct (emit_stop _ _ _ _ _ He Hk) as (d & x & Htr & _).
    rewrite Htr in Hcase. destruct Hcase as (Hm & _).
    split; [exact Hm|]. exists [], f, rest. unfold frameOutcome. cbn. rewrite Hf.
    repeat split.
  - cbn [nth_error] in Hj.
    destruct (IH this' j re e Hj He Hk)
      as [(Hm' & mid & fe & post & -> & -> & Hc & Hq & Hfe)
         |(e0 & fs & started & mid & fe & pre & post & rs & -> & -> & Hc & Hfs & Hrest)].
    + rewrite Hafter in Hm'. destruct (transition step) as [| |d x] eqn:Htr.
      * left. rewrite Hcase in Hm'. split; [exact Hm'|].
        exists (f :: mid), fe, post.
        rewrite crash_cons, eventLog_cons, final_cons, Hf, eventsOf_app, Hev, Hq.
        repeat split; auto.
      * right. destruct (started_event h (time f) m) as (e0 & He0 & Hk0).
        rewrite <- Hev in He0.
        exists e0, f, this', mid, fe, [], post, r. unfold frameOutcome.
        cbn [app List.length handleFrames crash final]. rewrite Hf.
        repeat split; auto.
      * destruct Hcase as (_ & Hfalse & _). congruence.
    + right. exists e0, fs, started, mid, fe, (f :: pre), post, rs.
      rewrite crash_cons, final_cons, Hf. cbn. repeat split; auto; apply Hrest.
Qed.

(** C5. Every STOP returned in a session ends a motion of its hand: some
    earlier frame returned the hand's START, and no frame between the two
    returned an event for the hand.  The distance of the STOP is the sum, in
    frame order, of the raw (unsmoothed) speeds [analyzeHand] computed for
    the hand on the frames where it was visible, from the frame after the
    START up to and including the frame of the STOP: the frames the hand
    entered in the Moving state.  The frame of the START does not count. *)
Theorem stop_distance_is_raw_path origin frames h j re e :
  nth_error (results (run frames (sessionStart origin))) j = Some re ->
  In e (eventsOf h (MotionAnalyzer.events re)) -> MotionEvent.type e = STOP ->
  exists e0 fs started mid fe,
    motionBehind Math_sqrt h (sessionStart origin) frames j re e0 fs started mid fe /\
    MotionEvent.distance e =
      Some (fold_left Qplus (rawSpeeds Math_sqrt h (mid ++ [fe]) started) 0).
Proof.
  intros Hj He Hk.
  destruct (motion_of_stop h frames _ j re e Hj He Hk)
    as [(Hm & _)|(e0 & fs & started & mid & fe & Hmotion)];
    [rewrite sessionStart_idle in Hm; discriminate|].
  exists e0, fs, started, mid, fe. split; [exact Hmotion|].
  destruct Hmotion as (pre & post & rs & _ & _ & _ & Hfs & He0 & Hk0 & Hc & Hq & Hfe).
  unfold frameOutcome in Hfs, Hfe.
  destruct (MotionAnalyzer.processFrame _ (time fe) _ _ _) as [c this3] eqn:Hfe'.
  cbn [fst] in Hfe. subst c.
  exact (proj1 (motion_summary _ _ _ _ _ _ _ _ _ _ _ Hfs He0 Hk0 Hc Hq Hfe' He Hk)).
Qed.

(** The duration of a STOP returned in a session: the time of its frame
    less the time of the frame of the START, unless the latter is 0. *)
Lemma stop_duration_in_session origin frames h j re e :
  nth_error (results (run frames (sessionStart origin))) j = Some re ->
  In e (eventsOf h (MotionAnalyzer.events re)) -> MotionEvent.type e = STOP ->
  exists e0 fs started mid fe,
    motionBehind Math_sqrt h (sessionStart origin) frames j re e0 fs started mid fe /\
    MotionEvent.duration e =
      Some (time fe - (if Qeq_bool (time fs) 0 then time fe else time fs)) /\
    MotionEvent.timestamp e0 ==
      time fs - MotionAnalyzer.sessionStartTime (sessionStart origin) /\
    MotionEvent.timestamp e ==
      time fe - MotionAnalyzer.sessionStartTime (sessionStart origin).
Proof.
  intros Hj He Hk.
  destruct (motion_of_stop h frames _ j re e Hj He Hk)
    as [(Hm & _)|(e0 & fs & started & mid & fe & Hmotion)];
    [rewrite sessionStart_idle in Hm; discriminate|].
  exists e0, fs, started, mid, fe. split; [exact Hmotion|].
  destruct Hmotion as (pre & post & rs & _ & _ & _ & Hfs & He0 & Hk0 & Hc & Hq & Hfe).
  unfold frameOutcome in Hfs, Hfe.
  destruct (MotionAnalyzer.processFrame _ (time fe) _ _ _) as [c this3] eqn:Hfe'.
  cbn [fst] in Hfe. subst c.
  destruct (motion_summary _ _ _ _ _ _ _ _ _ _ _ Hfs He0 Hk0 Hc Hq Hfe' He Hk)
    as (_ & Hd & Ht0 & Ht).
  rewrite Hd, Ht0, Ht, run_sessionStartTime. repeat split; reflexivity.
Qed.
End Motion.

(** ** The duration of a motion *)

(** In a session, a STOP whose START was returned by a frame with a
    non-zero time has the difference of the two events' timestamps for
    duration; when that time is 0 the duration is 0. *)
Lemma stop_duration_when_start_nonzero (Math_sqrt : Q -> Q) origin frames h j re e :
  nth_error (results (handleFrames Math_sqrt frames (sessionStart origin))) j = Some re ->
  In e (eventsOf h (MotionAnalyzer.events re)) -> MotionEvent.type e = STOP ->
  exists e0 fs started mid fe d,
    motionBehind Math_sqrt h (sessionStart origin) frames j re e0 fs started mid fe /\
    MotionEvent.duration e = Some d /\
    (~ time fs == 0 -> d == MotionEvent.timestamp e - MotionEvent.timestamp e0) /\
    (time fs == 0 -> d == 0).
Proof.
  intros Hj He Hk.
  destruct (stop_duration_in_session Math_sqrt origin frames h j re e Hj He Hk)
    as (e0 & fs & started & mid & fe & Hmotion & Hd & Ht0 & Ht).
  exists e0, fs, started, mid, fe. eexists. split; [exact Hmotion|].
  split; [exact Hd|]. split; intros Hz.
  - destruct (Qeq_bool (time fs) 0) eqn:E; [now apply Qeq_bool_eq in E|].
    rewrite Ht0, Ht. ring.
  - apply Qeq_eq_bool in Hz. rewrite Hz. ring.
Qed.

(** C4 fails on the code when the START is returned by a frame whose time
    is 0: [state.motionStartTime || timestamp] then takes the time of the
    STOP frame, and the duration is 0.  Here the START has timestamp 0, the
    STOP has timestamp 1, and the duration of the STOP is 0, not 1 - 0. *)
Theorem zero_start_time_loses_duration :
  let run := handleFrames Qsqrt zeroStart (MotionAnalyzer.new quickConfig) in
  crash run = None /\
  map MotionEvent.hand (eventLog run) = [Left; Left] /\
  map MotionEvent.type (eventLog run) = [START; STOP] /\
  Forall2 Qeq (map MotionEvent.timestamp (eventLog run)) [0; 1] /\
  Forall2 (fun d expected => exists v, d = Some v /\ v == expected)
    (map MotionEvent.duration (filter isStop (eventLog run))) [0].
Proof.
  cbv zeta. conjuncts; try evaluate.
  vm_compute. constructor; [|constructor]. eexists. split; reflexivity.
Qed.

(** ** Debounce on a second motion *)

(** C7 fails on the code in the second motion of a hand.  The STOP of the
    first motion leaves [framesBelowThreshold] at the debounce length, and
    nothing clears it when the hand starts again; under a debounce length
    of 2, the hand is moving after [secondMotion], is then fed one fixed
    position for three frames, and the very first of them, the only frame of
    that motion whose smoothed velocity is below the stop threshold, returns
    the STOP. *)
Theorem second_motion_stops_without_debounce :
  let this := final (handleFrames Qsqrt secondMotion (MotionAnalyzer.new twoFrameConfig)) in
  let run := handleFrames Qsqrt (rest 6 0.16 3) this in
  kinds (eventLog (handleFrames Qsqrt secondMotion (MotionAnalyzer.new twoFrameConfig)))
    = [START; STOP; START] /\
  framesWith START 0
    (results (handleFrames Qsqrt secondMotion (MotionAnalyzer.new twoFrameConfig)))
    = [2%nat; 5%nat] /\
  framesWith STOP 0
    (results (handleFrames Qsqrt secondMotion (MotionAnalyzer.new twoFrameConfig)))
    = [4%nat] /\
  isMoving (MotionAnalyzer.leftHand this) = true /\
  framesBelowThreshold (MotionAnalyzer.leftHand this) = 2%Z /\
  crash run = None /\
  framesWith STOP 0 (results run) = [0%nat] /\
  firstAbove 0.8 (results run) = None.
Proof. cbv zeta. conjuncts; evaluate. Qed.

(** ** Absence during a motion *)

(** After the sweep the left hand moves at a sustained speed of 2.0.  While
    the hand is away no reading is taken: over fifteen frames without it the
    average of the window falls below the stop threshold 0.4 from the fifth
    frame on, no event is returned, and the hand is moving at the end. *)
Example blackout_keeps_moving :
  isMoving (MotionAnalyzer.leftHand afterSweep) = true /\
  forallb
    (fun k =>
       Qltb (VelocityBuffer.average
               (velocityBuffer
                  (MotionAnalyzer.leftHand
                     (final (handleFrames Qsqrt (blackout 10 k) afterSweep)))))
            (threshold TRACKER_CONFIG * 0.5))
    (seq 5 11) = true /\
  crash (handleFrames Qsqrt (blackout 10 15) afterSweep) = None /\
  eventLog (handleFrames Qsqrt (blackout 10 15) afterSweep) = [] /\
  isMoving (MotionAnalyzer.leftHand
              (final (handleFrames Qsqrt (blackout 10 15) afterSweep))) = true.
Proof. conjuncts; evaluate. Qed.

(** In the eclipse the STOP comes from the visible frames after the
    absence: the fifth frame of rest (frame index 19) returns it. *)
Example eclipse_stops_on_return :
  kinds (eventLog (handleFrames Qsqrt eclipse (MotionAnalyzer.new TRACKER_CONFIG)))
    = [START; STOP] /\
  framesWith START 0 (results (handleFrames Qsqrt eclipse (MotionAnalyzer.new TRACKER_CONFIG)))
    = [5%nat] /\
  framesWith STOP 0 (results (handleFrames Qsqrt eclipse (MotionAnalyzer.new TRACKER_CONFIG)))
    = [19%nat].
Proof. conjuncts; evaluate. Qed.

(** ** A hand held still *)

Section Window.
Lemma zeroRun_0 buf : zeroRun 0 buf.
Proof. exists buf, []. rewrite app_nil_r. repeat split; [constructor | right; cbn; lia]. Qed.

Lemma add_bounded q w :
  (Z.of_nat (List.length (VelocityBuffer.buffer w)) <= VelocityBuffer.size w)%Z ->
  VelocityBuffer.size (VelocityBuffer.add q w) = VelocityBuffer.size w /\
  (Z.of_nat (List.length (VelocityBuffer.buffer (VelocityBuffer.add q w)))
     <= VelocityBuffer.size w)%Z.
Proof.
  intros Hlen. unfold VelocityBuffer.add.
  destruct (Z.ltb_spec (VelocityBuffer.size w)
              (Z.of_nat (List.length (VelocityBuffer.buffer w ++ [q])))) as [Hlt|Hge];
    cbn [VelocityBuffer.size VelocityBuffer.buffer]; split; try reflexivity.
  - rewrite length_app in Hlt. cbn in Hlt.
    destruct (VelocityBuffer.buffer w) as [|a l]; cbn [app tl List.length] in *.
    + lia.
    + rewrite length_app. cbn. lia.
  - exact Hge.
Qed.

Lemma add_zeroRun q w k :
  q == 0 -> zeroRun k (VelocityBuffer.buffer w) ->
  zeroRun (S k) (VelocityBuffer.buffer (VelocityBuffer.add q w)).
Proof.
  intros Hq (pre & zs & Hbuf & Hzs & Hk).
  assert (Hzs' : Forall isZero (zs ++ [q]))
    by (apply Forall_app; split; [exact Hzs | repeat constructor; exact Hq]).
  unfold VelocityBuffer.add. rewrite Hbuf, <- app_assoc.
  destruct (_ <? _)%Z; cbn [VelocityBuffer.buffer].
  - destruct pre as [|p pre]; cbn [app tl].
    + exists [], (tl (zs ++ [q])). repeat split; [|now left].
      destruct (zs ++ [q]); [constructor|]. now inversion Hzs'.
    + exists pre, (zs ++ [q]). repeat split; [exact Hzs'|].
      right. rewrite length_app. cbn. destruct Hk as [?|Hk]; [discriminate|lia].
  - exists pre, (zs ++ [q]). repeat split; [exact Hzs'|].
    destruct Hk as [->|Hk]; [now left|right]. rewrite length_app. cbn. lia.
Qed.

Lemma zeroRun_full k buf cap :
  zeroRun k buf -> (Z.of_nat (List.length buf) <= cap)%Z -> (cap <= Z.of_nat k)%Z ->
  Forall isZero buf.
Proof.
  intros (pre & zs & -> & Hzs & Hk) Hlen Hcap.
  destruct Hk as [->|Hk]; [exact Hzs|].
  rewrite length_app in Hlen.
  destruct pre as [|p pre]; [exact Hzs|]. cbn in Hlen. lia.
Qed.

Lemma fold_zeros l : Forall isZero l -> forall a, fold_left Qplus l a == a.
Proof.
  induction 1 as [|q l Hq _ IH]; intros a; [reflexivity|].
  cbn. rewrite IH. unfold isZero in Hq. rewrite Hq. ring.
Qed.

Lemma average_zeros w : Forall isZero (VelocityBuffer.buffer w) -> VelocityBuffer.average w == 0.
Proof.
  intros H. unfold VelocityBuffer.average.
  destruct (Nat.eqb _ 0); [reflexivity|].
  cbn zeta. unfold Qdiv. rewrite (fold_zeros _ H). ring.
Qed.

Lemma Qltb_true a b : a < b -> Qltb a b = true.
Proof.
  intros H. unfold Qltb. destruct (Qle_bool b a) eqn:E; [|reflexivity].
  apply Qle_bool_iff in E. lra.
Qed.
End Window.

Section Still.
Variable Math_sqrt : Q -> Q.
Variable cfg : TrackerConfig.

(** The square root of nothing is nothing. *)
Hypothesis sqrt_zero : forall q, q == 0 -> Math_sqrt q == 0.
Hypothesis threshold_positive : 0 < threshold cfg.

Lemma soundHand_step timestamp landmarks st step :
  handStep Math_sqrt cfg timestamp landmarks st = Normal step ->
  soundHand cfg st -> soundHand cfg (after step).
Proof.
  unfold handStep, soundHand. intros H (Hsize & Hlen & Hb). rewrite <- Hsize in Hlen.
  destruct (MotionAnalyzer.lost landmarks).
  - injection H as <-. cbn.
    destruct (add_bounded 0 _ Hlen) as [-> ?]. rewrite <- Hsize. auto.
  - destruct (representative _) as [pos|]; [|discriminate].
    destruct (add_bounded (MotionAnalyzer.instantaneousVelocity Math_sqrt st pos) _ Hlen)
      as [Hs Hl].
    repeat match type of H with
    | context [if ?b then _ else _] => destruct b
    end; injection H as <-; cbn; rewrite Hs, <- Hsize; repeat split; auto; lia.
Qed.

(** A visible frame for a moving hand: it stops, or it goes on moving. *)
Lemma moving_step timestamp lms pos st :
  isMoving st = true -> representative lms = Some pos ->
  let window :=
    VelocityBuffer.add (MotionAnalyzer.instantaneousVelocity Math_sqrt st pos)
      (velocityBuffer st) in
  exists step,
    handStep Math_sqrt cfg timestamp (Some lms) st = Normal step /\
    ((exists duration distance, transition step = Stopped duration distance) \/
     (transition step = Quiet /\
      isMoving (after step) = true /\
      lastPosition (after step) = Some pos /\
      velocityBuffer (after step) = window /\
      (Qltb (VelocityBuffer.average window) (threshold cfg * 0.5) = true ->
       framesBelowThreshold (after step) = (framesBelowThreshold st + 1)%Z /\
       (framesBelowThreshold st + 1 < minDurationFrames cfg)%Z))).
Proof.
  intros Hm Hrep. cbn zeta. unfold handStep.
  assert (Hlost : MotionAnalyzer.lost (Some lms) = false)
    by (destruct lms; [discriminate|reflexivity]).
  rewrite Hlost, Hrep, Hm.
  destruct (Qltb _ (threshold cfg * 0.5)) eqn:Hs.
  - destruct (Z.leb_spec (minDurationFrames cfg) (framesBelowThreshold st + 1)).
    + eexists. split; [reflexivity|]. left. cbn. eauto.
    + eexists. split; [reflexivity|]. right. cbn. repeat split; auto.
  - eexists. split; [reflexivity|]. right. cbn. repeat split; auto; discriminate.
Qed.

Lemma instantaneousVelocity_still st pos :
  lastPosition st = Some pos ->
  MotionAnalyzer.instantaneousVelocity Math_sqrt st pos == 0.
Proof.
  intros H. unfold MotionAnalyzer.instantaneousVelocity. rewrite H. cbn zeta.
  rewrite sqrt_zero; [ring | ring].
Qed.

(** A frame at the position where the moving hand already is: one more
    zero in the window; and once the window holds zeros only, the frame
    counts towards the stop. *)
Lemma resting_step timestamp lms pos k st :
  resting cfg pos k st -> representative lms = Some pos ->
  exists step,
    handStep Math_sqrt cfg timestamp (Some lms) st = Normal step /\
    ((exists duration distance, transition step = Stopped duration distance) \/
     (transition step = Quiet /\
      resting cfg pos (S k) (after step) /\
      ((smoothingFrames cfg <= Z.of_nat (S k))%Z ->
       framesBelowThreshold (after step) = (framesBelowThreshold st + 1)%Z /\
       (framesBelowThreshold st + 1 < minDurationFrames cfg)%Z))).
Proof.
  intros (Hsound & Hm & Hpos & Hrun) Hrep.
  destruct (moving_step timestamp lms pos st Hm Hrep) as (step & Hstep & Hcase).
  exists step. split; [exact Hstep|].
  destruct Hcase as [Hstop|(Hq & Hm' & Hpos' & Hwin & Hbelow)]; [now left|right].
  pose proof (soundHand_step _ _ _ _ Hstep Hsound) as Hsound'.
  pose proof (add_zeroRun _ (velocityBuffer st) k
                (instantaneousVelocity_still st pos Hpos) Hrun) as Hrun'.
  rewrite <- Hwin in Hrun'.
  split; [exact Hq|]. split; [exact (conj Hsound' (conj Hm' (conj Hpos' Hrun')))|].
  intros Hfull. apply Hbelow. rewrite <- Hwin.
  apply Qltb_true.
  destruct Hsound' as (_ & Hlen & _).
  rewrite (average_zeros _ (zeroRun_full _ _ _ Hrun' Hlen Hfull)). lra.
Qed.

Variable h : Handedness.
Variable lms : list Point.t.
Variable pos : Point.t.
Hypothesis lms_representative : representative lms = Some pos.

Local Abbreviation run := (handleFrames Math_sqrt).
Local Abbreviation shown := (Forall (fun f => landmarksOf h f = Some lms)).
Local Abbreviation stopLogged log :=
  (exists e, In e (eventsOf h log) /\ MotionEvent.type e = STOP).

(** The first frame of a run that does not crash, seen from hand [h]. *)
Lemma head_frame f rest this step :
  MotionAnalyzer.config this = cfg ->
  landmarksOf h f = Some lms ->
  crash (run (f :: rest) this) = None ->
  handStep Math_sqrt cfg (time f) (Some lms) (handOf h this) = Normal step ->
  exists r this' mid,
    MotionAnalyzer.config this' = cfg /\
    handOf h this' = after step /\
    crash (run rest this') = None /\
    eventLog (run (f :: rest) this) =
      MotionAnalyzer.events r ++ eventLog (run rest this') /\
    eventsOf h (MotionAnalyzer.events r) = fst (emit (transition step) h (time f) mid).
Proof.
  intros Hcfg Hlm Hc Hstep.
  rewrite crash_cons in Hc. rewrite eventLog_cons.
  pose proof (processFrame_config Math_sqrt (time f) (leftLM f) (rightLM f) this) as Hcfg'.
  destruct (MotionAnalyzer.processFrame _ _ _ _ _) as [[r|e] this'] eqn:Hf;
    [|discriminate].
  destruct (processFrame_hand _ _ _ _ _ h Hf) as (step' & mid & Hstep' & Hafter & Hev & _).
  rewrite Hcfg, Hlm, Hstep in Hstep'. injection Hstep' as <-.
  exists r, this', mid. cbn [snd] in Hcfg'. rewrite Hcfg' , Hcfg. auto.
Qed.

Lemma stopped_is_logged duration distance timestamp mid r more :
  eventsOf h (MotionAnalyzer.events r) =
    fst (emit (Stopped duration distance) h timestamp mid) ->
  stopLogged (MotionAnalyzer.events r ++ more).
Proof.
  intros Hev. cbn in Hev. eexists. rewrite eventsOf_app, Hev. split; [now left|reflexivity].
Qed.

Lemma later_stop_is_logged evs more : stopLogged more -> stopLogged (evs ++ more).
Proof.
  intros (e & He & Hk). exists e. split; [|exact Hk].
  rewrite eventsOf_app. apply in_or_app. now right.
Qed.

(** Once the window holds zeros only, every frame counts: the STOP comes
    as soon as the counter reaches the debounce length. *)
Lemma zero_window_stops frames : forall this k,
  MotionAnalyzer.config this = cfg ->
  resting cfg pos k (handOf h this) ->
  (smoothingFrames cfg <= Z.of_nat (S k))%Z ->
  shown frames -> crash (run frames this) = None ->
  frames <> [] ->
  (minDurationFrames cfg <=
     framesBelowThreshold (handOf h this) + Z.of_nat (List.length frames))%Z ->
  stopLogged (eventLog (run frames this)).
Proof.
  induction frames as [|f rest IH]; intros this k Hcfg Hrest Hfull Hshown Hc Hne Hlen;
    [now elim Hne|].
  pose proof (Forall_inv Hshown) as Hf. cbn beta in Hf.
  pose proof (Forall_inv_tail Hshown) as Hshown'.
  destruct (resting_step (time f) lms pos k _ Hrest lms_representative)
    as (step & Hstep & Hcase).
  destruct (head_frame f rest this step Hcfg Hf Hc Hstep)
    as (r & this' & mid & Hcfg' & Hafter & Hc' & -> & Hev).
  destruct Hcase as [(d & x & Htr)|(Htr & Hrest' & Hcount)].
  - rewrite Htr in Hev. eapply stopped_is_logged, Hev.
  - destruct (Hcount Hfull) as [Hb Hlt]. rewrite <- Hafter in Hrest', Hb.
    apply later_stop_is_logged.
    apply (IH this' (S k)); auto.
    + lia.
    + intros ->. cbn in Hlen. lia.
    + cbn [List.length] in Hlen. lia.
Qed.

(** At most capacity - 1 further frames clear the window of a resting
    hand; the debounce length more bring the STOP. *)
Lemma rest_stops frames : forall this k,
  MotionAnalyzer.config this = cfg ->
  resting cfg pos k (handOf h this) ->
  (1 <= minDurationFrames cfg)%Z ->
  shown frames -> crash (run frames this) = None ->
  (Z.to_nat (smoothingFrames cfg) - 1 - k + Z.to_nat (minDurationFrames cfg)
     <= List.length frames)%nat ->
  stopLogged (eventLog (run frames this)).
Proof.
  induction frames as [|f rest IH]; intros this k Hcfg Hrest Hd Hshown Hc Hlen.
  - cbn in Hlen. lia.
  - destruct (Z_le_gt_dec (smoothingFrames cfg) (Z.of_nat (S k))) as [Hfull|Hnot].
    + apply (zero_window_stops (f :: rest) this k); auto; [discriminate|].
      destruct Hrest as ((_ & _ & Hb) & _). lia.
    + pose proof (Forall_inv Hshown) as Hf. cbn beta in Hf.
  pose proof (Forall_inv_tail Hshown) as Hshown'.
      destruct (resting_step (time f) lms pos k _ Hrest lms_representative)
        as (step & Hstep & Hcase).
      destruct (head_frame f rest this step Hcfg Hf Hc Hstep)
        as (r & this' & mid & Hcfg' & Hafter & Hc' & -> & Hev).
      destruct Hcase as [(d & x & Htr)|(Htr & Hrest' & _)].
      * rewrite Htr in Hev. eapply stopped_is_logged, Hev.
      * rewrite <- Hafter in Hrest'. apply later_stop_is_logged.
        apply (IH this' (S k)); auto. cbn [List.length] in Hlen. lia.
Qed.

(** A moving hand shown at one fixed position for at least capacity +
    debounce-length frames that all return: a STOP for the hand is logged
    within these frames. *)
Lemma still_hand_stops frames this :
  MotionAnalyzer.config this = cfg ->
  soundHand cfg (handOf h this) -> isMoving (handOf h this) = true ->
  (1 <= smoothingFrames cfg)%Z -> (1 <= minDurationFrames cfg)%Z ->
  shown frames -> crash (run frames this) = None ->
  (smoothingFrames cfg + minDurationFrames cfg <= Z.of_nat (List.length frames))%Z ->
  stopLogged (eventLog (run frames this)).
Proof.
  intros Hcfg Hsound Hm Hs Hd Hshown Hc Hlen.
  destruct frames as [|f rest]; [cbn in Hlen; lia|].
  pose proof (Forall_inv Hshown) as Hf. cbn beta in Hf.
  pose proof (Forall_inv_tail Hshown) as Hshown'.
  destruct (moving_step (time f) lms pos _ Hm lms_representative)
    as (step & Hstep & Hcase).
  destruct (head_frame f rest this step Hcfg Hf Hc Hstep)
    as (r & this' & mid & Hcfg' & Hafter & Hc' & -> & Hev).
  destruct Hcase as [(d & x & Htr)|(Htr & Hm' & Hpos' & Hwin & _)].
  - rewrite Htr in Hev. eapply stopped_is_logged, Hev.
  - apply later_stop_is_logged.
    apply (rest_stops rest this' 0%nat); auto.
    + rewrite Hafter. split; [exact (soundHand_step _ _ _ _ Hstep Hsound)|].
      split; [exact Hm'|]. split; [exact Hpos'|]. apply zeroRun_0.
    + cbn [List.length] in Hlen. lia.
Qed.
End Still.


(** ** Hand states of a session *)

Section Sessions.
Variable Math_sqrt : Q -> Q.

Lemma processFrame_sound cfg timestamp l r this :
  MotionAnalyzer.config this = cfg ->
  (forall h, soundHand cfg (handOf h this)) ->
  forall h,
    soundHand cfg
      (handOf h (snd (MotionAnalyzer.processFrame Math_sqrt timestamp l r this))).
Proof.
  intros Hcfg Hall h. rewrite processFrame_handStep, Hcfg.
  pose proof (Hall Left) as HL. pose proof (Hall Right) as HR.
  unfold handOf in *. cbn [refOf] in *.
  destruct (handStep _ _ _ l _) as [sl|] eqn:Hl; cbn [snd]; [|destruct h; assumption].
  pose proof (soundHand_step _ _ _ _ _ _ Hl HL) as HL'.
  destruct (handStep _ _ _ r _) as [sr|] eqn:Hr; cbn [snd].
  - pose proof (soundHand_step _ _ _ _ _ _ Hr HR) as HR'.
    destruct h; cbn [refOf].
    + rewrite deref_assign_other, emit_deref by discriminate.
      unfold afterLeft. now rewrite deref_assign_same.
    + now rewrite deref_assign_same.
  - unfold afterLeft. destruct h; cbn [refOf].
    + now rewrite deref_assign_same.
    + now rewrite deref_assign_other, emit_deref by discriminate.
Qed.

Lemma run_sound cfg frames : forall this,
  MotionAnalyzer.config this = cfg ->
  (forall h, soundHand cfg (handOf h this)) ->
  forall h, soundHand cfg (handOf h (final (handleFrames Math_sqrt frames this))).
Proof.
  induction frames as [|f rest IH]; intros this Hcfg Hall h; [apply Hall|].
  rewrite final_cons.
  pose proof (processFrame_sound cfg (time f) (leftLM f) (rightLM f) this Hcfg Hall) as Hs.
  pose proof (processFrame_config Math_sqrt (time f) (leftLM f) (rightLM f) this) as Hc.
  destruct (MotionAnalyzer.processFrame _ _ _ _ _) as [[r|e] this']; cbn [snd] in *.
  - apply IH; [congruence | exact Hs].
  - apply Hs.
Qed.

Lemma sessionStart_sound origin h :
  (0 <= smoothingFrames (MotionAnalyzer.config (sessionStart origin)))%Z ->
  soundHand (MotionAnalyzer.config (sessionStart origin)) (handOf h (sessionStart origin)).
Proof.
  destruct origin, h; intros H; (split; [reflexivity | split; [exact H | reflexivity]]).
Qed.

(** In a session whose configuration is valid (positive threshold, capacity
    and debounce length at least 1), a hand that is moving and is then
    shown at one fixed position for at least capacity + debounce-length
    frames, all returning, has a STOP logged within these frames. *)
Lemma still_hand_stops_in_session origin pre frames h lms pos :
  (forall q, q == 0 -> Math_sqrt q == 0) ->
  let cfg := MotionAnalyzer.config (sessionStart origin) in
  let this := final (handleFrames Math_sqrt pre (sessionStart origin)) in
  0 < threshold cfg ->
  (1 <= smoothingFrames cfg)%Z -> (1 <= minDurationFrames cfg)%Z ->
  isMoving (handOf h this) = true ->
  representative lms = Some pos ->
  Forall (fun f => landmarksOf h f = Some lms) frames ->
  crash (handleFrames Math_sqrt frames this) = None ->
  (smoothingFrames cfg + minDurationFrames cfg <= Z.of_nat (List.length frames))%Z ->
  exists e,
    In e (eventsOf h (eventLog (handleFrames Math_sqrt frames this))) /\
    MotionEvent.type e = STOP.
Proof.
  intros Hsqrt cfg this Hthr Hs Hd Hm Hrep Hshown Hc Hlen.
  apply (still_hand_stops Math_sqrt cfg Hsqrt Hthr h lms pos Hrep frames this); auto.
  - apply run_config.
  - apply run_sound; [reflexivity|].
    intros h'. apply sessionStart_sound. fold cfg. lia.
Qed.
End Sessions.

Lemma Qsqrt_zero q : q == 0 -> Qsqrt q == 0.
Proof.
  unfold Qsqrt, Qeq. cbn. intros H. rewrite Z.mul_1_r in H. rewrite H. reflexivity.
Qed.

(** After [secondMotion] the moving left hand rests for three frames, under
    a capacity of 1 and a debounce length of 2: the STOP is logged. *)
Example still_hand_stops_in_session_instance :
  exists e,
    In e (eventsOf Left
            (eventLog (handleFrames Qsqrt (rest 6 0.16 3)
                         (final (handleFrames Qsqrt secondMotion
                                   (sessionStart (Constructed twoFrameConfig))))))) /\
    MotionEvent.type e = STOP.
Proof.
  eapply (still_hand_stops_in_session Qsqrt (Constructed twoFrameConfig) secondMotion
            (rest 6 0.16 3) Left (handAt 0.16) _ Qsqrt_zero).
  - reflexivity.
  - discriminate.
  - discriminate.
  - vm_compute. reflexivity.
  - reflexivity.
  - repeat constructor.
  - vm_compute. reflexivity.
  - discriminate.
Qed.

(** The sweep once more, the hand having been seen one frame earlier, so
    that all ten frames have the instantaneous speed 2.0: the first of them
    is already above 0.8 (window [0; 2]), and the START comes at index 4. *)
Example primed_sweep_starts_at_frame_4 :
  let this := final (handleFrames Qsqrt [leftAt (-1) 0.08] (MotionAnalyzer.new TRACKER_CONFIG)) in
  Forall2 Qeq (rawSpeeds Qsqrt Left sweep this) (repeat 2 10) /\
  firstAbove 0.8 (results (handleFrames Qsqrt sweep this)) = Some 0%nat /\
  framesWith START 0 (results (handleFrames Qsqrt sweep this)) = [4%nat].
Proof. cbv zeta. conjuncts; evaluate. Qed.

(** ** Instances *)

Lemma lost_hand_holds_state_witness :
  MotionAnalyzer.lost (landmarksOf Left (nobody 10)) = true /\
  isMoving (handOf Left
              (snd (MotionAnalyzer.processFrame Qsqrt (time (nobody 10))
                      (leftLM (nobody 10)) (rightLM (nobody 10)) afterSweep))) =
  isMoving (handOf Left afterSweep).
Proof.
  split; [reflexivity|].
  exact (proj1 (lost_hand_holds_state Qsqrt (nobody 10) afterSweep Left eq_refl)).
Defined.

Lemma stop_distance_is_raw_path_witness :
  nth_error
    (results (handleFrames Qsqrt eclipse (sessionStart (Constructed TRACKER_CONFIG))))
    19 = Some eclipseStopped /\
  MotionEvent.type eclipseStopEvent = STOP /\
  exists e0 fs started mid fe,
    motionBehind Qsqrt Left (sessionStart (Constructed TRACKER_CONFIG)) eclipse 19
      eclipseStopped e0 fs started mid fe /\
    MotionEvent.distance eclipseStopEvent =
      Some (fold_left Qplus (rawSpeeds Qsqrt Left (mid ++ [fe]) started) 0).
Proof.
  assert (Hj : nth_error
                 (results (handleFrames Qsqrt eclipse
                             (sessionStart (Constructed TRACKER_CONFIG))))
                 19 = Some eclipseStopped) by (vm_compute; reflexivity).
  assert (He : In eclipseStopEvent (eventsOf Left (MotionAnalyzer.events eclipseStopped)))
    by (vm_compute; left; reflexivity).
  assert (Hk : MotionEvent.type eclipseStopEvent = STOP) by (vm_compute; reflexivity).
  split; [exact Hj|]. split; [exact Hk|].
  exact (stop_distance_is_raw_path Qsqrt (Constructed TRACKER_CONFIG) eclipse Left 19
           eclipseStopped eclipseStopEvent Hj He Hk).
Defined.

(** ** The smoothing window *)

Lemma sliceLast_length {A : Type} n (l : list A) :
  List.length (sliceLast n l) = Nat.min n (List.length l).
Proof. unfold sliceLast. rewrite length_skipn. lia. Qed.

Lemma skipn_snoc {A : Type} k (l : list A) x :
  (k < List.length l)%nat -> tl (skipn k l ++ [x]) = skipn (S k) l ++ [x].
Proof.
  revert k. induction l as [|a l IH]; intros k Hlt; [cbn in Hlt; lia|].
  destruct k as [|k]; [reflexivity|].
  cbn [List.length] in Hlt. change (skipn (S k) (a :: l)) with (skipn k l).
  change (skipn (S (S k)) (a :: l)) with (skipn (S k) l). apply IH. lia.
Qed.

Lemma sliceLast_snoc_shift {A : Type} n (l : list A) x :
  (n <= List.length l)%nat -> tl (sliceLast n l ++ [x]) = sliceLast n (l ++ [x]).
Proof.
  intros Hn. unfold sliceLast. rewrite length_app. cbn [List.length].
  destruct (Nat.eqb_spec n 0) as [->|Hpos].
  - rewrite Nat.sub_0_r, skipn_all, skipn_all2 by (rewrite length_app; cbn; lia).
    reflexivity.
  - replace (List.length l + 1 - n)%nat with (S (List.length l - n)) by lia.
    rewrite skipn_snoc by lia.
    rewrite skipn_app.
    replace (S (List.length l - n) - List.length l)%nat with 0%nat by lia.
    reflexivity.
Qed.

Lemma sliceLast_snoc_grow {A : Type} n (l : list A) x :
  (List.length l < n)%nat -> sliceLast n l ++ [x] = sliceLast n (l ++ [x]).
Proof.
  intros Hn. unfold sliceLast. rewrite length_app. cbn [List.length].
  replace (List.length l - n)%nat with 0%nat by lia.
  replace (List.length l + 1 - n)%nat with 0%nat by lia. reflexivity.
Qed.

Lemma add_sliceLast v w samples :
  VelocityBuffer.buffer w = sliceLast (Z.to_nat (VelocityBuffer.size w)) samples ->
  VelocityBuffer.buffer (VelocityBuffer.add v w) =
    sliceLast (Z.to_nat (VelocityBuffer.size w)) (samples ++ [v]) /\
  VelocityBuffer.size (VelocityBuffer.add v w) = VelocityBuffer.size w.
Proof.
  intros Hbuf. unfold VelocityBuffer.add. rewrite Hbuf.
  rewrite length_app, sliceLast_length. cbn [List.length].
  destruct (Z.ltb_spec (VelocityBuffer.size w)
              (Z.of_nat (Nat.min (Z.to_nat (VelocityBuffer.size w)) (List.length samples) + 1)))
    as [Hlt|Hge]; cbn [VelocityBuffer.buffer VelocityBuffer.size]; split; try reflexivity.
  - apply sliceLast_snoc_shift. lia.
  - apply sliceLast_snoc_grow. lia.
Qed.

(** X1. A window built for [size] samples and fed any list of samples holds
    exactly the last [size] of them, in order (all of them while fewer have
    been fed; none at all when [size] is zero or negative). *)
Theorem window_holds_latest size samples :
  VelocityBuffer.buffer (addAll samples (VelocityBuffer.constructor size)) =
  sliceLast (Z.to_nat size) samples.
Proof.
  assert (H : forall more w fed,
             VelocityBuffer.buffer w = sliceLast (Z.to_nat (VelocityBuffer.size w)) fed ->
             VelocityBuffer.buffer (addAll more w) =
               sliceLast (Z.to_nat (VelocityBuffer.size w)) (fed ++ more)).
  { induction more as [|v more IH]; intros w fed Hw.
    - now rewrite app_nil_r.
    - cbn [addAll fold_left]. destruct (add_sliceLast v w fed Hw) as [Hb Hs].
      fold (addAll more (VelocityBuffer.add v w)).
      rewrite (IH _ (fed ++ [v])), Hs, <- app_assoc; [reflexivity|].
      now rewrite Hs. }
  apply (H samples (VelocityBuffer.constructor size) []).
  unfold sliceLast. cbn. reflexivity.
Qed.

(** ** Frames of a session, one at a time *)

Section Frames.
Variable Math_sqrt : Q -> Q.

Local Abbreviation run := (handleFrames Math_sqrt).

(** A returning frame, seen from one hand, readout included. *)
Lemma processFrame_view f this r this' h :
  frameOutcome Math_sqrt f this = (Normal r, this') ->
  exists step mid,
    handStep Math_sqrt (MotionAnalyzer.config this) (time f) (landmarksOf h f)
      (handOf h this) = Normal step /\
    handOf h this' = after step /\
    eventsOf h (MotionAnalyzer.events r) = fst (emit (transition step) h (time f) mid) /\
    MotionAnalyzer.sessionStartTime mid = MotionAnalyzer.sessionStartTime this /\
    metricsOf h r = readout h (landmarksOf h f) step.
Proof.
  unfold frameOutcome. intros Hf.
  destruct (processFrame_hand _ _ _ _ _ h Hf) as (step & mid & Hstep & Hafter & Hev & Hsst).
  exists step, mid. repeat (split; [assumption|]).
  rewrite processFrame_handStep in Hf.
  destruct (handStep _ _ _ (leftLM f) _) as [sl|] eqn:Hl; [|discriminate].
  destruct (handStep _ _ _ (rightLM f) _) as [sr|] eqn:Hr; [|discriminate].
  cbn zeta in Hf. injection Hf as <- _.
  destruct h; unfold handOf in Hstep; cbn [refOf landmarksOf MotionAnalyzer.deref metricsOf
    MotionAnalyzer.leftMetrics MotionAnalyzer.rightMetrics] in *; congruence.
Qed.

(** The frame behind the [j]-th result of a run, and the analyzer it met. *)
Lemma result_at frames : forall this j re,
  nth_error (results (run frames this)) j = Some re ->
  exists pre f post this',
    frames = pre ++ f :: post /\ List.length pre = j /\
    crash (run pre this) = None /\
    frameOutcome Math_sqrt f (final (run pre this)) = (Normal re, this').
Proof.
  induction frames as [|f rest IH]; intros this j re Hj; [destruct j; discriminate|].
  rewrite results_cons in Hj.
  destruct (MotionAnalyzer.processFrame _ _ _ _ _) as [[r|x] this'] eqn:Hf;
    [|destruct j; discriminate].
  destruct j as [|j].
  - injection Hj as ->. exists [], f, rest, this'. repeat split. exact Hf.
  - destruct (IH this' j re Hj) as (pre & g & post & a & -> & <- & Hc & Hg).
    exists (f :: pre), g, post, a.
    rewrite crash_cons, final_cons, Hf. repeat split; assumption.
Qed.

(** A property of hand states that every step of the machine keeps is
    kept by every run, crashed or not. *)
Lemma run_keeps (P : TrackerConfig -> HandState -> Prop) :
  (forall cfg timestamp landmarks st step,
     handStep Math_sqrt cfg timestamp landmarks st = Normal step ->
     P cfg st -> P cfg (after step)) ->
  forall frames this,
    (forall h, P (MotionAnalyzer.config this) (handOf h this)) ->
    forall h, P (MotionAnalyzer.config this) (handOf h (final (run frames this))).
Proof.
  intros Hkeep. induction frames as [|f rest IH]; intros this Hall h; [apply Hall|].
  rewrite final_cons.
  pose proof (processFrame_config Math_sqrt (time f) (leftLM f) (rightLM f) this) as Hcfg.
  assert (Hnext : forall h',
            P (MotionAnalyzer.config this)
              (handOf h' (snd (MotionAnalyzer.processFrame Math_sqrt (time f)
                                 (leftLM f) (rightLM f) this)))).
  { intros h'. rewrite processFrame_handStep.
    pose proof (Hall Left) as HL. pose proof (Hall Right) as HR.
    unfold handOf in *. cbn [refOf MotionAnalyzer.deref] in HL, HR.
    destruct (handStep _ _ _ (leftLM f) _) as [sl|] eqn:Hl; cbn [snd];
      [|destruct h'; assumption].
    pose proof (Hkeep _ _ _ _ _ Hl HL) as HL'.
    destruct (handStep _ _ _ (rightLM f) _) as [sr|] eqn:Hr; cbn [snd].
    - pose proof (Hkeep _ _ _ _ _ Hr HR) as HR'.
      destruct h'; cbn [refOf].
      + rewrite deref_assign_other, emit_deref by discriminate.
        unfold afterLeft. now rewrite deref_assign_same.
      + now rewrite deref_assign_same.
    - unfold afterLeft. destruct h'; cbn [refOf].
      + now rewrite deref_assign_same.
      + now rewrite deref_assign_other, emit_deref by discriminate. }
  destruct (MotionAnalyzer.processFrame _ _ _ _ _) as [[r|x] this']; cbn [snd] in *.
  - rewrite <- Hcfg. apply IH. intros h'. rewrite Hcfg. apply Hnext.
  - apply Hnext.
Qed.

Lemma sessionStart_hand origin h :
  handOf h (sessionStart origin) =
  MotionAnalyzer.createHandState (MotionAnalyzer.config (sessionStart origin)).
Proof. destruct origin, h; reflexivity. Qed.
End Frames.

(** ** What a session keeps *)

Section Kept.
Variable Math_sqrt : Q -> Q.

Local Abbreviation run := (handleFrames Math_sqrt).

(** X8. At every point of a session, whatever the frames were and whether or
    not a call threw, a hand has a motion-start time exactly when it is
    moving. *)
Theorem start_time_iff_moving origin frames h :
  let st := handOf h (final (run frames (sessionStart origin))) in
  isMoving st = match motionStartTime st with Some _ => true | None => false end.
Proof.
  cbn zeta.
  apply (run_keeps Math_sqrt
           (fun _ st => isMoving st =
                        match motionStartTime st with Some _ => true | None => false end)).
  - intros cfg timestamp landmarks st step Hstep Hst. unfold handStep in Hstep.
    destruct (MotionAnalyzer.lost landmarks); [injection Hstep as <-; exact Hst|].
    destruct (representative _); [|discriminate].
    destruct (isMoving st) eqn:Hm;
      repeat match type of Hstep with
      | context [if ?b then _ else _] => destruct b
      end; injection Hstep as <-; cbn; rewrite ?Hm; auto.
  - intros h'. now rewrite sessionStart_hand.
Qed.

Lemma Qltb_lt a b : Qltb a b = true -> a < b.
Proof.
  unfold Qltb. intros H. apply Qnot_le_lt. intros Hle.
  apply Qle_bool_iff in Hle. rewrite Hle in H. discriminate.
Qed.

(** A step that reports a transition, and the readout that goes with it. *)
Lemma handStep_readout cfg timestamp landmarks st step :
  handStep Math_sqrt cfg timestamp landmarks st = Normal step ->
  match transition step with
  | Quiet => True
  | Started =>
      exists s, smoothed step = Some s /\ threshold cfg < s /\ isMoving (after step) = true
  | Stopped _ _ =>
      exists s, smoothed step = Some s /\ s < threshold cfg * 0.5 /\
                isMoving (after step) = false
  end.
Proof.
  unfold handStep.
  destruct (MotionAnalyzer.lost landmarks); [intros [= <-]; exact I|].
  destruct (representative _); [|discriminate].
  destruct (isMoving st);
    repeat match goal with
    | |- context [if ?b then _ else _] => destruct b eqn:?
    end; intros [= <-]; cbn; auto;
    eexists; (split; [reflexivity|]); split; auto using Qltb_lt.
Qed.

(** X9. The events of a frame agree with the readout the frame returns for
    the same hand.  A START comes with a readout that shows the hand moving
    and a smoothed velocity above the threshold; a STOP with one that shows
    it idle and a smoothed velocity below half the threshold.  No event is
    returned for a hand without a readout. *)
Theorem event_matches_readout f this r this' h e :
  frameOutcome Math_sqrt f this = (Normal r, this') ->
  In e (eventsOf h (MotionAnalyzer.events r)) ->
  exists m,
    metricsOf h r = Some m /\
    match MotionEvent.type e with
    | START =>
        HandData.isMoving m = true /\
        threshold (MotionAnalyzer.config this) < HandData.velocity m
    | STOP =>
        HandData.isMoving m = false /\
        HandData.velocity m < threshold (MotionAnalyzer.config this) * 0.5
    end.
Proof.
  intros Hf He.
  destruct (processFrame_view Math_sqrt f this r this' h Hf)
    as (step & mid & Hstep & _ & Hev & _ & Hm).
  pose proof (handStep_readout _ _ _ _ _ Hstep) as Hr.
  rewrite Hev in He. rewrite Hm. unfold readout.
  destruct (transition step) as [| |d x].
  - destruct He.
  - destruct Hr as (s & -> & Hs & Hmov). destruct He as [<-|[]]. cbn. eauto.
  - destruct Hr as (s & -> & Hs & Hmov). destruct He as [<-|[]]. cbn. eauto.
Qed.

(** X4. A frame returns at most one event per hand, the left hand's before
    the right hand's. *)
Theorem frame_events_shape f this r this' :
  frameOutcome Math_sqrt f this = (Normal r, this') ->
  MotionAnalyzer.events r =
    eventsOf Left (MotionAnalyzer.events r) ++ eventsOf Right (MotionAnalyzer.events r) /\
  (forall h, List.length (eventsOf h (MotionAnalyzer.events r)) <= 1)%nat.
Proof.
  unfold frameOutcome. rewrite processFrame_handStep.
  destruct (handStep _ _ _ (leftLM f) _) as [sl|]; [|discriminate].
  destruct (handStep _ _ _ (rightLM f) _) as [sr|]; [|discriminate].
  cbn zeta. intros [= <- _]. cbn [MotionAnalyzer.events].
  split.
  - rewrite !eventsOf_app, !eventsOf_own, !eventsOf_other by discriminate.
    now rewrite app_nil_r.
  - intros h. rewrite eventsOf_app.
    destruct h; rewrite eventsOf_own, eventsOf_other by discriminate;
      rewrite ?app_nil_r; cbn [app];
      match goal with |- context [emit ?tr] => destruct tr end; cbn; lia.
Qed.

(** *** Readouts *)

Lemma add_keeps_nonneg v w :
  0 <= v -> Forall (fun q => 0 <= q) (VelocityBuffer.buffer w) ->
  Forall (fun q => 0 <= q) (VelocityBuffer.buffer (VelocityBuffer.add v w)).
Proof.
  intros Hv Hw.
  assert (Hp : Forall (fun q => 0 <= q) (VelocityBuffer.buffer w ++ [v]))
    by (apply Forall_app; split; [exact Hw | repeat constructor; exact Hv]).
  unfold VelocityBuffer.add. destruct (_ <? _)%Z; cbn [VelocityBuffer.buffer]; [|exact Hp].
  destruct (VelocityBuffer.buffer w ++ [v]); [constructor|]. now inversion Hp.
Qed.

Lemma average_nonneg w :
  Forall (fun q => 0 <= q) (VelocityBuffer.buffer w) -> 0 <= VelocityBuffer.average w.
Proof.
  intros H. unfold VelocityBuffer.average.
  destruct (Nat.eqb_spec (List.length (VelocityBuffer.buffer w)) 0);
    [apply Qle_refl|]. cbn zeta.
  assert (Hsum : forall l a, Forall (fun q => 0 <= q) l -> a <= fold_left Qplus l a).
  { induction l as [|q l IH]; intros a Hl; [apply Qle_refl|].
    inversion Hl as [|? ? Hq Hl']; subst. cbn.
    eapply Qle_trans; [|apply IH, Hl'].
    rewrite <- (Qplus_0_r a) at 1. apply Qplus_le_compat; [apply Qle_refl|exact Hq]. }
  apply Qle_shift_div_l.
  - change 0 with (inject_Z 0). rewrite <- Zlt_Qlt. lia.
  - rewrite Qmult_0_l. apply Hsum, H.
Qed.

Lemma handStep_window cfg timestamp landmarks st step :
  handStep Math_sqrt cfg timestamp landmarks st = Normal step ->
  velocityBuffer (after step) =
    VelocityBuffer.add (match raw step with Some v => v | None => 0 end) (velocityBuffer st) /\
  (forall s, smoothed step = Some s ->
             s = VelocityBuffer.average (velocityBuffer (after step))) /\
  (forall v, raw step = Some v ->
     exists pos,
       representative (match landmarks with Some l => l | None => [] end) = Some pos /\
       v = MotionAnalyzer.instantaneousVelocity Math_sqrt st pos /\
       lastPosition (after step) = Some pos).
Proof.
  unfold handStep.
  destruct (MotionAnalyzer.lost landmarks);
    [intros [= <-]; cbn; repeat split; discriminate|].
  destruct (representative _) as [pos|]; [|discriminate].
  destruct (isMoving st);
    repeat match goal with
    | |- context [if ?b then _ else _] => destruct b
    end; intros [= <-]; cbn; (split; [reflexivity|]); split;
    try (intros ? [= <-]; reflexivity);
    intros ? [= <-]; eexists; repeat split.
Qed.

Lemma instantaneousVelocity_nonneg st pos :
  (forall q, 0 <= Math_sqrt q) ->
  0 <= MotionAnalyzer.instantaneousVelocity Math_sqrt st pos.
Proof.
  intros Hs. unfold MotionAnalyzer.instantaneousVelocity.
  destruct (lastPosition st); [|apply Qle_refl]. cbn zeta.
  apply Qmult_le_0_compat; [apply Hs | discriminate].
Qed.

(** X3. With a square root that is never negative, the smoothed velocity
    of every readout a session returns is non-negative. *)
Theorem readout_velocity_nonneg origin frames j re h m :
  (forall q, 0 <= Math_sqrt q) ->
  nth_error (results (run frames (sessionStart origin))) j = Some re ->
  metricsOf h re = Some m ->
  0 <= HandData.velocity m.
Proof.
  intros Hsqrt Hj Hm.
  destruct (result_at Math_sqrt frames _ j re Hj) as (pre & f & post & this' & _ & _ & _ & Hf).
  destruct (processFrame_view Math_sqrt f _ re this' h Hf)
    as (step & mid & Hstep & _ & _ & _ & Hread).
  assert (Hkeep : forall cfg timestamp landmarks st step0,
            handStep Math_sqrt cfg timestamp landmarks st = Normal step0 ->
            Forall (fun q => 0 <= q) (VelocityBuffer.buffer (velocityBuffer st)) ->
            Forall (fun q => 0 <= q) (VelocityBuffer.buffer (velocityBuffer (after step0)))).
  { intros cfg timestamp landmarks st step0 Hs Hst.
    destruct (handStep_window _ _ _ _ _ Hs) as (-> & _ & Hraw).
    apply add_keeps_nonneg; [|exact Hst].
    destruct (raw step0) as [v|]; [|apply Qle_refl].
    destruct (Hraw v eq_refl) as (pos & _ & -> & _).
    apply instantaneousVelocity_nonneg, Hsqrt. }
  pose proof (run_keeps Math_sqrt
                (fun _ st => Forall (fun q => 0 <= q)
                               (VelocityBuffer.buffer (velocityBuffer st)))
                Hkeep pre (sessionStart origin)) as Hpre.
  cbn beta in Hpre.
  assert (Hst : Forall (fun q => 0 <= q)
                  (VelocityBuffer.buffer
                     (velocityBuffer (handOf h (final (run pre (sessionStart origin)))))))
    by (apply Hpre; intros h'; rewrite sessionStart_hand; constructor).
  pose proof (Hkeep _ _ _ _ _ Hstep Hst) as Hafter.
  rewrite Hread in Hm. unfold readout in Hm.
  destruct (smoothed step) as [s|] eqn:Hs; [|discriminate].
  injection Hm as <-. cbn.
  destruct (handStep_window _ _ _ _ _ Hstep) as (_ & Hsm & _).
  rewrite (Hsm s Hs). apply average_nonneg, Hafter.
Qed.

(** *** Event ids and the two counters *)

Lemma decimal_inj a b : decimal a = decimal b -> a = b.
Proof.
  unfold decimal. intros H. apply DecimalZ.to_int_inj.
  assert (Hnn : forall n, Z.to_int n <> Decimal.Pos Decimal.Nil /\
                          Z.to_int n <> Decimal.Neg Decimal.Nil).
  { intros [|p|p]; cbn; split; try discriminate;
      intros [= E]; exact (DecimalPos.Unsigned.to_uint_nonnil p E). }
  apply (f_equal NilZero.int_of_string) in H.
  rewrite !NilZero.isi in H by apply Hnn. now injection H.
Qed.

Lemma eventId_inj a b : eventId a = eventId b -> a = b.
Proof. unfold eventId. cbn. intros [= H]. now apply decimal_inj. Qed.

Lemma countFrom_seq c n :
  countFrom c n = map (fun i => (c + 1 + Z.of_nat i)%Z) (seq 0 n).
Proof.
  revert c. induction n as [|n IH]; intros c; [reflexivity|].
  cbn [countFrom seq map]. rewrite IH, <- seq_shift, map_map. f_equal; [lia|].
  apply map_ext. intros i. lia.
Qed.

Lemma frame_ids f this r this' :
  frameOutcome Math_sqrt f this = (Normal r, this') ->
  let n := List.length (MotionAnalyzer.events r) in
  map MotionEvent.id (MotionAnalyzer.events r) =
    map eventId (countFrom (MotionAnalyzer.eventCounter this - 1) n) /\
  MotionAnalyzer.eventCounter this' = (MotionAnalyzer.eventCounter this + Z.of_nat n)%Z.
Proof.
  unfold frameOutcome. rewrite processFrame_handStep.
  destruct (handStep _ _ _ (leftLM f) _) as [sl|]; [|discriminate].
  destruct (handStep _ _ _ (rightLM f) _) as [sr|]; [|discriminate].
  cbn zeta. intros [= <- <-]. unfold afterLeft, eventId.
  destruct (transition sl), (transition sr);
    cbn -[String.append decimal];
    (split; [repeat (f_equal; try lia) | lia]).
Qed.

Lemma run_ids frames : forall this,
  let log := eventLog (run frames this) in
  map MotionEvent.id log =
    map eventId (countFrom (MotionAnalyzer.eventCounter this - 1) (List.length log)).
Proof.
  induction frames as [|f rest IH]; intros this; [reflexivity|].
  cbn zeta. rewrite eventLog_cons.
  destruct (MotionAnalyzer.processFrame _ _ _ _ _) as [[r|x] this'] eqn:Hf;
    [|reflexivity].
  destruct (frame_ids f this r this' Hf) as [Hids Hctr]. cbn zeta in *.
  rewrite map_app, length_app, countFrom_app, map_app, Hids. f_equal.
  rewrite IH, Hctr. do 2 f_equal. lia.
Qed.

Lemma sessionStart_eventCounter origin :
  MotionAnalyzer.eventCounter (sessionStart origin) = 0%Z.
Proof. now destruct origin. Qed.

Lemma session_ids origin frames :
  let log := eventLog (run frames (sessionStart origin)) in
  map MotionEvent.id log = map (fun k => eventId (Z.of_nat k)) (seq 0 (List.length log)) /\
  NoDup (map MotionEvent.id log).
Proof.
  cbn zeta. rewrite run_ids, sessionStart_eventCounter, countFrom_seq, map_map.
  set (n := List.length _). clearbody n.
  assert (Heq : map (fun i => eventId (0 - 1 + 1 + Z.of_nat i)) (seq 0 n) =
                map (fun k => eventId (Z.of_nat k)) (seq 0 n))
    by (apply map_ext; intros i; f_equal; lia).
  rewrite Heq. split; [reflexivity|].
  apply Injective_map_NoDup; [|apply seq_NoDup].
  intros a b H. apply eventId_inj in H. lia.
Qed.

(** X5. In a session in which no call has thrown, the ids of the logged
    events are [evt_0], [evt_1], ... in log order, so no two events of the
    session share an id. *)
Theorem session_ids_sequential origin frames :
  crash (run frames (sessionStart origin)) = None ->
  let log := eventLog (run frames (sessionStart origin)) in
  map MotionEvent.id log = map (fun k => eventId (Z.of_nat k)) (seq 0 (List.length log)) /\
  NoDup (map MotionEvent.id log).
Proof. intros _. exact (session_ids origin frames). Qed.

Lemma run_counters frames : forall this,
  crash (run frames this) = None ->
  let log := eventLog (run frames this) in
  MotionAnalyzer.eventCounter (final (run frames this)) =
    (MotionAnalyzer.eventCounter this + Z.of_nat (List.length log))%Z /\
  MotionAnalyzer.moveOrderCounter (final (run frames this)) =
    (MotionAnalyzer.moveOrderCounter this + Z.of_nat (List.length (filter isStart log)))%Z.
Proof.
  induction frames as [|f rest IH]; intros this Hc; [cbn; split; lia|].
  cbn zeta. rewrite crash_cons in Hc. rewrite eventLog_cons, final_cons.
  destruct (MotionAnalyzer.processFrame _ _ _ _ _) as [[r|x] this'] eqn:Hf;
    [|discriminate].
  destruct (frame_ids f this r this' Hf) as [_ Hctr].
  destruct (frame_ordinals Math_sqrt _ _ _ _ _ _ Hf) as [_ Hmoc].
  destruct (IH this' Hc) as [IH1 IH2]. cbn zeta in *.
  rewrite IH1, IH2, Hctr, Hmoc, filter_app, !length_app. split; lia.
Qed.

(** X6. In a session where no call has thrown, the analyzer's
    [eventCounter] is the number of events logged and its [moveOrderCounter]
    the number of STARTs logged (the "Total Moves" the application shows). *)
Theorem counters_count_the_log origin frames :
  crash (run frames (sessionStart origin)) = None ->
  let log := eventLog (run frames (sessionStart origin)) in
  MotionAnalyzer.eventCounter (final (run frames (sessionStart origin))) =
    Z.of_nat (List.length log) /\
  MotionAnalyzer.moveOrderCounter (final (run frames (sessionStart origin))) =
    Z.of_nat (List.length (filter isStart log)).
Proof.
  intros Hc. cbn zeta.
  destruct (run_counters frames _ Hc) as [H1 H2]. cbn zeta in *.
  now rewrite H1, H2, sessionStart_eventCounter, sessionStart_moveOrderCounter.
Qed.

(** *** Timestamps *)

Lemma emit_timestamp tr h timestamp mid e :
  In e (fst (emit tr h timestamp mid)) ->
  MotionEvent.timestamp e = timestamp - MotionAnalyzer.sessionStartTime mid.
Proof.
  destruct tr; cbn; intros H; [contradiction| |]; destruct H as [<-|[]]; reflexivity.
Qed.

Lemma in_eventsOf e log : In e log -> In e (eventsOf (MotionEvent.hand e) log).
Proof.
  intros H. apply filter_In. split; [exact H|apply Handedness_eqb_refl].
Qed.

Lemma sessionStart_time origin :
  MotionAnalyzer.sessionStartTime (sessionStart origin) = originTime origin.
Proof. now destruct origin. Qed.

(** X7. Every event of a session carries the time of the frame that
    returned it, measured from the session's origin: from 0 after
    construction, from the reset instant after [resetSession]. *)
Theorem timestamps_are_session_relative origin frames j re e :
  nth_error (results (run frames (sessionStart origin))) j = Some re ->
  In e (MotionAnalyzer.events re) ->
  exists f, nth_error frames j = Some f /\
            MotionEvent.timestamp e = time f - originTime origin.
Proof.
  intros Hj He.
  destruct (result_at Math_sqrt frames _ j re Hj)
    as (pre & f & post & this' & -> & <- & _ & Hf).
  exists f. split; [now rewrite nth_error_app2, Nat.sub_diag by lia|].
  destruct (processFrame_view Math_sqrt f _ re this' (MotionEvent.hand e) Hf)
    as (step & mid & _ & _ & Hev & Hsst & _).
  apply in_eventsOf in He. rewrite Hev in He.
  rewrite (emit_timestamp _ _ _ _ _ He), Hsst, run_sessionStartTime, sessionStart_time.
  reflexivity.
Qed.
End Kept.

(** ** Durations *)

Section Durations.
Variable Math_sqrt : Q -> Q.

(** X10. When the times of the frames never go back, no STOP of a session
    has a negative duration. *)
Theorem stop_duration_nonneg origin frames h j re e :
  timesNonDecreasing frames ->
  nth_error (results (handleFrames Math_sqrt frames (sessionStart origin))) j = Some re ->
  In e (eventsOf h (MotionAnalyzer.events re)) -> MotionEvent.type e = STOP ->
  exists d, MotionEvent.duration e = Some d /\ 0 <= d.
Proof.
  intros Hsorted Hj He Hk.
  destruct (stop_duration_in_session Math_sqrt origin frames h j re e Hj He Hk)
    as (e0 & fs & started & mid & fe & Hmotion & Hd & _).
  eexists. split; [exact Hd|].
  destruct Hmotion as (pre & post & rs & Hframes & _).
  assert (Hle : time fs <= time fe).
  { apply (Hsorted (List.length pre) (List.length pre + S (List.length mid))%nat);
      [lia| |]; rewrite Hframes.
    - now rewrite nth_error_app2, Nat.sub_diag by lia.
    - rewrite nth_error_app2 by lia.
      replace (List.length pre + S (List.length mid) - List.length pre)%nat
        with (S (List.length mid)) by lia.
      cbn [nth_error]. now rewrite nth_error_app2, Nat.sub_diag by lia. }
  destruct (Qeq_bool (time fs) 0); lra.
Qed.
End Durations.

(** ** A hand that does not move *)

Section Motionless.
Variable Math_sqrt : Q -> Q.
Variable cfg : TrackerConfig.
Variable h : Handedness.
Variable pos : Point.t.

Hypothesis sqrt_zero : forall q, q == 0 -> Math_sqrt q == 0.
Hypothesis threshold_nonneg : 0 <= threshold cfg.

Lemma add_keeps_zero v w :
  v == 0 -> Forall isZero (VelocityBuffer.buffer w) ->
  Forall isZero (VelocityBuffer.buffer (VelocityBuffer.add v w)).
Proof.
  intros Hv Hw.
  assert (Hp : Forall isZero (VelocityBuffer.buffer w ++ [v]))
    by (apply Forall_app; split; [exact Hw | repeat constructor; exact Hv]).
  unfold VelocityBuffer.add. destruct (_ <? _)%Z; cbn [VelocityBuffer.buffer]; [|exact Hp].
  destruct (VelocityBuffer.buffer w ++ [v]); [constructor|]. now inversion Hp.
Qed.

Lemma motionless_step f st step :
  onlyAt h pos f -> motionless pos st ->
  handStep Math_sqrt cfg (time f) (landmarksOf h f) st = Normal step ->
  transition step = Quiet /\ motionless pos (after step).
Proof.
  intros Hat (Hm & Hz & Hpos) Hstep.
  assert (Hq00 : (0 # 1) == 0) by reflexivity.
  unfold handStep in Hstep.
  destruct (MotionAnalyzer.lost (landmarksOf h f)) eqn:Hlost.
  - injection Hstep as <-. cbn. split; [reflexivity|].
    split; [exact Hm|]. split; [|exact Hpos]. now apply add_keeps_zero.
  - destruct (landmarksOf h f) as [lms|] eqn:Hlm; [|discriminate].
    destruct (representative lms) as [p|] eqn:Hrep; [|discriminate].
    pose proof (Hat lms p Hlm Hrep) as ->.
    assert (Hv : MotionAnalyzer.instantaneousVelocity Math_sqrt st pos == 0).
    { destruct Hpos as [Hnone|Hsome].
      - unfold MotionAnalyzer.instantaneousVelocity. now rewrite Hnone.
      - now apply instantaneousVelocity_still. }
    pose proof (add_keeps_zero _ (velocityBuffer st) Hv Hz) as Hz'.
    rewrite Hm in Hstep.
    assert (Hnot : Qltb (threshold cfg)
                     (VelocityBuffer.average
                        (VelocityBuffer.add
                           (MotionAnalyzer.instantaneousVelocity Math_sqrt st pos)
                           (velocityBuffer st))) = false).
    { unfold Qltb. apply negb_false_iff, Qle_bool_iff.
      rewrite (average_zeros _ Hz'). exact threshold_nonneg. }
    rewrite Hnot in Hstep. injection Hstep as <-. cbn.
    split; [reflexivity|]. split; [exact Hm|]. split; [exact Hz'|now right].
Qed.

Lemma motionless_run frames : forall this,
  MotionAnalyzer.config this = cfg ->
  Forall (onlyAt h pos) frames ->
  motionless pos (handOf h this) ->
  eventsOf h (eventLog (handleFrames Math_sqrt frames this)) = [].
Proof.
  induction frames as [|f rest IH]; intros this Hcfg Hall Hst; [reflexivity|].
  rewrite eventLog_cons.
  pose proof (processFrame_config Math_sqrt (time f) (leftLM f) (rightLM f) this) as Hcfg'.
  destruct (MotionAnalyzer.processFrame _ _ _ _ _) as [[r|x] this'] eqn:Hf;
    [|reflexivity].
  destruct (processFrame_hand _ _ _ _ _ h Hf) as (step & mid & Hstep & Hafter & Hev & _).
  rewrite Hcfg in Hstep.
  destruct (motionless_step f _ step (Forall_inv Hall) Hst Hstep) as [Htr Hst'].
  rewrite eventsOf_app, Hev, Htr. cbn [emit fst app].
  apply IH; [cbn [snd] in Hcfg'; congruence | exact (Forall_inv_tail Hall) |].
  now rewrite Hafter.
Qed.
End Motionless.

(** X11. With a threshold that is not negative (and a square root that
    maps 0 to 0), a hand that is only ever seen at one place, however often
    it is lost in between, never gets an event in a session. *)
Theorem motionless_hand_has_no_event (Math_sqrt : Q -> Q) origin frames h pos :
  (forall q, q == 0 -> Math_sqrt q == 0) ->
  0 <= threshold (MotionAnalyzer.config (sessionStart origin)) ->
  Forall (onlyAt h pos) frames ->
  eventsOf h (eventLog (handleFrames Math_sqrt frames (sessionStart origin))) = [].
Proof.
  intros Hsqrt Hthr Hall.
  apply (motionless_run Math_sqrt _ h pos Hsqrt Hthr frames); auto.
  rewrite sessionStart_hand. cbn. repeat split; auto.
Qed.

(** ** The two hands *)

Section TwoHands.
Variable Math_sqrt : Q -> Q.

Local Abbreviation run := (handleFrames Math_sqrt).

Lemma emit_payload tr h timestamp mid mid' :
  MotionAnalyzer.sessionStartTime mid = MotionAnalyzer.sessionStartTime mid' ->
  map payload (fst (emit tr h timestamp mid)) =
  map payload (fst (emit tr h timestamp mid')).
Proof. intros H. destruct tr; cbn; unfold payload; cbn; now rewrite ?H. Qed.

(** X12. A hand is tracked on its own.  Two runs that give hand [h] the
    same landmarks at the same times, from analyzers that agree on the
    configuration, the session start and the state of [h], and in which no
    call throws, leave [h] in the same state, return the same readouts for
    it and log the same events for it up to ids and ordinals, whatever the
    other hand does in either run. *)
Theorem hands_do_not_interfere h frames1 frames2 : forall this1 this2,
  Forall2 (sameFor h) frames1 frames2 ->
  MotionAnalyzer.config this1 = MotionAnalyzer.config this2 ->
  MotionAnalyzer.sessionStartTime this1 = MotionAnalyzer.sessionStartTime this2 ->
  handOf h this1 = handOf h this2 ->
  crash (run frames1 this1) = None ->
  crash (run frames2 this2) = None ->
  handOf h (final (run frames1 this1)) = handOf h (final (run frames2 this2)) /\
  map (metricsOf h) (results (run frames1 this1)) =
    map (metricsOf h) (results (run frames2 this2)) /\
  map payload (eventsOf h (eventLog (run frames1 this1))) =
    map payload (eventsOf h (eventLog (run frames2 this2))).
Proof.
  intros this1 this2 Hsame. revert this1 this2.
  induction Hsame as [|f g rest1 rest2 [Ht Hlm] _ IH];
    intros this1 this2 Hcfg Hsst Hh Hc1 Hc2; [cbn; auto|].
  rewrite crash_cons in Hc1, Hc2.
  rewrite !eventLog_cons, !final_cons, !results_cons.
  pose proof (processFrame_config Math_sqrt (time f) (leftLM f) (rightLM f) this1) as Hcfg1.
  pose proof (processFrame_config Math_sqrt (time g) (leftLM g) (rightLM g) this2) as Hcfg2.
  pose proof (processFrame_sessionStartTime Math_sqrt (time f) (leftLM f) (rightLM f) this1)
    as Hsst1.
  pose proof (processFrame_sessionStartTime Math_sqrt (time g) (leftLM g) (rightLM g) this2)
    as Hsst2.
  destruct (MotionAnalyzer.processFrame _ (time f) _ _ _) as [[r1|x] a1] eqn:Hf;
    [|discriminate].
  destruct (MotionAnalyzer.processFrame _ (time g) _ _ _) as [[r2|x] a2] eqn:Hg;
    [|discriminate].
  cbn [snd] in *.
  destruct (processFrame_view Math_sqrt f this1 r1 a1 h Hf)
    as (s1 & m1 & Hs1 & Ha1 & He1 & Hm1 & Hr1).
  destruct (processFrame_view Math_sqrt g this2 r2 a2 h Hg)
    as (s2 & m2 & Hs2 & Ha2 & He2 & Hm2 & Hr2).
  rewrite Hcfg, Ht, Hlm, Hh, Hs2 in Hs1. injection Hs1 as <-.
  destruct (IH a1 a2) as (IHst & IHm & IHe); try congruence.
  split; [exact IHst|]. split.
  - cbn [map]. rewrite Hr1, Hr2, Hlm, IHm. reflexivity.
  - rewrite !eventsOf_app, !map_app, He1, He2, IHe, Ht.
    f_equal. apply emit_payload. congruence.
Qed.
End TwoHands.

(** ** The start debounce *)

Section StartDebounce.
Variable Math_sqrt : Q -> Q.

Local Abbreviation run := (handleFrames Math_sqrt).

(** The start counter grows by at most one per frame, and only on a frame
    whose readout is above the threshold; a START takes the counter to the
    debounce length on such a frame. *)
Lemma handStep_above cfg timestamp landmarks st step :
  handStep Math_sqrt cfg timestamp landmarks st = Normal step ->
  (0 <= framesAboveThreshold st)%Z ->
  let above :=
    match smoothed step with
    | Some s => Qltb (threshold cfg) s
    | None => false
    end in
  (0 <= framesAboveThreshold (after step))%Z /\
  (framesAboveThreshold (after step) <=
     framesAboveThreshold st + (if above then 1 else 0))%Z /\
  (transition step = Started ->
   above = true /\ (minDurationFrames cfg <= framesAboveThreshold st + 1)%Z).
Proof.
  unfold handStep. intros Hstep Hpos.
  destruct (MotionAnalyzer.lost landmarks);
    [injection Hstep as <-; cbn; repeat split; try lia; discriminate|].
  destruct (representative _); [|discriminate].
  destruct (isMoving st).
  - repeat match type of Hstep with
    | context [if ?b then _ else _] => destruct b eqn:?
    end; injection Hstep as <-; cbn;
      (split; [lia|]); (split; [destruct (Qltb (threshold cfg) _); lia | discriminate]).
  - destruct (Qltb (threshold cfg) _) eqn:Habove.
    + destruct (Z.leb_spec (minDurationFrames cfg) (framesAboveThreshold st + 1));
        injection Hstep as <-; cbn; rewrite Habove;
        (split; [lia|]); (split; [lia|]); auto; discriminate.
    + injection Hstep as <-; cbn; rewrite Habove.
      split; [lia|]. split; [lia|discriminate].
Qed.

Lemma aboveCount_cons h level r rs :
  aboveCount h level (r :: rs) =
  ((if match metricsOf h r with
       | Some m => Qltb level (HandData.velocity m)
       | None => false
       end then 1 else 0) + aboveCount h level rs)%nat.
Proof.
  unfold aboveCount. cbn [filter].
  destruct (metricsOf h r) as [m|]; [destruct (Qltb level (HandData.velocity m))|];
    reflexivity.
Qed.

Lemma start_needs_frames h frames : forall this j re e,
  (0 <= framesAboveThreshold (handOf h this))%Z ->
  nth_error (results (run frames this)) j = Some re ->
  In e (eventsOf h (MotionAnalyzer.events re)) -> MotionEvent.type e = START ->
  (minDurationFrames (MotionAnalyzer.config this) <=
     framesAboveThreshold (handOf h this) +
     Z.of_nat (aboveCount h (threshold (MotionAnalyzer.config this))
                 (firstn (S j) (results (run frames this)))))%Z.
Proof.
  induction frames as [|f rest IH]; intros this j re e Hpos Hj He Hk;
    [destruct j; discriminate|].
  rewrite results_cons in *.
  pose proof (processFrame_config Math_sqrt (time f) (leftLM f) (rightLM f) this) as Hcfg.
  destruct (MotionAnalyzer.processFrame _ _ _ _ _) as [[r|x] this'] eqn:Hf;
    [|destruct j; discriminate].
  cbn [snd] in Hcfg.
  destruct (processFrame_view Math_sqrt f this r this' h Hf)
    as (step & mid & Hstep & Hafter & Hev & _ & Hread).
  destruct (handStep_above _ _ _ _ _ Hstep Hpos) as (Hpos' & Hgrow & Hstart).
  cbn zeta in *.
  assert (Hsame : match metricsOf h r with
                  | Some m => Qltb (threshold (MotionAnalyzer.config this)) (HandData.velocity m)
                  | None => false
                  end =
                  match smoothed step with
                  | Some s => Qltb (threshold (MotionAnalyzer.config this)) s
                  | None => false
                  end)
    by (rewrite Hread; unfold readout; now destruct (smoothed step)).
  change (firstn (S j) (r :: ?l)) with (r :: firstn j l).
  rewrite aboveCount_cons, Hsame.
  destruct j as [|j].
  - injection Hj as ->. rewrite Hev in He.
    destruct (emit_start _ _ _ _ _ He Hk) as [Htr _].
    destruct (Hstart Htr) as [-> Hd]. lia.
  - cbn [nth_error] in Hj. rewrite <- Hafter in Hpos', Hgrow.
    pose proof (IH this' j re e Hpos' Hj He Hk) as IHj. rewrite Hcfg in IHj.
    destruct (match smoothed step with Some _ => _ | None => _ end); lia.
Qed.

(** X16. In a session in which no call has thrown, a frame returns a
    START for a hand only when at least [minDurationFrames] frames so far,
    that frame included, have returned a readout for the hand with a
    smoothed velocity above the threshold. *)
Theorem start_needs_frames_above origin frames h j re e :
  crash (run frames (sessionStart origin)) = None ->
  nth_error (results (run frames (sessionStart origin))) j = Some re ->
  In e (eventsOf h (MotionAnalyzer.events re)) -> MotionEvent.type e = START ->
  (minDurationFrames (MotionAnalyzer.config (sessionStart origin)) <=
     Z.of_nat (aboveCount h (threshold (MotionAnalyzer.config (sessionStart origin)))
                 (firstn (S j) (results (run frames (sessionStart origin))))))%Z.
Proof.
  intros _ Hj He Hk.
  pose proof (start_needs_frames h frames (sessionStart origin) j re e) as H.
  rewrite sessionStart_hand in H. cbn [MotionAnalyzer.createHandState framesAboveThreshold] in H.
  specialize (H ltac:(lia) Hj He Hk). lia.
Qed.
End StartDebounce.

(** ** The application: labelling the detected hands *)

Section Labelling.

Lemma labelEach_left hs : forall index lmss l0 r0 l r,
  App.labelEach hs index lmss l0 r0 = Normal (l, r) ->
  (forall i more, nth_error hs i = Some ("Left"%string :: more) ->
     (forall j more', (i < j)%nat -> nth_error hs j <> Some ("Left"%string :: more')) ->
     l = nth_error lmss (index + i)) /\
  ((forall i more, nth_error hs i <> Some ("Left"%string :: more)) -> l = l0).
Proof.
  induction hs as [|h rest IH]; intros index lmss l0 r0 l r H.
  - injection H as <- <-. split; [intros [|i]; discriminate|reflexivity].
  - cbn [App.labelEach] in H. destruct h as [|label cats]; [discriminate|].
    cbn zeta in H. destruct (IH _ _ _ _ _ _ H) as [Hlast Hnone]. split.
    + intros [|i] more Hi Hlater.
      * injection Hi as -> ->. rewrite String.eqb_refl in Hnone.
        rewrite Nat.add_0_r. apply Hnone.
        intros j more'. apply (Hlater (S j) more'). lia.
      * rewrite <- Nat.add_succ_comm. apply (Hlast i more Hi).
        intros j more' Hj. apply (Hlater (S j) more'). lia.
    + intros Hno. rewrite Hnone by (intros i more; apply (Hno (S i) more)).
      destruct (String.eqb_spec label "Left") as [->|]; [|reflexivity].
      now elim (Hno 0%nat cats).
Qed.

Lemma labelEach_right hs : forall index lmss l0 r0 l r,
  App.labelEach hs index lmss l0 r0 = Normal (l, r) ->
  (forall i more, nth_error hs i = Some ("Right"%string :: more) ->
     (forall j more', (i < j)%nat -> nth_error hs j <> Some ("Right"%string :: more')) ->
     r = nth_error lmss (index + i)) /\
  ((forall i more, nth_error hs i <> Some ("Right"%string :: more)) -> r = r0).
Proof.
  induction hs as [|h rest IH]; intros index lmss l0 r0 l r H.
  - injection H as <- <-. split; [intros [|i]; discriminate|reflexivity].
  - cbn [App.labelEach] in H. destruct h as [|label cats]; [discriminate|].
    cbn zeta in H. destruct (IH _ _ _ _ _ _ H) as [Hlast Hnone]. split.
    + intros [|i] more Hi Hlater.
      * injection Hi as -> ->. rewrite String.eqb_refl in Hnone.
        rewrite Nat.add_0_r. apply Hnone.
        intros j more'. apply (Hlater (S j) more'). lia.
      * rewrite <- Nat.add_succ_comm. apply (Hlast i more Hi).
        intros j more' Hj. apply (Hlater (S j) more'). lia.
    + intros Hno. rewrite Hnone by (intros i more; apply (Hno (S i) more)).
      destruct (String.eqb_spec label "Right") as [->|]; [|reflexivity].
      now elim (Hno 0%nat cats).
Qed.

(** X13. When the labelling of a detector result returns, each hand gets
    the landmarks of the last detected hand whose first category bears its
    name ([undefined], taken for lost, if the result has no landmarks at that
    index), and [null] when no detected hand bears its name: of two detected
    hands with the same label the later one wins and the other hand of the
    analyzer is lost. *)
Theorem labelHands_last_wins res l r :
  App.labelHands (Some res) = Normal (l, r) ->
  (forall i, labelled "Left" res i ->
     (forall j, (i < j)%nat -> ~ labelled "Left" res j) ->
     l = nth_error (HandLandmarkerResult.landmarks res) i) /\
  ((forall i, ~ labelled "Left" res i) -> l = None) /\
  (forall i, labelled "Right" res i ->
     (forall j, (i < j)%nat -> ~ labelled "Right" res j) ->
     r = nth_error (HandLandmarkerResult.landmarks res) i) /\
  ((forall i, ~ labelled "Right" res i) -> r = None).
Proof.
  unfold App.labelHands, labelled. intros H.
  destruct (HandLandmarkerResult.handedness res) as [|h rest] eqn:Hh.
  - cbn in H. injection H as <- <-.
    repeat split; try reflexivity; intros [|i] [more Hi]; discriminate.
  - cbn [List.length Nat.ltb Nat.leb] in H.
    destruct (labelEach_left _ _ _ _ _ _ _ H) as [HL1 HL2].
    destruct (labelEach_right _ _ _ _ _ _ _ H) as [HR1 HR2].
    repeat split.
    + intros i [more Hi] Hlater. apply (HL1 i more Hi).
      intros j more' Hj Hc. apply (Hlater j Hj). now exists more'.
    + intros Hno. apply HL2. intros i more Hc. apply (Hno i). now exists more.
    + intros i [more Hi] Hlater. apply (HR1 i more Hi).
      intros j more' Hj Hc. apply (Hlater j Hj). now exists more'.
    + intros Hno. apply HR2. intros i more Hc. apply (Hno i). now exists more.
Qed.

Lemma labelEach_sound hs : forall index lmss l0 r0,
  Forall (fun h => h <> []) hs ->
  Forall (fun lms => lms = [] \/ (10 <= List.length lms)%nat) lmss ->
  malformed l0 = false -> malformed r0 = false ->
  exists l r,
    App.labelEach hs index lmss l0 r0 = Normal (l, r) /\
    malformed l = false /\ malformed r = false.
Proof.
  induction hs as [|h rest IH]; intros index lmss l0 r0 Hhs Hlms Hl Hr.
  - exists l0, r0. repeat split; assumption.
  - pose proof (Forall_inv Hhs) as Hh. cbn beta in Hh.
    destruct h as [|label cats]; [now elim Hh|].
    cbn [App.labelEach]. cbn zeta.
    assert (Hnth : malformed (nth_error lmss index) = false).
    { destruct (nth_error lmss index) as [lms|] eqn:E; [|reflexivity].
      apply nth_error_In in E.
      destruct (proj1 (Forall_forall _ _) Hlms lms E) as [->|Hlen]; [reflexivity|].
      unfold malformed. apply andb_false_iff. right. apply Nat.ltb_ge. exact Hlen. }
    apply IH; [exact (Forall_inv_tail Hhs) | exact Hlms | |];
      match goal with |- context [if ?b then _ else _] => destruct b end; assumption.
Qed.

(** X14. On what a detector returns that gives every hand at least one
    category and either no landmarks or at least ten, and when it returns
    nothing, [handleFrame] does not throw, whatever state the analyzer is
    in. *)
Theorem handleFrame_returns (Math_sqrt : Q -> Q) result now later app :
  match result with Some res => wellFormed res | None => True end ->
  fst (App.handleFrame Math_sqrt result now later app) = None.
Proof.
  intros Hwf. unfold App.handleFrame.
  assert (Hlab : exists l r, App.labelHands result = Normal (l, r) /\
                             malformed l = false /\ malformed r = false).
  { destruct result as [res|]; [|exists None, None; repeat split].
    destruct Hwf as [Hh Hl]. unfold App.labelHands.
    destruct (Nat.ltb 0 _); [|exists None, None; repeat split].
    now apply labelEach_sound. }
  destruct Hlab as (l & r & -> & Hl & Hr).
  pose proof (processFrame_throws Math_sqrt now l r (App.analyzer app)) as Hthrow.
  rewrite Hl, Hr in Hthrow.
  destruct (MotionAnalyzer.processFrame _ _ _ _ _) as [[analysis|e] this];
    [reflexivity|discriminate].
Qed.
End Labelling.

(** ** The application: the chart data and the log *)

Section Display.
Variable Math_sqrt : Q -> Q.

Lemma sliceLast_push {A : Type} n (l : list A) x :
  sliceLast n (sliceLast n l ++ [x]) = sliceLast n (l ++ [x]).
Proof.
  destruct (Nat.le_gt_cases n (List.length l)) as [Hfull|Hroom].
  - rewrite <- (sliceLast_snoc_shift n l x Hfull).
    unfold sliceLast at 1. rewrite length_app, sliceLast_length. cbn [List.length].
    replace (Nat.min n (List.length l) + 1 - n)%nat with 1%nat by lia.
    destruct (sliceLast n l ++ [x]); reflexivity.
  - assert (Hall : sliceLast n l = l)
      by (unfold sliceLast; now replace (List.length l - n)%nat with 0%nat by lia).
    now rewrite Hall.
Qed.

Lemma sliceLast_sliceLast {A : Type} a b (l : list A) :
  (a <= b)%nat -> sliceLast a (sliceLast b l) = sliceLast a l.
Proof.
  intros Hab. unfold sliceLast. rewrite length_skipn, skipn_skipn. f_equal. lia.
Qed.

(** X15. The chart data the application keeps is the last 300 samples
    pushed since it was emptied, and the chart shows the last 200 of all of
    them. *)
Theorem timeline_keeps_latest samples :
  fold_left (fun data s => App.pushSample s data) samples [] = sliceLast 300 samples /\
  Timeline.displayData (fold_left (fun data s => App.pushSample s data) samples []) =
    sliceLast 200 samples.
Proof.
  assert (H : forall more fed,
             fold_left (fun data s => App.pushSample s data) more (sliceLast 300 fed) =
             sliceLast 300 (fed ++ more)).
  { induction more as [|x more IH]; intros fed; [now rewrite app_nil_r|].
    cbn [fold_left]. unfold App.pushSample at 2.
    rewrite sliceLast_push, IH, <- app_assoc. reflexivity. }
  pose proof (H samples []) as H0. cbn [app] in H0.
  change (sliceLast 300 (@nil Timeline.Sample)) with (@nil Timeline.Sample) in H0.
  rewrite H0. split; [reflexivity|].
  unfold Timeline.displayData. apply sliceLast_sliceLast. lia.
Qed.

Lemma runTicks_log ticks : forall app,
  App.events (runTicks Math_sqrt ticks app) =
    App.events app ++ eventLog (handleFrames Math_sqrt (framesOf ticks) (App.analyzer app)) /\
  App.analyzer (runTicks Math_sqrt ticks app) =
    final (handleFrames Math_sqrt (framesOf ticks) (App.analyzer app)).
Proof.
  induction ticks as [|tick rest IH]; intros app.
  - cbn. now rewrite app_nil_r.
  - cbn [runTicks framesOf]. unfold App.handleFrame.
    destruct (App.labelHands (detected tick)) as [[l r]|e].
    + rewrite eventLog_cons, final_cons. cbn [time leftLM rightLM].
      destruct (MotionAnalyzer.processFrame _ _ _ _ _) as [[analysis|e] this].
      * destruct (IH (App.mk this (App.isTracking app)
                        (MotionAnalyzer.leftMetrics analysis)
                        (MotionAnalyzer.rightMetrics analysis)
                        (if Nat.ltb 0 (List.length (MotionAnalyzer.events analysis))
                         then App.events app ++ MotionAnalyzer.events analysis
                         else App.events app)
                        (App.pushSample
                           (Timeline.mkSample (clockAfter tick)
                              (App.velocityOrZero (MotionAnalyzer.leftMetrics analysis))
                              (App.velocityOrZero (MotionAnalyzer.rightMetrics analysis)))
                           (App.timelineData app)))) as [IHe IHa].
        rewrite IHe, IHa. cbn [App.events App.analyzer]. split; [|reflexivity].
        destruct (MotionAnalyzer.events analysis); cbn [List.length Nat.ltb Nat.leb];
          now rewrite <- ?app_assoc, ?app_nil_r.
      * cbn. now rewrite app_nil_r.
    + cbn. now rewrite app_nil_r.
Qed.

(** X17. Over any list of ticks, from any state of the application, the
    events the application holds are those it held before followed by the
    log of the analyzer's run over the frames the ticks gave it, and its
    analyzer is the one that run leaves; the last tick run is the first one
    that throws, if one does. *)
Theorem app_log_is_analyzer_log ticks : forall app,
  App.events (runTicks Math_sqrt ticks app) =
    App.events app ++ eventLog (handleFrames Math_sqrt (framesOf ticks) (App.analyzer app)) /\
  App.analyzer (runTicks Math_sqrt ticks app) =
    final (handleFrames Math_sqrt (framesOf ticks) (App.analyzer app)).
Proof. exact (runTicks_log ticks). Qed.

(** X18. After RESET, and after RESUME TRACKING, whatever ticks follow, the
    events the application holds are the log of one session of the
    analyzer, so their ids, the keys of the rows of the event log, are all
    different. *)
Theorem app_event_keys_differ now app ticks :
  (let app' := runTicks Math_sqrt ticks (App.handleReset now app) in
   App.events app' =
     eventLog (handleFrames Math_sqrt (framesOf ticks)
                 (sessionStart (Restarted now (App.analyzer app)))) /\
   NoDup (map MotionEvent.id (App.events app'))) /\
  (App.isTracking app = false ->
   let app' := runTicks Math_sqrt ticks (App.toggleTracking now app) in
   App.events app' =
     eventLog (handleFrames Math_sqrt (framesOf ticks)
                 (sessionStart (Restarted now (App.analyzer app)))) /\
   NoDup (map MotionEvent.id (App.events app'))).
Proof.
  split; [|intros Hoff]; cbn zeta.
  - destruct (runTicks_log ticks (App.handleReset now app)) as [He _].
    cbn [App.handleReset App.events App.analyzer List.app] in He.
    rewrite He. split; [reflexivity|].
    apply (session_ids Math_sqrt (Restarted now (App.analyzer app))).
  - assert (Ht : App.toggleTracking now app =
                 App.mk (MotionAnalyzer.resetSession now (App.analyzer app)) true
                   (App.leftHand app) (App.rightHand app) [] [])
      by (unfold App.toggleTracking; now rewrite Hoff).
    rewrite Ht.
    destruct (runTicks_log ticks
                (App.mk (MotionAnalyzer.resetSession now (App.analyzer app)) true
                   (App.leftHand app) (App.rightHand app) [] [])) as [He _].
    cbn [App.events App.analyzer List.app] in He.
    rewrite He. split; [reflexivity|].
    apply (session_ids Math_sqrt (Restarted now (App.analyzer app))).
Qed.
End Display.

(** ** Calls after a throw *)

Section Calls.
Variable Math_sqrt : Q -> Q.

Lemma callEach_cons f rest this :
  callEach Math_sqrt (f :: rest) this =
  (fst (frameOutcome Math_sqrt f this) ::
     fst (callEach Math_sqrt rest (snd (frameOutcome Math_sqrt f this))),
   snd (callEach Math_sqrt rest (snd (frameOutcome Math_sqrt f this)))).
Proof.
  cbn [callEach]. unfold frameOutcome.
  destruct (MotionAnalyzer.processFrame _ _ _ _ _) as [c this'].
  cbn [fst snd]. destruct (callEach Math_sqrt rest this'); reflexivity.
Qed.

(** While no call throws, calling on and stopping at the first throw are
    the same thing. *)
Lemma callEach_without_throw frames : forall this,
  forallb returns (fst (callEach Math_sqrt frames this)) = true ->
  crash (handleFrames Math_sqrt frames this) = None /\
  returnedEvents (fst (callEach Math_sqrt frames this)) =
    eventLog (handleFrames Math_sqrt frames this) /\
  snd (callEach Math_sqrt frames this) = final (handleFrames Math_sqrt frames this).
Proof.
  induction frames as [|f rest IH]; intros this H; [repeat split|].
  rewrite callEach_cons in *. cbn [fst snd forallb] in *.
  rewrite crash_cons, eventLog_cons, final_cons.
  unfold frameOutcome in *.
  destruct (MotionAnalyzer.processFrame _ _ _ _ _) as [[r|x] this']; cbn [fst snd] in *;
    [|discriminate].
  apply andb_prop in H. destruct H as [_ H].
  destruct (IH this' H) as (Hc & He & Hf).
  split; [exact Hc|]. split; [|exact Hf].
  unfold returnedEvents in *. cbn [flat_map]. now rewrite He.
Qed.

(** In a session none of whose calls throws, the events returned for one
    hand alternate, from a START. *)
Lemma calls_alternate_without_throw origin frames h :
  forallb returns (fst (callEach Math_sqrt frames (sessionStart origin))) = true ->
  alternating
    (kinds (eventsOf h (returnedEvents
                          (fst (callEach Math_sqrt frames (sessionStart origin)))))).
Proof.
  intros H. destruct (callEach_without_throw frames _ H) as (_ & -> & _).
  apply hand_events_alternate.
Qed.

(** In a session none of whose calls throws, the first START returned
    carries the ordinal 1. *)
Lemma first_ordinal_without_throw origin frames a :
  forallb returns (fst (callEach Math_sqrt frames (sessionStart origin))) = true ->
  hd_error (startOrdinals (returnedEvents
                             (fst (callEach Math_sqrt frames (sessionStart origin)))))
    = Some a ->
  a = Some 1%Z.
Proof.
  intros H. destruct (callEach_without_throw frames _ H) as (_ & -> & _).
  apply (proj2 (start_ordinals_increase Math_sqrt origin frames)).
Qed.

(** A call never takes the motion counter back, whether it returns or
    throws. *)
Lemma call_moveOrderCounter f this :
  (MotionAnalyzer.moveOrderCounter this <=
   MotionAnalyzer.moveOrderCounter (snd (frameOutcome Math_sqrt f this)))%Z.
Proof.
  unfold frameOutcome. rewrite processFrame_handStep.
  destruct (handStep _ _ _ (leftLM f) _) as [sl|]; [|cbn; lia].
  destruct (handStep _ _ _ (rightLM f) _) as [sr|]; cbn [snd]; unfold afterLeft;
    destruct (transition sl); try destruct (transition sr); cbn; lia.
Qed.

Lemma increasingFrom_weaken l : forall c c',
  (c' <= c)%Z -> increasingFrom c l -> increasingFrom c' l.
Proof.
  destruct l as [|[n|] l]; intros c c' Hle H; cbn in *; [exact I| |exact H].
  destruct H as [Hlt H]. split; [lia|exact H].
Qed.

Lemma increasingFrom_countFrom n : forall c l,
  increasingFrom (c + Z.of_nat n)%Z l ->
  increasingFrom c (map Some (countFrom c n) ++ l).
Proof.
  induction n as [|n IH]; intros c l H.
  - cbn. now rewrite Z.add_0_r in H.
  - cbn [countFrom map app increasingFrom]. split; [lia|].
    apply IH. now replace (c + 1 + Z.of_nat n)%Z with (c + Z.of_nat (S n))%Z by lia.
Qed.

Lemma increasingFrom_bound l : forall c a,
  increasingFrom c l -> In a l -> exists n, a = Some n /\ (c < n)%Z.
Proof.
  induction l as [|[m|] l IH]; intros c a H Ha; cbn in *; try contradiction.
  destruct H as [Hlt H]. destruct Ha as [<-|Ha]; [eauto|].
  destruct (IH m a H Ha) as (n & -> & Hn). exists n. split; [reflexivity|lia].
Qed.

Lemma increasingFrom_spec l : forall c, increasingFrom c l -> strictlyIncreasing l.
Proof.
  unfold strictlyIncreasing.
  induction l as [|[m|] l IH]; intros c H i j a b Hij Ha Hb; cbn in H;
    [destruct i; discriminate| |contradiction].
  destruct H as [Hlt H]. destruct j as [|j]; [lia|]. cbn [nth_error] in Hb.
  destruct i as [|i].
  - injection Ha as <-. apply nth_error_In in Hb.
    destruct (increasingFrom_bound l m b H Hb) as (n & -> & Hn). eauto.
  - cbn [nth_error] in Ha. apply (IH m H i j a b); [lia|exact Ha|exact Hb].
Qed.

Lemma calls_ordinals frames : forall this,
  increasingFrom (MotionAnalyzer.moveOrderCounter this)
    (startOrdinals (returnedEvents (fst (callEach Math_sqrt frames this)))).
Proof.
  induction frames as [|f rest IH]; intros this; [exact I|].
  rewrite callEach_cons. cbn [fst].
  pose proof (call_moveOrderCounter f this) as Hle.
  pose proof (IH (snd (frameOutcome Math_sqrt f this))) as Hrest.
  unfold returnedEvents in *. cbn [flat_map].
  destruct (frameOutcome Math_sqrt f this) as [[r|x] this'] eqn:Hf; cbn [fst snd] in *.
  - destruct (frame_ordinals Math_sqrt _ _ _ _ _ _ Hf) as [Hres Hctr].
    unfold startOrdinals in *. rewrite filter_app, map_app, Hres.
    apply increasingFrom_countFrom. now rewrite <- Hctr.
  - cbn [app]. exact (increasingFrom_weaken _ _ _ Hle Hrest).
Qed.

(** Whatever is thrown in between, the STARTs a caller receives carry
    ordinals that grow strictly. *)
Lemma returned_ordinals_increase frames this :
  strictlyIncreasing
    (startOrdinals (returnedEvents (fst (callEach Math_sqrt frames this)))).
Proof. exact (increasingFrom_spec _ _ (calls_ordinals frames this)). Qed.
End Calls.

(** C2 fails on the code when a call throws after it has analysed the left
    hand.  Under a one-sample window and no debounce delay, the second call
    of [swallowedStart] starts the left hand (the hand is moving and both
    counters stand at 1 afterwards) and then throws on the one-point list of
    the right hand, so the START is never returned; the third and fourth
    calls return a STOP and then a START for the left hand.  The events
    returned for the left hand begin with a STOP.  With the throw one call
    later ([swallowedStop]) it is the STOP that is lost, and two STARTs are
    neighbours. *)
Theorem swallowed_start_breaks_alternation :
  let fresh := MotionAnalyzer.new quickConfig in
  let calls := fst (callEach Qsqrt swallowedStart fresh) in
  let calls' := fst (callEach Qsqrt swallowedStop fresh) in
  map throws calls = [false; true; false; false] /\
  isMoving (MotionAnalyzer.leftHand
              (snd (callEach Qsqrt (firstn 2 swallowedStart) fresh))) = true /\
  returnedEvents (firstn 2 calls) = [] /\
  kinds (eventsOf Left (returnedEvents calls)) = [STOP; START] /\
  ~ alternating (kinds (eventsOf Left (returnedEvents calls))) /\
  map throws calls' = [false; false; true; false] /\
  kinds (eventsOf Left (returnedEvents calls')) = [START; START] /\
  ~ alternating (kinds (eventsOf Left (returnedEvents calls'))).
Proof.
  cbv zeta.
  assert (H1 : kinds (eventsOf Left
                        (returnedEvents
                           (fst (callEach Qsqrt swallowedStart
                                   (MotionAnalyzer.new quickConfig)))))
               = [STOP; START]) by evaluate.
  assert (H2 : kinds (eventsOf Left
                        (returnedEvents
                           (fst (callEach Qsqrt swallowedStop
                                   (MotionAnalyzer.new quickConfig)))))
               = [START; START]) by evaluate.
  rewrite H1, H2. conjuncts; try evaluate.
  - intros [Hhd _]. discriminate (Hhd STOP eq_refl).
  - intros [_ Hadj]. exact (Hadj 0%nat START START eq_refl eq_refl eq_refl).
Qed.

(** C3 fails on the code on the same calls.  The second call of
    [swallowedStart] takes the motion counter to 1 for the START it then
    loses to the throw; the first START that is returned, by the fourth
    call, carries the ordinal 2 and the id [evt_2]. *)
Theorem swallowed_start_skips_ordinal_1 :
  let fresh := MotionAnalyzer.new quickConfig in
  let calls := fst (callEach Qsqrt swallowedStart fresh) in
  map throws calls = [false; true; false; false] /\
  MotionAnalyzer.moveOrderCounter
    (snd (callEach Qsqrt (firstn 2 swallowedStart) fresh)) = 1%Z /\
  startOrdinals (returnedEvents (firstn 2 calls)) = [] /\
  map MotionEvent.id (returnedEvents calls) = ["evt_1"; "evt_2"]%string /\
  startOrdinals (returnedEvents calls) = [Some 2%Z] /\
  hd_error (startOrdinals (returnedEvents calls)) <> Some (Some 1%Z).
Proof.
  cbv zeta.
  assert (H : startOrdinals
                (returnedEvents
                   (fst (callEach Qsqrt swallowedStart (MotionAnalyzer.new quickConfig))))
              = [Some 2%Z]) by evaluate.
  rewrite H. conjuncts; try evaluate. discriminate.
Qed.

(** ** Absence, then return *)

Section Absence.
Variable Math_sqrt : Q -> Q.

Local Abbreviation run := (handleFrames Math_sqrt).

Lemma readsBelowb_spec h level r : readsBelowb h level r = true -> readsBelow h level r.
Proof.
  unfold readsBelowb, readsBelow. destruct (metricsOf h r) as [m|]; [|discriminate].
  intros H. exists m. split; [reflexivity | now apply Qltb_lt].
Qed.

(** A frame that reads a moving hand below the stop threshold: the hand
    stops, or the stop counter goes up by one and is still short of the
    debounce length. *)
Lemma moving_below_step cfg timestamp landmarks st step s :
  handStep Math_sqrt cfg timestamp landmarks st = Normal step ->
  isMoving st = true ->
  smoothed step = Some s -> s < threshold cfg * 0.5 ->
  (exists duration distance, transition step = Stopped duration distance) \/
  (transition step = Quiet /\ isMoving (after step) = true /\
   framesBelowThreshold (after step) = (framesBelowThreshold st + 1)%Z /\
   (framesBelowThreshold st + 1 < minDurationFrames cfg)%Z).
Proof.
  unfold handStep. intros Hstep Hm Hs Hlt.
  destruct (MotionAnalyzer.lost landmarks); [injection Hstep as <-; discriminate|].
  destruct (representative _) as [pos|]; [|discriminate].
  rewrite Hm in Hstep.
  destruct (Qltb _ (threshold cfg * 0.5)) eqn:Hb.
  - destruct (Z.leb_spec (minDurationFrames cfg) (framesBelowThreshold st + 1));
      injection Hstep as <-; cbn [transition after isMoving framesBelowThreshold
        set_motionStartTime set_isMoving set_framesBelowThreshold set_totalDistance
        set_velocityBuffer set_lastPosition];
      [left; eauto | right; repeat split; auto].
  - injection Hstep as <-. cbn [smoothed] in Hs. injection Hs as <-.
    rewrite (Qltb_true _ _ Hlt) in Hb. discriminate.
Qed.

(** A moving hand read below the stop threshold on every frame of a run
    that returns: the STOP is logged as soon as the stop counter reaches the
    debounce length. *)
Lemma below_readings_stop h frames : forall this,
  isMoving (handOf h this) = true ->
  crash (run frames this) = None ->
  Forall (readsBelow h (threshold (MotionAnalyzer.config this) * 0.5))
         (results (run frames this)) ->
  frames <> [] ->
  (minDurationFrames (MotionAnalyzer.config this) <=
     framesBelowThreshold (handOf h this) + Z.of_nat (List.length frames))%Z ->
  exists e, In e (eventsOf h (eventLog (run frames this))) /\ MotionEvent.type e = STOP.
Proof.
  induction frames as [|f rest IH]; intros this Hm Hc Hall Hne Hlen; [now elim Hne|].
  rewrite crash_cons in Hc. rewrite results_cons in Hall. rewrite eventLog_cons.
  pose proof (processFrame_config Math_sqrt (time f) (leftLM f) (rightLM f) this) as Hcfg.
  destruct (MotionAnalyzer.processFrame _ _ _ _ _) as [[r|x] this'] eqn:Hf;
    [|discriminate].
  cbn [snd] in Hcfg.
  destruct (processFrame_view Math_sqrt f this r this' h Hf)
    as (step & mid & Hstep & Hafter & Hev & _ & Hread).
  destruct (Forall_inv Hall) as (m & Hmet & Hlow).
  pose proof (Forall_inv_tail Hall) as Hall'.
  rewrite Hread in Hmet. unfold readout in Hmet.
  destruct (smoothed step) as [s|] eqn:Hs; [|discriminate].
  injection Hmet as <-. cbn [HandData.velocity] in Hlow.
  destruct (moving_below_step _ _ _ _ _ s Hstep Hm Hs Hlow)
    as [(d & x & Htr)|(Htr & Hm' & Hb & Hlt)].
  - rewrite Htr in Hev. exact (stopped_is_logged h _ _ _ _ _ _ Hev).
  - rewrite <- Hafter in Hm', Hb.
    apply later_stop_is_logged. apply IH.
    + exact Hm'.
    + exact Hc.
    + now rewrite Hcfg.
    + intros ->. cbn in Hlen. lia.
    + rewrite Hcfg, Hb. cbn [List.length] in Hlen. lia.
Qed.

(** Zeros fed to a window: it keeps its capacity, and after [n] of them it
    ends with [n] zeros or holds zeros only. *)
Lemma zeros_fill_window n : forall w,
  (Z.of_nat (List.length (VelocityBuffer.buffer w)) <= VelocityBuffer.size w)%Z ->
  VelocityBuffer.size (Nat.iter n (VelocityBuffer.add 0) w) = VelocityBuffer.size w /\
  (Z.of_nat (List.length (VelocityBuffer.buffer (Nat.iter n (VelocityBuffer.add 0) w)))
     <= VelocityBuffer.size w)%Z /\
  zeroRun n (VelocityBuffer.buffer (Nat.iter n (VelocityBuffer.add 0) w)).
Proof.
  induction n as [|n IH]; intros w Hlen.
  - cbn. split; [reflexivity|]. split; [exact Hlen|apply zeroRun_0].
  - rewrite Nat.iter_succ. destruct (IH w Hlen) as (Hs & Hl & Hz).
    rewrite <- Hs in Hl. destruct (add_bounded 0 _ Hl) as [Hs' Hl'].
    split; [congruence|]. split; [now rewrite <- Hs|].
    apply add_zeroRun; [reflexivity|exact Hz].
Qed.

Lemma stop_counter_nonneg origin frames h :
  (0 <= framesBelowThreshold (handOf h (final (run frames (sessionStart origin)))))%Z.
Proof.
  apply (run_keeps Math_sqrt (fun _ st => (0 <= framesBelowThreshold st)%Z)).
  - intros cfg timestamp landmarks st step Hstep Hst. unfold handStep in Hstep.
    destruct (MotionAnalyzer.lost landmarks); [injection Hstep as <-; exact Hst|].
    destruct (representative _); [|discriminate].
    repeat match type of Hstep with
    | context [if ?b then _ else _] => destruct b
    end; injection Hstep as <-; cbn; lia.
  - intros h'. rewrite sessionStart_hand. cbn. lia.
Qed.

(** C6. A frame on which hand [h] is absent adds a 0.0 sample to the
    hand's window and neither alters its last known position nor fires a
    transition: over a run of such frames, of any length, no event is
    returned for the hand, its state is what it was, and the window has
    received one 0.0 per frame, so that its average is 0 once the frames are
    as many as the window is long.  And for a hand that was moving, the STOP
    follows the absence: it is returned once the smoothed velocity has been
    read below the stop threshold on as many consecutive frames as the
    debounce length, that is, within the first [minDurationFrames] frames
    that see the hand again with such a reading. *)
Theorem absence_then_stop origin pre gone back h :
  let cfg := MotionAnalyzer.config (sessionStart origin) in
  let this := final (run pre (sessionStart origin)) in
  let away := run gone this in
  let seen := run back (final away) in
  isMoving (handOf h this) = true ->
  Forall (fun f => MotionAnalyzer.lost (landmarksOf h f) = true) gone ->
  crash away = None ->
  crash seen = None ->
  Forall (readsBelow h (threshold cfg * 0.5)) (results seen) ->
  (Z.max 1 (minDurationFrames cfg) <= Z.of_nat (List.length back))%Z ->
  eventsOf h (eventLog away) = [] /\
  heldState (handOf h this) (handOf h (final away)) /\
  velocityBuffer (handOf h (final away)) =
    Nat.iter (List.length gone) (VelocityBuffer.add 0) (velocityBuffer (handOf h this)) /\
  ((0 <= smoothingFrames cfg <= Z.of_nat (List.length gone))%Z ->
   VelocityBuffer.average (velocityBuffer (handOf h (final away))) == 0) /\
  exists e, In e (eventsOf h (eventLog seen)) /\ MotionEvent.type e = STOP.
Proof.
  cbn zeta. intros Hm Hgone Hc1 Hc2 Hlow Hlen.
  destruct (lost_frames_keep_state Math_sqrt gone
              (final (run pre (sessionStart origin))) h Hgone) as (Hev & Hheld & Hbuf).
  cbn zeta in Hbuf. specialize (Hbuf Hc1).
  split; [exact Hev|]. split; [exact Hheld|]. split; [exact Hbuf|].
  assert (Hcfg : MotionAnalyzer.config (final (run pre (sessionStart origin))) =
                 MotionAnalyzer.config (sessionStart origin)) by apply run_config.
  split.
  - intros [Hs0 Hs]. rewrite Hbuf.
    assert (Hsound : soundHand (MotionAnalyzer.config (sessionStart origin))
                       (handOf h (final (run pre (sessionStart origin))))).
    { apply run_sound; [reflexivity|]. intros h'. now apply sessionStart_sound. }
    destruct Hsound as (Hsize & Hfit & _). rewrite <- Hsize in Hfit.
    destruct (zeros_fill_window (List.length gone) _ Hfit) as (_ & Hfit' & Hz).
    apply average_zeros.
    apply (zeroRun_full _ _ _ Hz Hfit'). rewrite Hsize. exact Hs.
  - destruct Hheld as (Hm' & _ & _ & _ & Hb' & _).
    apply below_readings_stop.
    + now rewrite Hm'.
    + exact Hc2.
    + now rewrite !run_config.
    + intros ->. cbn in Hlen. lia.
    + rewrite !run_config, Hb'.
      pose proof (stop_counter_nonneg origin pre h). lia.
Qed.
End Absence.

(** ** More instances *)

Lemma timesSorted_spec frames : timesSorted frames = true -> timesNonDecreasing frames.
Proof.
  unfold timesNonDecreasing.
  induction frames as [|f rest IH]; intros Hs i j fi fj Hij Hi Hj;
    [destruct i; discriminate|].
  assert (Hrest : timesSorted rest = true).
  { destruct rest as [|g rest']; [reflexivity|].
    cbn [timesSorted] in Hs. apply andb_prop in Hs. apply Hs. }
  assert (Hhead : forall k fk, nth_error rest k = Some fk -> time f <= time fk).
  { destruct rest as [|g rest']; [intros [|k]; discriminate|].
    cbn [timesSorted] in Hs. apply andb_prop in Hs. destruct Hs as [Hfg _].
    apply Qle_bool_iff in Hfg. intros k fk Hk.
    eapply Qle_trans; [exact Hfg|].
    apply (IH Hrest 0%nat k g fk); [lia|reflexivity|exact Hk]. }
  destruct i as [|i], j as [|j]; try lia.
  - injection Hi as <-. injection Hj as <-. apply Qle_refl.
  - injection Hi as <-. exact (Hhead j fj Hj).
  - apply (IH Hrest i j fi fj); [lia|exact Hi|exact Hj].
Qed.

Lemma Qsqrt_nonneg q : 0 <= Qsqrt q.
Proof.
  unfold Qsqrt, Qle. cbn. rewrite Z.mul_1_r. apply Z.sqrt_nonneg.
Qed.

Lemma eclipse_crash :
  crash (handleFrames Qsqrt eclipse (sessionStart (Constructed TRACKER_CONFIG))) = None.
Proof. vm_compute. reflexivity. Qed.

Lemma eclipse_result_19 :
  nth_error
    (results (handleFrames Qsqrt eclipse (sessionStart (Constructed TRACKER_CONFIG))))
    19 = Some eclipseStopped.
Proof. vm_compute. reflexivity. Qed.

Lemma eclipse_result_5 :
  nth_error
    (results (handleFrames Qsqrt eclipse (sessionStart (Constructed TRACKER_CONFIG))))
    5 = Some eclipseStarted.
Proof. vm_compute. reflexivity. Qed.

Lemma eclipse_stop_event :
  In eclipseStopEvent (eventsOf Left (MotionAnalyzer.events eclipseStopped)) /\
  In eclipseStopEvent (MotionAnalyzer.events eclipseStopped) /\
  MotionEvent.type eclipseStopEvent = STOP.
Proof. conjuncts; vm_compute; first [reflexivity | left; reflexivity]. Qed.

Lemma eclipse_start_event :
  In eclipseStartEvent (eventsOf Left (MotionAnalyzer.events eclipseStarted)) /\
  MotionEvent.type eclipseStartEvent = START.
Proof. conjuncts; vm_compute; first [reflexivity | left; reflexivity]. Qed.

Lemma eclipse_start_frame :
  frameOutcome Qsqrt eclipseStartFrame eclipseStarting =
  (Normal eclipseStarted, snd (frameOutcome Qsqrt eclipseStartFrame eclipseStarting)).
Proof. vm_compute. reflexivity. Qed.

Lemma readout_velocity_nonneg_witness :
  metricsOf Left eclipseStopped = Some eclipseReadout /\
  0 <= HandData.velocity eclipseReadout.
Proof.
  assert (Hm : metricsOf Left eclipseStopped = Some eclipseReadout)
    by (vm_compute; reflexivity).
  split; [exact Hm|].
  exact (readout_velocity_nonneg Qsqrt (Constructed TRACKER_CONFIG) eclipse 19
           eclipseStopped Left eclipseReadout Qsqrt_nonneg eclipse_result_19 Hm).
Defined.

Lemma frame_events_shape_witness :
  MotionAnalyzer.events eclipseStarted =
    eventsOf Left (MotionAnalyzer.events eclipseStarted) ++
    eventsOf Right (MotionAnalyzer.events eclipseStarted) /\
  (forall h, List.length (eventsOf h (MotionAnalyzer.events eclipseStarted)) <= 1)%nat.
Proof.
  exact (frame_events_shape Qsqrt eclipseStartFrame eclipseStarting eclipseStarted
           (snd (frameOutcome Qsqrt eclipseStartFrame eclipseStarting))
           eclipse_start_frame).
Defined.

Lemma counters_count_the_log_witness :
  crash (handleFrames Qsqrt eclipse (sessionStart (Constructed TRACKER_CONFIG))) = None /\
  MotionAnalyzer.moveOrderCounter
    (final (handleFrames Qsqrt eclipse (sessionStart (Constructed TRACKER_CONFIG)))) =
  Z.of_nat
    (List.length
       (filter isStart
          (eventLog (handleFrames Qsqrt eclipse (sessionStart (Constructed TRACKER_CONFIG)))))).
Proof.
  assert (Hc : crash (handleFrames Qsqrt eclipse
                        (sessionStart (Constructed TRACKER_CONFIG))) = None)
    by (vm_compute; reflexivity).
  split; [exact Hc|].
  exact (proj2 (counters_count_the_log Qsqrt (Constructed TRACKER_CONFIG) eclipse Hc)).
Defined.

Lemma timestamps_are_session_relative_witness :
  exists f, nth_error eclipse 19 = Some f /\
            MotionEvent.timestamp eclipseStopEvent =
              time f - originTime (Constructed TRACKER_CONFIG).
Proof.
  exact (timestamps_are_session_relative Qsqrt (Constructed TRACKER_CONFIG) eclipse 19
           eclipseStopped eclipseStopEvent eclipse_result_19
           (proj1 (proj2 eclipse_stop_event))).
Defined.

Lemma event_matches_readout_witness :
  exists m,
    metricsOf Left eclipseStarted = Some m /\
    match MotionEvent.type eclipseStartEvent with
    | START =>
        HandData.isMoving m = true /\
        threshold (MotionAnalyzer.config eclipseStarting) < HandData.velocity m
    | STOP =>
        HandData.isMoving m = false /\
        HandData.velocity m < threshold (MotionAnalyzer.config eclipseStarting) * 0.5
    end.
Proof.
  exact (event_matches_readout Qsqrt eclipseStartFrame eclipseStarting eclipseStarted
           (snd (frameOutcome Qsqrt eclipseStartFrame eclipseStarting)) Left
           eclipseStartEvent eclipse_start_frame (proj1 eclipse_start_event)).
Defined.

Lemma stop_duration_nonneg_witness :
  timesNonDecreasing eclipse /\
  exists d, MotionEvent.duration eclipseStopEvent = Some d /\ 0 <= d.
Proof.
  assert (Hs : timesNonDecreasing eclipse)
    by (apply timesSorted_spec; vm_compute; reflexivity).
  split; [exact Hs|].
  exact (stop_duration_nonneg Qsqrt (Constructed TRACKER_CONFIG) eclipse Left 19
           eclipseStopped eclipseStopEvent Hs eclipse_result_19
           (proj1 eclipse_stop_event) (proj2 (proj2 eclipse_stop_event))).
Defined.

Lemma motionless_hand_has_no_event_witness :
  Forall (onlyAt Left (Point.mk ((0.3 + 0.3) / 2) ((0.5 + 0.5) / 2) ((0 + 0) / 2)))
    (rest 0 0.3 5) /\
  eventsOf Left
    (eventLog (handleFrames Qsqrt (rest 0 0.3 5) (sessionStart (Constructed TRACKER_CONFIG))))
  = [].
Proof.
  assert (Hall : Forall (onlyAt Left (Point.mk ((0.3 + 0.3) / 2) ((0.5 + 0.5) / 2)
                                        ((0 + 0) / 2)))
                   (rest 0 0.3 5)).
  { repeat constructor; intros lms p [= <-] [= <-]; reflexivity. }
  assert (Hthr : 0 <= threshold (MotionAnalyzer.config
                                   (sessionStart (Constructed TRACKER_CONFIG))))
    by discriminate.
  split; [exact Hall|].
  exact (motionless_hand_has_no_event Qsqrt (Constructed TRACKER_CONFIG) (rest 0 0.3 5)
           Left _ Qsqrt_zero Hthr Hall).
Defined.

Lemma hands_do_not_interfere_witness :
  Forall2 (sameFor Left) sweep sweepWatched /\
  map payload
    (eventsOf Left (eventLog (handleFrames Qsqrt sweep (MotionAnalyzer.new TRACKER_CONFIG)))) =
  map payload
    (eventsOf Left
       (eventLog (handleFrames Qsqrt sweepWatched (MotionAnalyzer.new TRACKER_CONFIG)))).
Proof.
  assert (Hsame : Forall2 (sameFor Left) sweep sweepWatched)
    by (repeat constructor).
  assert (Hc1 : crash (handleFrames Qsqrt sweep (MotionAnalyzer.new TRACKER_CONFIG)) = None)
    by (vm_compute; reflexivity).
  assert (Hc2 : crash (handleFrames Qsqrt sweepWatched (MotionAnalyzer.new TRACKER_CONFIG))
                = None)
    by (vm_compute; reflexivity).
  split; [exact Hsame|].
  exact (proj2 (proj2 (hands_do_not_interfere Qsqrt Left sweep sweepWatched
                         (MotionAnalyzer.new TRACKER_CONFIG)
                         (MotionAnalyzer.new TRACKER_CONFIG)
                         Hsame eq_refl eq_refl eq_refl Hc1 Hc2))).
Defined.

Lemma start_needs_frames_above_witness :
  crash (handleFrames Qsqrt eclipse (sessionStart (Constructed TRACKER_CONFIG))) = None /\
  (minDurationFrames (MotionAnalyzer.config (sessionStart (Constructed TRACKER_CONFIG))) <=
     Z.of_nat
       (aboveCount Left
          (threshold (MotionAnalyzer.config (sessionStart (Constructed TRACKER_CONFIG))))
          (firstn 6
             (results (handleFrames Qsqrt eclipse
                         (sessionStart (Constructed TRACKER_CONFIG)))))))%Z.
Proof.
  split; [exact eclipse_crash|].
  exact (start_needs_frames_above Qsqrt (Constructed TRACKER_CONFIG) eclipse Left 5
           eclipseStarted eclipseStartEvent eclipse_crash eclipse_result_5
           (proj1 eclipse_start_event) (proj2 eclipse_start_event)).
Defined.

Lemma labelHands_last_wins_witness :
  App.labelHands (Some twoLefts) = Normal (Some (handAt 0.6), None) /\
  ((forall i, ~ labelled "Right" twoLefts i) -> @None (list Point.t) = None).
Proof.
  assert (H : App.labelHands (Some twoLefts) = Normal (Some (handAt 0.6), None))
    by reflexivity.
  split; [exact H|].
  exact (proj2 (proj2 (proj2 (labelHands_last_wins twoLefts _ _ H)))).
Defined.

Lemma handleFrame_returns_witness :
  wellFormed twoLefts /\
  fst (App.handleFrame Qsqrt (Some twoLefts) 0 0 mounted) = None.
Proof.
  assert (Hwf : wellFormed twoLefts).
  { split; repeat constructor; try discriminate; right; cbn; lia. }
  split; [exact Hwf|].
  exact (handleFrame_returns Qsqrt (Some twoLefts) 0 0 mounted Hwf).
Defined.

Lemma session_ids_sequential_witness :
  crash (handleFrames Qsqrt eclipse (sessionStart (Constructed TRACKER_CONFIG))) = None /\
  NoDup (map MotionEvent.id
           (eventLog (handleFrames Qsqrt eclipse (sessionStart (Constructed TRACKER_CONFIG))))).
Proof.
  split; [exact eclipse_crash|].
  exact (proj2 (session_ids_sequential Qsqrt (Constructed TRACKER_CONFIG) eclipse
                  eclipse_crash)).
Defined.

Lemma absence_then_stop_witness :
  isMoving
    (handOf Left
       (final (handleFrames Qsqrt sweep (sessionStart (Constructed TRACKER_CONFIG)))))
    = true /\
  Forall (fun f => MotionAnalyzer.lost (landmarksOf Left f) = true) (blackout 10 5) /\
  crash (handleFrames Qsqrt (blackout 10 5)
           (final (handleFrames Qsqrt sweep (sessionStart (Constructed TRACKER_CONFIG)))))
    = None /\
  crash (handleFrames Qsqrt (rest 15 0.28 5)
           (final (handleFrames Qsqrt (blackout 10 5)
                     (final (handleFrames Qsqrt sweep
                               (sessionStart (Constructed TRACKER_CONFIG)))))))
    = None /\
  Forall (readsBelow Left
            (threshold (MotionAnalyzer.config (sessionStart (Constructed TRACKER_CONFIG)))
             * 0.5))
    (results
       (handleFrames Qsqrt (rest 15 0.28 5)
          (final (handleFrames Qsqrt (blackout 10 5)
                    (final (handleFrames Qsqrt sweep
                              (sessionStart (Constructed TRACKER_CONFIG)))))))) /\
  (Z.max 1 (minDurationFrames (MotionAnalyzer.config
                                 (sessionStart (Constructed TRACKER_CONFIG))))
     <= Z.of_nat (List.length (rest 15 0.28 5)))%Z /\
  exists e,
    In e (eventsOf Left
            (eventLog
               (handleFrames Qsqrt (rest 15 0.28 5)
                  (final (handleFrames Qsqrt (blackout 10 5)
                            (final (handleFrames Qsqrt sweep
                                      (sessionStart (Constructed TRACKER_CONFIG))))))))) /\
    MotionEvent.type e = STOP.
Proof.
  assert (Hm : isMoving
                 (handOf Left
                    (final (handleFrames Qsqrt sweep
                              (sessionStart (Constructed TRACKER_CONFIG)))))
               = true) by (vm_compute; reflexivity).
  assert (Hgone : Forall (fun f => MotionAnalyzer.lost (landmarksOf Left f) = true)
                    (blackout 10 5)) by (repeat constructor).
  assert (Hc1 : crash (handleFrames Qsqrt (blackout 10 5)
                         (final (handleFrames Qsqrt sweep
                                   (sessionStart (Constructed TRACKER_CONFIG)))))
                = None) by (vm_compute; reflexivity).
  assert (Hc2 : crash (handleFrames Qsqrt (rest 15 0.28 5)
                         (final (handleFrames Qsqrt (blackout 10 5)
                                   (final (handleFrames Qsqrt sweep
                                             (sessionStart (Constructed TRACKER_CONFIG)))))))
                = None) by (vm_compute; reflexivity).
  assert (Hlow : Forall (readsBelow Left
                           (threshold (MotionAnalyzer.config
                                         (sessionStart (Constructed TRACKER_CONFIG)))
                            * 0.5))
                   (results
                      (handleFrames Qsqrt (rest 15 0.28 5)
                         (final (handleFrames Qsqrt (blackout 10 5)
                                   (final (handleFrames Qsqrt sweep
                                             (sessionStart (Constructed TRACKER_CONFIG))))))))).
  { apply Forall_forall. intros r Hr. apply readsBelowb_spec.
    revert r Hr. apply forallb_forall. vm_compute. reflexivity. }
  assert (Hlen : (Z.max 1 (minDurationFrames
                             (MotionAnalyzer.config
                                (sessionStart (Constructed TRACKER_CONFIG))))
                    <= Z.of_nat (List.length (rest 15 0.28 5)))%Z)
    by (vm_compute; discriminate).
  split; [exact Hm|]. split; [exact Hgone|]. split; [exact Hc1|]. split; [exact Hc2|].
  split; [exact Hlow|]. split; [exact Hlen|].
  exact (proj2 (proj2 (proj2 (proj2
           (absence_then_stop Qsqrt (Constructed TRACKER_CONFIG) sweep (blackout 10 5)
              (rest 15 0.28 5) Left Hm Hgone Hc1 Hc2 Hlow Hlen))))).
Defined.
